(** * Elastos.ELA.SideChain: transaction admission

    A shallow embedding of

    - [blockchain/txvalidator.go]: the two-phase transaction validator and
      the cross-chain verifier,
    - the mempool fee helper ([GetTxFee], [GetTxFeeMap]),
    - [blockchain/DBCache.go]: the staged state cache,

    followed by the properties established about them.

    Conventions.  Machine integers are [Z] with the wrap-around of their
    width written out.  A [big.Int] is a [Z].  A hash ([Uint256], [Uint168])
    is the number its bytes spell, most significant byte first.  A Go string
    or byte slice is a [string] (a list of 8-bit characters).  A Go [error]
    is [option string]: [None] is [nil], [Some msg] carries the message.
    A message built with a format keeps its fixed text only.  A function
    that can index out of range returns in [run], whose second constructor
    is the run-time panic.  A [range] over a Go map visits the entries in
    an order the language leaves open; where the source has one, the
    embedding names the order it takes and the properties say what does
    not depend on it. *)

From Stdlib Require Import ZArith Lia Ascii String PrimFloat SpecFloat FloatOps.
From stdpp Require Import gmap strings list fin_maps.

Local Open Scope string_scope.
Local Open Scope list_scope.
Local Open Scope Z_scope.

(** ** Machine arithmetic *)

Module Int.

(** Two's-complement reduction to [bits] bits. *)
Definition wrap (bits z : Z) : Z :=
  (z + 2 ^ (bits - 1)) mod 2 ^ bits - 2 ^ (bits - 1).

Definition int64 (z : Z) : Z := wrap 64 z.
Definition uint8 (z : Z) : Z := z mod 2 ^ 8.
Definition uint32 (z : Z) : Z := z mod 2 ^ 32.

Definition MinInt64 : Z := - 2 ^ 63.
Definition MaxInt64 : Z := 2 ^ 63 - 1.
Definition MaxUint16 : Z := 65535.
Definition MaxUint32 : Z := 4294967295.

Definition is_int64 (z : Z) : Prop := MinInt64 <= z <= MaxInt64.

End Int.

(** [Fixed64] is an [int64] counting 10^-8 units; [+] and [-] wrap. *)
Module Fixed64.

Definition add (a b : Z) : Z := Int.int64 (a + b).
Definition sub (a b : Z) : Z := Int.int64 (a - b).

(** [var s Fixed64; for ... { s += v }] *)
Definition sum (vs : list Z) : Z := foldl add 0 vs.

(** [Fixed64.IntValue] of the utility library: the underlying [int64]. *)
Definition IntValue (f : Z) : Z := f.

End Fixed64.

(** ** IEEE binary64, as far as the validator uses it *)

Module Float64.

(** The binary64 value nearest to an integer, ties to even. *)
Definition nearest (z : Z) : float :=
  SF2Prim (binary_normalize 53 1024 z 0 false).

(** [float64(x)] for an [int64]. *)
Definition of_int64 (z : Z) : float := nearest z.

(** The integer part of a finite float, [None] for infinities and NaN. *)
Definition truncate (f : float) : option Z :=
  match Prim2SF f with
  | S754_zero _ => Some 0
  | S754_finite s m e =>
      let mag := if 0 <=? e then Z.pos m * 2 ^ e else Z.pos m / 2 ^ (- e) in
      Some (if s then - mag else mag)
  | S754_infinity _ => None
  | S754_nan => None
  end.

(** [int64(f)]: truncation toward zero.  Go leaves a value that does not
    fit implementation-dependent; on amd64, the platform of the reference
    node, the conversion instruction yields [MinInt64]. *)
Definition to_int64 (f : float) : Z :=
  match truncate f with
  | Some z => if (Int.MinInt64 <=? z) && (z <=? Int.MaxInt64) then z
              else Int.MinInt64
  | None => Int.MinInt64
  end.

(** [math.Pow10] on a non-negative exponent (the validator passes
    [int] of a [byte]): the product of two table entries, each the float
    nearest to its power of ten; infinity above 308. *)
Definition Pow10 (n : N) : float :=
  let n := Z.of_N n in
  if n <=? 308
  then PrimFloat.mul (nearest (10 ^ (32 * (n / 32)))) (nearest (10 ^ (n mod 32)))
  else PrimFloat.infinity.

(** [Fixed64(float64(a) * r)]: the scaling used for the exchange rate
    and for the foundation's share. *)
Definition scale (a : Z) (r : float) : Z :=
  to_int64 (PrimFloat.mul (of_int64 a) r).

(** The constant [0.3] as Go rounds it to binary64. *)
Definition c0_3 : float := 0x1.3333333333333p-2%float.

End Float64.

(** ** Results, errors and loops *)

Definition error : Type := option string.

(** A [(value, error)] pair of which exactly one half is meaningful. *)
Inductive result (A : Type) : Type :=
| Ok (a : A)
| Error (msg : string).
Arguments Ok {A} a.
Arguments Error {A} msg.

(** The outcome of a call that may index out of range. *)
Inductive run (A : Type) : Type :=
| Returns (a : A)
| Panics (why : string).
Arguments Returns {A} a.
Arguments Panics {A} why.

Definition run_bind {A B} (r : run A) (k : A -> run B) : run B :=
  match r with
  | Returns a => k a
  | Panics why => Panics why
  end.

Notation "x <- r ;; k" := (run_bind r (fun x => k))
  (at level 100, r at next level, right associativity).

(** [for _, x := range l { if err := f(x); err != nil { return err } }] *)
Fixpoint first_error {A} (f : A -> error) (l : list A) : error :=
  match l with
  | [] => None
  | x :: l' =>
      match f x with
      | Some e => Some e
      | None => first_error f l'
      end
  end.

(** [s[i]] on a slice; [None] is the index-out-of-range panic. *)
Definition index {A} (l : list A) (i : Z) : option A :=
  if i <? 0 then None else l !! Z.to_nat i.

Definition len {A} (l : list A) : Z := Z.of_nat (length l).

(** ** Data model *)

Abbreviation Uint256 := Z (only parsing).
Abbreviation Uint168 := Z (only parsing).

(** The all-zero arrays [EmptyHash] and [Uint168{}]. *)
Definition EmptyHash : Uint256 := 0.
Definition EmptyProgramHash : Uint168 := 0.

(** [programHash[0]]: the first of the 21 bytes. *)
Definition prefixOf (programHash : Uint168) : Z := Z.shiftr programHash 160.

(** Address prefixes of the utility library. *)
Definition PrefixStandard : Z := 0x21.
Definition PrefixMultisig : Z := 0x12.
Definition PrefixCrossChain : Z := 0x4B.
Definition PrefixRegisterId : Z := 0x67.

(** The cross-chain payload, of the same shape on both chains: three
    parallel arrays. *)
Record PayloadTransferCrossChainAsset : Type := {
  CrossChainAddresses : list string;
  OutputIndexes : list Z;        (* []uint64 *)
  CrossChainAmounts : list Z;    (* []Fixed64 *)
}.

(** The main chain's transaction, as far as the verifier reads it. *)
Module ela.

Record Output : Type := {
  AssetID : Uint256;
  Value : Z;
  OutputLock : Z;
  ProgramHash : Uint168;
}.

Inductive Payload : Type :=
| TransferCrossChainAsset (p : PayloadTransferCrossChainAsset)
| OtherPayload.

Record Transaction : Type := {
  Outputs : list Output;
  Payload_ : Payload;
}.

End ela.

Module core.

Inductive TransactionType : Type :=
| CoinBase
| RegisterAsset
| TransferAsset
| Record_
| RechargeToSideChain
| TransferCrossChainAsset
| RegisterIdentification
| OtherType (code : Z).

#[global] Instance TransactionType_eq_dec : EqDecision TransactionType.
Proof. solve_decision. Defined.

Record OutPoint : Type := {
  TxID : Uint256;
  Index : Z;                   (* uint16 *)
}.

Record Input : Type := {
  Previous : OutPoint;
  Sequence : Z;                (* uint32 *)
}.

Record Output : Type := {
  AssetID : Uint256;
  Value : Z;                   (* Fixed64 *)
  TokenValue : Z;              (* big.Int *)
  OutputLock : Z;              (* uint32 *)
  ProgramHash : Uint168;
}.

Record Attribute : Type := {
  Usage : Z;                   (* byte *)
  Data : string;
}.

(** [Code] and [Parameter] are slices that may be [nil]. *)
Record Program : Type := {
  Code : option string;
  ProgramParameter : option string;
}.

Record Asset : Type := {
  Name : string;
  Description : string;
  Precision : Z;               (* byte *)
}.

Record PayloadRegisterAsset : Type := {
  Asset_ : Asset;
  Amount : Z;                  (* Fixed64 *)
  Controller : Uint168;
}.

Record PayloadRechargeToSideChain : Type := {
  MerkleProof : string;
  MainChainTransaction : string;
}.

(** The dynamic type of [txn.Payload]; [PldOther] is anything the
    validator's type switch does not name, [nil] included. *)
Inductive Payload : Type :=
| PldRegisterAsset (pld : PayloadRegisterAsset)
| PldTransferAsset
| PldRecord
| PldCoinBase
| PldRechargeToSideChain (pld : PayloadRechargeToSideChain)
| PldTransferCrossChainAsset (pld : PayloadTransferCrossChainAsset)
| PldRegisterIdentification
| PldOther.

Record Transaction : Type := {
  TxType : TransactionType;
  Payload_ : Payload;
  Attributes : list Attribute;
  Inputs : list Input;
  Outputs : list Output;
  LockTime : Z;                (* uint32 *)
  Programs : list Program;
}.

(** Modelled from the spec: the kind predicates of [core.Transaction]
    (core package), each a test of the declared transaction kind. *)
Definition IsCoinBaseTx (tx : Transaction) : bool :=
  bool_decide (TxType tx = CoinBase).
Definition IsRechargeToSideChainTx (tx : Transaction) : bool :=
  bool_decide (TxType tx = RechargeToSideChain).
Definition IsTransferCrossChainAssetTx (tx : Transaction) : bool :=
  bool_decide (TxType tx = TransferCrossChainAsset).
Definition IsRegisterAssetTx (tx : Transaction) : bool :=
  bool_decide (TxType tx = RegisterAsset).

(** Modelled from the spec: [OutPoint.IsEqual] (core package), the test
    that two references name the same previous output: identical
    transaction id and output index. *)
Definition OutPoint_IsEqual (a b : OutPoint) : bool :=
  (TxID a =? TxID b) && (Index a =? Index b).

End core.

(** ** Collaborators

    What the validator calls but does not define: pure helpers of other
    packages ([Lib]), the read-only chain parameters ([Config]) and the
    ledger state behind [DefaultLedger] ([Ledger]). *)

Record Lib : Type := {
  Hash : core.Transaction -> Uint256;
  GetSize : core.Transaction -> Z;
  AssetHash : core.Asset -> Uint256;
  IsValidAttributeType : Z -> bool;
  ToProgramHash : string -> result Uint168;
  Uint168FromAddress : string -> result Uint168;
  ToAddress : Uint168 -> result string;
  MerkleProofDeserialize : string -> error;
  ElaTransactionDeserialize : string -> result ela.Transaction;
  ElaTransactionHash : ela.Transaction -> Uint256;
  TransactionDeserialize : string -> result core.Transaction;
  GetGenesisProgramHash : Uint256 -> result Uint168;
}.

Record Config : Type := {
  MaxBlockSize : Z;              (* int *)
  MinTxFee : Z;                  (* PowConfiguration.MinTxFee, int *)
  MinCrossChainTxFee : Z;        (* int *)
  ExchangeRate : float;          (* float64 *)
  SpendCoinbaseSpan : Z;         (* uint32 *)
  FoundationAddress : Uint168;
  MinPrecision : Z;              (* core.MinPrecision *)
  MaxPrecision : Z;              (* core.MaxPrecision *)
}.

Record Ledger : Type := {
  NativeAssetID : Uint256;       (* DefaultLedger.Blockchain.AssetID *)
  IsTxHashDuplicate : Uint256 -> bool;
  IsMainchainTxHashDuplicate : Uint256 -> bool;
  GetTransaction : Uint256 -> result (core.Transaction * Z);
  (** The entries of the [map[*Input]*Output], in the order a [range]
      visits them. *)
  GetTxReference : core.Transaction -> result (list (core.Input * core.Output));
  GetHeight : Z;                 (* uint32 *)
  GetBlockHash : Z -> Uint256;
  GetAssets : list core.Asset;
  GetAsset : Uint256 -> result core.Asset;
  IsDoubleSpend : core.Transaction -> bool;
  VerifySignature : core.Transaction -> error;
}.

(** ** Error codes *)

Inductive ErrCode : Type :=
| Success
| ErrTransactionSize
| ErrInvalidInput
| ErrInvalidOutput
| ErrAssetPrecision
| ErrAttributeProgram
| ErrTransactionPayload
| ErrTxHashDuplicate
| ErrTransactionSignature
| ErrRechargeToSideChain
| ErrDoubleSpend
| ErrUTXOLocked
| ErrTransactionBalance
| ErrUnknownReferedTxn
| ErrInvalidReferedTxn
| ErrIneffectiveCoinbase.

#[global] Instance ErrCode_eq_dec : EqDecision ErrCode.
Proof. solve_decision. Defined.

(** ** The transaction validator ([blockchain/txvalidator.go]) *)

Module Validator.
Import core.

Section Checks.

Variable lib : Lib.
Variable cfg : Config.

(** *** Sanity phase *)

Definition CheckTransactionSize (txn : Transaction) : error :=
  let size := GetSize lib txn in
  if (size <=? 0) || (size >? MaxBlockSize cfg)
  then Some "Invalid transaction size"
  else None.

(** The loop over the inputs of an ordinary transaction; [seen] holds
    [txn.Inputs[0..i)]. *)
Fixpoint checkInputsFrom (seen rest : list Input) : error :=
  match rest with
  | [] => None
  | utxoin :: rest' =>
      if (TxID (Previous utxoin) =? EmptyHash)
         && (Index (Previous utxoin) =? Int.MaxUint16)
      then Some "invalid transaction input"
      else if existsb
                (fun earlier =>
                   OutPoint_IsEqual (Previous utxoin) (Previous earlier))
                seen
      then Some "duplicated transaction inputs"
      else checkInputsFrom (seen ++ [utxoin]) rest'
  end.

Definition CheckTransactionInput (txn : Transaction) : error :=
  if IsCoinBaseTx txn then
    match Inputs txn with
    | [input0] =>
        let coinbaseInputHash := TxID (Previous input0) in
        let coinbaseInputIndex := Index (Previous input0) in
        if negb (coinbaseInputHash =? EmptyHash)
           || negb (coinbaseInputIndex =? Int.MaxUint16)
        then Some "invalid coinbase input"
        else None
    | _ => Some "coinbase must has only one input"
    end
  else if IsRechargeToSideChainTx txn then None
  else if len (Inputs txn) <=? 0 then Some "transaction has no inputs"
  else checkInputsFrom [] (Inputs txn).

Definition CheckOutputProgramHash (programHash : Uint168) : bool :=
  let empty := EmptyProgramHash in
  let prefix := prefixOf programHash in
  (prefix =? PrefixStandard)
  || (prefix =? PrefixMultisig)
  || (prefix =? PrefixCrossChain)
  || (prefix =? PrefixRegisterId)
  || (programHash =? empty).

(** One pass over the coinbase outputs: total and foundation reward. *)
Definition coinbaseRewards (outputs : list Output) : Z * Z :=
  foldl
    (fun '(totalReward, foundationReward) output =>
       (Fixed64.add totalReward (Value output),
        if ProgramHash output =? FoundationAddress cfg
        then Fixed64.add foundationReward (Value output)
        else foundationReward))
    (0, 0) outputs.

(** The body of the loop over the outputs of an ordinary transaction. *)
Definition checkOutput (L : Ledger) (txn : Transaction) (output : Output)
  : error :=
  let shape :=
    if AssetID output =? EmptyHash then Some "asset id is nil"
    else if AssetID output =? NativeAssetID L then
      if (Value output <? 0) || negb (Z.sgn (TokenValue output) =? 0)
      then Some "invalid transaction output with ela asset id"
      else None
    else
      if IsRechargeToSideChainTx txn || IsTransferCrossChainAssetTx txn
      then Some "cross chain asset tx asset id should only be ela asset id"
      else if (Z.sgn (TokenValue output) <? 0) || negb (Value output =? 0)
      then Some "invalid transaction output with token asset id"
      else None in
  match shape with
  | Some e => Some e
  | None =>
      if negb (CheckOutputProgramHash (ProgramHash output))
      then Some "output address is invalid"
      else None
  end.

Definition CheckTransactionOutput (L : Ledger) (txn : Transaction) : error :=
  if IsCoinBaseTx txn then
    if len (Outputs txn) <? 2
    then Some "coinbase output is not enough, at least 2"
    else
      let '(totalReward, foundationReward) := coinbaseRewards (Outputs txn) in
      if foundationReward <? Float64.scale totalReward Float64.c0_3
      then Some "Reward to foundation in coinbase < 30%"
      else None
  else if len (Outputs txn) <? 1 then Some "transaction has no outputs"
  else first_error (checkOutput L txn) (Outputs txn).

(** [amount.IntValue() % int64(math.Pow10(int(assetPrecision-precision)))]
    with the subtraction in [byte]; Go's [%] truncates like [Z.rem].
    The divisor is never zero ([pow10_divisor_nonzero] below), so the
    division cannot panic. *)
Definition precisionDivisor (precision assetPrecision : Z) : Z :=
  Float64.to_int64
    (Float64.Pow10 (Z.to_N (Int.uint8 (assetPrecision - precision)))).

Definition checkAmountPrecise (amount precision assetPrecision : Z) : bool :=
  Z.rem (Fixed64.IntValue amount) (precisionDivisor precision assetPrecision)
  =? 0.

(** [assetOutputs[v.AssetID] = append(assetOutputs[v.AssetID], v)] *)
Definition groupByAsset (outputs : list Output) : gmap Z (list Output) :=
  foldl
    (fun assetOutputs v =>
       <[AssetID v := default [] (assetOutputs !! AssetID v) ++ [v]]>
         assetOutputs)
    ∅ outputs.

Definition checkOutputPrecision (L : Ledger) (precision : Z) (output : Output)
  : error :=
  if AssetID output =? NativeAssetID L then
    if negb (checkAmountPrecise (Value output) precision 8)
    then Some "Invalide ela asset value,out of precise."
    else None
  else
    if negb (checkAmountPrecise (Value output) precision 18)
    then Some "Invalide asset value,out of precise."
    else None.

Definition checkAssetGroup (L : Ledger) (entry : Z * list Output) : error :=
  let '(k, outputs) := entry in
  match GetAsset L k with
  | Error _ => Some "The asset not exist in local blockchain."
  | Ok asset => first_error (checkOutputPrecision L (Precision asset)) outputs
  end.

(** The [range] over [assetOutputs] visits the groups in an order Go does
    not fix; the embedding takes the order of [map_to_list].  Whether an
    error is returned does not depend on it ([CheckAssetPrecision_ok]). *)
Definition CheckAssetPrecision (L : Ledger) (txn : Transaction) : error :=
  if bool_decide (TxType txn = RegisterAsset) then None
  else if len (Outputs txn) =? 0 then None
  else first_error (checkAssetGroup L) (map_to_list (groupByAsset (Outputs txn))).

Definition checkAttribute (attr : Attribute) : error :=
  if negb (IsValidAttributeType lib (Usage attr))
  then Some "invalid attribute usage"
  else None.

Definition checkProgram (program : Program) : error :=
  match Code program with
  | None => Some "invalid program code nil"
  | Some code =>
      match ProgramParameter program with
      | None => Some "invalid program parameter nil"
      | Some _ =>
          match ToProgramHash lib code with
          | Error _ => Some "invalid program code"
          | Ok _ => None
          end
      end
  end.

Definition CheckAttributeProgram (txn : Transaction) : error :=
  match first_error checkAttribute (Attributes txn) with
  | Some e => Some e
  | None => first_error checkProgram (Programs txn)
  end.

Definition CheckTransactionPayload (L : Ledger) (txn : Transaction) : error :=
  match Payload_ txn with
  | PldRegisterAsset pld =>
      if (Precision (Asset_ pld) <? MinPrecision cfg)
         || (Precision (Asset_ pld) >? MaxPrecision cfg)
      then Some "Invalide asset Precision."
      else
        let txHash := Hash lib txn in
        if txHash =? NativeAssetID L then
          if negb (checkAmountPrecise (Amount pld) (Precision (Asset_ pld)) 8)
          then Some "Invalide ela asset value,out of precise."
          else None
        else
          if negb (checkAmountPrecise (Amount pld) (Precision (Asset_ pld)) 18)
          then Some "Invalide asset value,out of precise."
          else None
  | PldTransferAsset => None
  | PldRecord => None
  | PldCoinBase => None
  | PldRechargeToSideChain _ => None
  | PldTransferCrossChainAsset _ => None
  | PldRegisterIdentification => None
  | PldOther => Some "[txValidator],invalidate transaction payload type."
  end.

Definition CheckTransactionSanity (L : Ledger) (txn : Transaction) : ErrCode :=
  if CheckTransactionSize txn is Some _ then ErrTransactionSize
  else if CheckTransactionInput txn is Some _ then ErrInvalidInput
  else if CheckTransactionOutput L txn is Some _ then ErrInvalidOutput
  else if CheckAssetPrecision L txn is Some _ then ErrAssetPrecision
  else if CheckAttributeProgram txn is Some _ then ErrAttributeProgram
  else if CheckTransactionPayload L txn is Some _ then ErrTransactionPayload
  else if IsCoinBaseTx txn then Success
  else Success.

(** *** Context phase *)

(** The body of the loop over the resolved references. *)
Definition checkUTXOLock (txn : Transaction) (entry : Input * Output) : error :=
  let '(input, output) := entry in
  if OutputLock output =? 0 then None
  else if negb (Sequence input =? Int.MaxUint32 - 1)
  then Some "Invalid input sequence"
  else if LockTime txn <? OutputLock output then Some "UTXO output locked"
  else None.

Definition CheckTransactionUTXOLock (L : Ledger) (txn : Transaction) : error :=
  if IsCoinBaseTx txn then None
  else if len (Inputs txn) <=? 0 then Some "Transaction has no inputs"
  else
    match GetTxReference L txn with
    | Error _ => Some "GetReference failed"
    | Ok references => first_error (checkUTXOLock txn) references
    end.

(** [for _, output := range outputs { if native { ela += output.Value }
    else { token.Add(token, &output.TokenValue) } }], started from the
    running amounts [acc]. *)
Definition addAmounts (L : Ledger) (acc : Z * Z) (outputs : list Output)
  : Z * Z :=
  foldl
    (fun '(elaAmount, tokenAmount) output =>
       if AssetID output =? NativeAssetID L
       then (Fixed64.add elaAmount (Value output), tokenAmount)
       else (elaAmount, tokenAmount + TokenValue output))
    acc outputs.

(** The source runs the loop over [txn.Outputs] twice, once before the
    references are fetched and once after, into the same two
    accumulators. *)
Definition CheckTransactionFee (L : Ledger) (txn : Transaction) : error :=
  let outputAmounts := addAmounts L (0, 0) (Outputs txn) in
  match GetTxReference L txn with
  | Error err => Some err
  | Ok references =>
      let '(elaInputAmount, tokenInputAmount) :=
        addAmounts L (0, 0) (map snd references) in
      let '(elaOutputAmount, tokenOutputAmount) :=
        addAmounts L outputAmounts (Outputs txn) in
      let elaBalance := Fixed64.sub elaInputAmount elaOutputAmount in
      let feeError :=
        if IsTransferCrossChainAssetTx txn || IsRechargeToSideChainTx txn then
          if elaBalance <? MinCrossChainTxFee cfg
          then Some "crosschain transaction fee is not enough"
          else None
        else
          if elaBalance <? MinTxFee cfg
          then Some "transaction fee is not enough"
          else None in
      match feeError with
      | Some e => Some e
      | None =>
          let tokenBalance := tokenInputAmount - tokenOutputAmount in
          if negb (Z.sgn tokenBalance =? 0)
          then Some "token amount is not balanced"
          else None
      end
  end.

Definition CheckTransactionSignature (L : Ledger) (txn : Transaction) : error :=
  VerifySignature L txn.

(** **** Recharge to the side chain *)

(** One turn of the loop over the payload entries of the main-chain
    transaction: [Ok] carries the new [oriOutputTotalAmount], [Error] is
    the early return. *)
Definition rechargeEntry (txn : Transaction)
    (mainChainTransaction : ela.Transaction)
    (payloadObj : PayloadTransferCrossChainAsset)
    (genesisProgramHash : Uint168) (oriOutputTotalAmount : Z) (i : nat)
  : run (result Z) :=
  match OutputIndexes payloadObj !! i with
  | None => Panics "index out of range"
  | Some outputIndex =>
  match index (ela.Outputs mainChainTransaction) outputIndex with
  | None => Panics "index out of range"
  | Some mcOutput =>
  if ela.ProgramHash mcOutput =? genesisProgramHash then
    match CrossChainAmounts payloadObj !! i with
    | None => Panics "index out of range"
    | Some amount =>
    if (amount <? 0)
       || (amount >? Fixed64.sub (ela.Value mcOutput) (MinCrossChainTxFee cfg))
    then Returns (Error "Invalid transaction cross chain amount")
    else
      let crossChainAmount := Float64.scale amount (ExchangeRate cfg) in
      let oriOutputTotalAmount :=
        Fixed64.add oriOutputTotalAmount crossChainAmount in
      match CrossChainAddresses payloadObj !! i with
      | None => Panics "index out of range"
      | Some address =>
      match Uint168FromAddress lib address with
      | Error _ =>
          Returns (Error "Invalid transaction payload cross chain address")
      | Ok programHash =>
          let isContained :=
            existsb
              (fun output =>
                 (ProgramHash output =? programHash)
                 && (Value output =? crossChainAmount))
              (Outputs txn) in
          if negb isContained
          then Returns (Error "Invalid transaction outputs")
          else Returns (Ok oriOutputTotalAmount)
      end
      end
    end
  else Returns (Ok oriOutputTotalAmount)
  end
  end.

Fixpoint rechargeLoop (txn : Transaction)
    (mainChainTransaction : ela.Transaction)
    (payloadObj : PayloadTransferCrossChainAsset)
    (genesisProgramHash : Uint168) (oriOutputTotalAmount : Z)
    (indexes : list nat) : run (result Z) :=
  match indexes with
  | [] => Returns (Ok oriOutputTotalAmount)
  | i :: rest =>
      r <- rechargeEntry txn mainChainTransaction payloadObj
             genesisProgramHash oriOutputTotalAmount i ;;
      match r with
      | Error e => Returns (Error e)
      | Ok total =>
          rechargeLoop txn mainChainTransaction payloadObj
            genesisProgramHash total rest
      end
  end.

(** [for _, output := range outputs { if output.Value < 0 { return err };
    target += output.Value }] *)
Fixpoint targetOutputTotal (targetOutputTotalAmount : Z)
    (outputs : list Output) : result Z :=
  match outputs with
  | [] => Ok targetOutputTotalAmount
  | output :: rest =>
      if Value output <? 0 then Error "Invalid transaction output value"
      else targetOutputTotal
             (Fixed64.add targetOutputTotalAmount (Value output)) rest
  end.

Definition CheckRechargeToSideChainTransaction (L : Ledger)
    (txn : Transaction) : run error :=
  match Payload_ txn with
  | PldRechargeToSideChain payloadRecharge =>
  if PrimFloat.leb (ExchangeRate cfg) PrimFloat.zero
  then Returns (Some "Invalid config exchange rate")
  else
  match MerkleProofDeserialize lib (MerkleProof payloadRecharge) with
  | Some _ => Returns (Some "RechargeToSideChain payload deserialize failed")
  | None =>
  match ElaTransactionDeserialize lib (MainChainTransaction payloadRecharge) with
  | Error _ =>
      Returns (Some "RechargeToSideChain mainChainTransaction deserialize failed")
  | Ok mainChainTransaction =>
  let mainchainTxhash := ElaTransactionHash lib mainChainTransaction in
  if IsMainchainTxHashDuplicate L mainchainTxhash
  then Returns (Some "Duplicate mainchain transaction hash in paylod")
  else
  match ela.Payload_ mainChainTransaction with
  | ela.OtherPayload =>
      Returns (Some "Invalid payload ela.PayloadTransferCrossChainAsset")
  | ela.TransferCrossChainAsset payloadObj =>
  let genesisHash := GetBlockHash L 0 in
  match GetGenesisProgramHash lib genesisHash with
  | Error _ => Returns (Some "Genesis block bytes to program hash failed")
  | Ok genesisProgramHash =>
      r <- rechargeLoop txn mainChainTransaction payloadObj
             genesisProgramHash 0
             (seq 0 (length (CrossChainAddresses payloadObj))) ;;
      match r with
      | Error e => Returns (Some e)
      | Ok oriOutputTotalAmount =>
          match targetOutputTotal 0 (Outputs txn) with
          | Error e => Returns (Some e)
          | Ok targetOutputTotalAmount =>
              if negb (targetOutputTotalAmount =? oriOutputTotalAmount)
              then Returns (Some "Output and fee verify failed")
              else Returns None
          end
      end
  end
  end
  end
  end
  | _ => Returns (Some "Invalid recharge to side chain payload type")
  end.

(** **** Transfer of a cross-chain asset *)

(** The loop that fills [outputIndexMap]; [int(outputIndex)] reinterprets
    the [uint64] as an [int]. *)
Fixpoint checkOutputIndexes (txn : Transaction) (outputIndexMap : gset Z)
    (outputIndexes : list Z) : error :=
  match outputIndexes with
  | [] => None
  | outputIndex :: rest =>
      if bool_decide (outputIndex ∈ outputIndexMap)
         || (Int.int64 outputIndex >=? len (Outputs txn))
      then Some "Invalid transaction payload cross chain index"
      else checkOutputIndexes txn ({[outputIndex]} ∪ outputIndexMap) rest
  end.

Definition crossChainCount (outputs : list Output) : Z :=
  foldl
    (fun count output =>
       if ProgramHash output =? EmptyProgramHash then count + 1 else count)
    0 outputs.

Definition checkCrossChainAddress (address : string) : error :=
  if bool_decide (address = "")
  then Some "Invalid transaction cross chain address"
  else
    match Uint168FromAddress lib address with
    | Error _ => Some "Invalid transaction cross chain address"
    | Ok programHash =>
        if negb (prefixOf programHash =? PrefixStandard)
           && negb (prefixOf programHash =? PrefixMultisig)
        then Some "Invalid transaction cross chain address"
        else None
    end.

(** One turn of the loop over the cross-chain amounts. *)
Definition checkCrossChainAmount (txn : Transaction)
    (payloadObj : PayloadTransferCrossChainAsset) (i : nat) : run error :=
  match OutputIndexes payloadObj !! i with
  | None => Panics "index out of range"
  | Some outputIndex =>
  match index (Outputs txn) outputIndex with
  | None => Panics "index out of range"
  | Some output =>
      if negb (ProgramHash output =? EmptyProgramHash)
      then Returns (Some "Invalid transaction output program hash")
      else if Value output <? 0
      then Returns (Some "Invalid transaction outputs")
      else
        match CrossChainAmounts payloadObj !! i with
        | None => Panics "index out of range"
        | Some amount =>
            if (amount <? 0)
               || (amount >?
                   Fixed64.sub (Value output) (MinCrossChainTxFee cfg))
            then Returns (Some "Invalid transaction outputs")
            else Returns None
        end
  end
  end.

Fixpoint checkCrossChainAmounts (txn : Transaction)
    (payloadObj : PayloadTransferCrossChainAsset) (indexes : list nat)
  : run error :=
  match indexes with
  | [] => Returns None
  | i :: rest =>
      r <- checkCrossChainAmount txn payloadObj i ;;
      match r with
      | Some e => Returns (Some e)
      | None => checkCrossChainAmounts txn payloadObj rest
      end
  end.

Definition CheckTransferCrossChainAssetTransaction (L : Ledger)
    (txn : Transaction) : run error :=
  match Payload_ txn with
  | PldTransferCrossChainAsset payloadObj =>
  if (len (CrossChainAddresses payloadObj) =? 0)
     || (len (CrossChainAddresses payloadObj) >? len (Outputs txn))
     || negb (len (CrossChainAddresses payloadObj)
              =? len (CrossChainAmounts payloadObj))
     || negb (len (CrossChainAmounts payloadObj)
              =? len (OutputIndexes payloadObj))
  then Returns (Some "Invalid transaction payload content")
  else
  match checkOutputIndexes txn ∅ (OutputIndexes payloadObj) with
  | Some e => Returns (Some e)
  | None =>
  if negb (len (CrossChainAddresses payloadObj)
           =? crossChainCount (Outputs txn))
  then Returns (Some "Invalid transaction cross chain counts")
  else
  match first_error checkCrossChainAddress (CrossChainAddresses payloadObj) with
  | Some e => Returns (Some e)
  | None =>
      r <- checkCrossChainAmounts txn payloadObj
             (seq 0 (length (OutputIndexes payloadObj))) ;;
      match r with
      | Some e => Returns (Some e)
      | None =>
          match GetTxReference L txn with
          | Error _ => Returns (Some "Invalid transaction inputs")
          | Ok reference =>
              let totalInput := Fixed64.sum (map (fun e => Value (snd e)) reference) in
              let totalOutput := Fixed64.sum (map Value (Outputs txn)) in
              if Fixed64.sub totalInput totalOutput <? MinCrossChainTxFee cfg
              then Returns (Some "Invalid transaction fee")
              else Returns None
          end
      end
  end
  end
  | _ => Returns (Some "Invalid transfer cross chain asset payload type")
  end.

(** **** Registration of an asset *)

(** The loop over the outputs that carry the registered asset. *)
Fixpoint registeredTokenTotal (payload : PayloadRegisterAsset)
    (totalToken : Z) (outputs : list Output) : result Z :=
  match outputs with
  | [] => Ok totalToken
  | output :: rest =>
      if AssetID output =? AssetHash lib (Asset_ payload) then
        if negb (ProgramHash output =? Controller payload)
        then Error "Register asset program hash not same as program hash in payload"
        else registeredTokenTotal payload (totalToken + TokenValue output) rest
      else registeredTokenTotal payload totalToken rest
  end.

Definition getPrecisionBigInt : Z := 1000000000000000000.

Definition CheckRegisterAssetTransaction (L : Ledger) (txn : Transaction)
  : error :=
  match Payload_ txn with
  | PldRegisterAsset payload =>
      if existsb
           (fun asset => bool_decide (Name asset = Name (Asset_ payload)))
           (GetAssets L)
      then Some "Asset name has been registed"
      else
        match registeredTokenTotal payload 0 (Outputs txn) with
        | Error e => Some e
        | Ok totalToken =>
            let regAmount := Amount payload * getPrecisionBigInt in
            if negb (totalToken =? regAmount)
            then Some "Invalid register asset amount"
            else None
        end
  | _ => Some "Invalid register asset transaction payload"
  end.

(** **** The context phase proper *)

(** The closing loop of [CheckTransactionContext] over the inputs. *)
Fixpoint checkReferencedOutputs (L : Ledger) (inputs : list Input)
  : run ErrCode :=
  match inputs with
  | [] => Returns Success
  | input :: rest =>
      let referHash := TxID (Previous input) in
      let referTxnOutIndex := Index (Previous input) in
      match GetTransaction L referHash with
      | Error _ => Returns ErrUnknownReferedTxn
      | Ok (referTxn, _) =>
      match index (Outputs referTxn) referTxnOutIndex with
      | None => Panics "index out of range"
      | Some referTxnOut =>
          let valueError :=
            if AssetID referTxnOut =? NativeAssetID L
            then Value referTxnOut <=? 0
            else false (* a bad TokenValue is only logged *) in
          if valueError then Returns ErrInvalidReferedTxn
          else if IsCoinBaseTx referTxn
                  && (let lockHeight := LockTime referTxn in
                      let currentHeight := GetHeight L in
                      Int.uint32 (currentHeight - lockHeight)
                      <? SpendCoinbaseSpan cfg)
          then Returns ErrIneffectiveCoinbase
          else checkReferencedOutputs L rest
      end
      end
  end.

(** [CheckTransactionContext] from the register-asset check onwards. *)
Definition contextAfterCrossChain (L : Ledger) (txn : Transaction)
  : run ErrCode :=
  let registerErr :=
    if IsRegisterAssetTx txn then CheckRegisterAssetTransaction L txn
    else None in
  if registerErr is Some _ then Returns ErrInvalidOutput
  else if IsDoubleSpend L txn then Returns ErrDoubleSpend
  else if CheckTransactionUTXOLock L txn is Some _ then Returns ErrUTXOLocked
  else if CheckTransactionFee L txn is Some _ then Returns ErrTransactionBalance
  else checkReferencedOutputs L (Inputs txn).

Definition CheckTransactionContext (L : Ledger) (txn : Transaction)
  : run ErrCode :=
  if IsTxHashDuplicate L (Hash lib txn) then Returns ErrTxHashDuplicate
  else if IsCoinBaseTx txn then Returns Success
  else if CheckTransactionSignature L txn is Some _
  then Returns ErrTransactionSignature
  else if IsRechargeToSideChainTx txn then
    err <- CheckRechargeToSideChainTransaction L txn ;;
    if err is Some _ then Returns ErrRechargeToSideChain else Returns Success
  else
    err <- (if IsTransferCrossChainAssetTx txn
            then CheckTransferCrossChainAssetTransaction L txn
            else Returns None) ;;
    if err is Some _ then Returns ErrInvalidOutput
    else contextAfterCrossChain L txn.

End Checks.
End Validator.

(** ** The fee helper of the mempool *)

Module FeeHelper.
Import core.

Section Helper.

Variable lib : Lib.
Variable cfg : Config.
(** [h.db], the chain store the helper was built over. *)
Variable db : Ledger.

(** [amout, ok := m[v.AssetID]; if ok { m[v.AssetID] = amout + v.Value }
    else { m[v.AssetID] = v.Value }] *)
Definition addValue (m : gmap Z Z) (v : Output) : gmap Z Z :=
  match m !! AssetID v with
  | Some amout => <[AssetID v := Fixed64.add amout (Value v)]> m
  | None => <[AssetID v := Value v]> m
  end.

Definition sumByAsset (outputs : list Output) : gmap Z Z :=
  foldl addValue ∅ outputs.

(** The body of the [range] over [outputs]; a missing [feeMap] entry
    reads as zero. *)
Definition balanceOutput (inputs feeMap : gmap Z Z) (entry : Z * Z)
  : gmap Z Z :=
  let '(outputAssetid, outputValue) := entry in
  match inputs !! outputAssetid with
  | Some inputValue =>
      <[outputAssetid := Fixed64.sub inputValue outputValue]> feeMap
  | None =>
      <[outputAssetid :=
          Fixed64.sub (default 0 (feeMap !! outputAssetid)) outputValue]>
        feeMap
  end.

(** The body of the [range] over [inputs]. *)
Definition balanceInput (feeMap : gmap Z Z) (entry : Z * Z) : gmap Z Z :=
  let '(inputAssetid, inputValue) := entry in
  match feeMap !! inputAssetid with
  | Some _ => feeMap
  | None =>
      <[inputAssetid :=
          Fixed64.add (default 0 (feeMap !! inputAssetid)) inputValue]>
        feeMap
  end.

(** The general case, from the resolved references on.  The two [range]s
    over maps run in the order of [map_to_list]; each turn touches only
    its own key. *)
Definition feeMapOf (reference : list (Input * Output))
    (txOutputs : list Output) : gmap Z Z :=
  let inputs := sumByAsset (map snd reference) in
  let outputs := sumByAsset txOutputs in
  let feeMap := foldl (balanceOutput inputs) ∅ (map_to_list outputs) in
  foldl balanceInput feeMap (map_to_list inputs).

(** One turn of the inner loop of the recharge case. *)
Definition rechargeFee (mainChainTransaction : Transaction)
    (crossChainPayload : PayloadTransferCrossChainAsset) (v : Output)
    (feeMap : gmap Z Z) (i : nat) : run (result (gmap Z Z)) :=
  match ToAddress lib (ProgramHash v) with
  | Error err => Returns (Error err)
  | Ok targetAddress =>
  match CrossChainAddresses crossChainPayload !! i with
  | None => Panics "index out of range"
  | Some address =>
      if bool_decide (targetAddress = address) then
        match OutputIndexes crossChainPayload !! i with
        | None => Panics "index out of range"
        | Some outputIndex =>
        match index (Outputs mainChainTransaction) outputIndex with
        | None => Panics "index out of range"
        | Some mcOutput =>
            let mcAmount := Value mcOutput in
            let credited := Float64.scale mcAmount (ExchangeRate cfg) in
            match feeMap !! AssetID v with
            | Some amount =>
                Returns (Ok (<[AssetID v :=
                                 Fixed64.sub (Fixed64.add amount credited)
                                   (Value v)]> feeMap))
            | None =>
                Returns (Ok (<[AssetID v := Fixed64.sub credited (Value v)]>
                               feeMap))
            end
        end
        end
      else Returns (Ok feeMap)
  end
  end.

Fixpoint rechargeFeeInner (mainChainTransaction : Transaction)
    (crossChainPayload : PayloadTransferCrossChainAsset) (v : Output)
    (feeMap : gmap Z Z) (indexes : list nat) : run (result (gmap Z Z)) :=
  match indexes with
  | [] => Returns (Ok feeMap)
  | i :: rest =>
      r <- rechargeFee mainChainTransaction crossChainPayload v feeMap i ;;
      match r with
      | Error err => Returns (Error err)
      | Ok feeMap' =>
          rechargeFeeInner mainChainTransaction crossChainPayload v feeMap' rest
      end
  end.

Fixpoint rechargeFeeOuter (mainChainTransaction : Transaction)
    (crossChainPayload : PayloadTransferCrossChainAsset)
    (feeMap : gmap Z Z) (outputs : list Output) : run (result (gmap Z Z)) :=
  match outputs with
  | [] => Returns (Ok feeMap)
  | v :: rest =>
      r <- rechargeFeeInner mainChainTransaction crossChainPayload v feeMap
             (seq 0 (length (CrossChainAddresses crossChainPayload))) ;;
      match r with
      | Error err => Returns (Error err)
      | Ok feeMap' =>
          rechargeFeeOuter mainChainTransaction crossChainPayload feeMap' rest
      end
  end.

(** The two type assertions of the recharge case are unchecked: a payload
    of another type panics. *)
Definition GetTxFeeMap (tx : Transaction) : run (result (gmap Z Z)) :=
  if IsRechargeToSideChainTx tx then
    match Payload_ tx with
    | PldRechargeToSideChain depositPayload =>
        match TransactionDeserialize lib (MainChainTransaction depositPayload) with
        | Error _ =>
            Returns (Error "GetTxFeeMap mainChainTransaction deserialize failed")
        | Ok mainChainTransaction =>
            match Payload_ mainChainTransaction with
            | PldTransferCrossChainAsset crossChainPayload =>
                rechargeFeeOuter mainChainTransaction crossChainPayload ∅
                  (Outputs tx)
            | _ => Panics "interface conversion"
            end
        end
    | _ => Panics "interface conversion"
    end
  else
    match GetTxReference db tx with
    | Error err => Returns (Error err)
    | Ok reference => Returns (Ok (feeMapOf reference (Outputs tx)))
    end.

Definition GetTxFee (tx : Transaction) (assetId : Uint256) : run Z :=
  r <- GetTxFeeMap tx ;;
  match r with
  | Error _ => Returns 0
  | Ok feeMap => Returns (default 0 (feeMap !! assetId))
  end.

End Helper.
End FeeHelper.

(** ** The staged state cache ([blockchain/DBCache.go]) *)

(** The key/value store behind [ChainStore.IStore], as the cache uses it. *)
Class IStore (Store : Type) : Type := {
  Get : Store -> string -> result string;
  BatchPut : Store -> string -> string -> Store;
  BatchDelete : Store -> string -> Store;
}.

(** What a later [Get] sees of a batched write, once the batch is applied. *)
Class IStoreLaws (Store : Type) `{IStore Store} : Prop := {
  Get_BatchPut_eq s k v : Get (BatchPut s k v) k = Ok v;
  Get_BatchPut_ne s k k' v : k ≠ k' -> Get (BatchPut s k v) k' = Get s k';
  Get_BatchDelete_ne s k k' : k ≠ k' -> Get (BatchDelete s k) k' = Get s k';
}.

Module DBCache.

Section Cache.

(** [states.IStateValueInterface]: the values, their serialization and
    [states.GetStateValue], which decodes by prefix. *)
Context {StateValue : Type}.
Variable Serialize : StateValue -> string.
Variable GetStateValue : ascii -> string -> option StateValue * error.

Context {Store : Type} `{IStore Store}.

(** The text of [ErrDBNotFound.Error()]. *)
Variable ErrDBNotFound : string.

(** [storage.Write]; [Item] is an interface value and may be [nil]. *)
Record Write : Type := {
  Prefix : ascii;              (* DataEntryPrefix, a byte *)
  Key : string;
  Item : option StateValue;
  IsDeleted : bool;
}.

(** A cache: the write-set of [storage.RWSet] and the store. *)
Record Cache : Type := {
  WriteSet : gmap string Write;
  db : Store;
}.

Definition NewDBCache (db : Store) : Cache :=
  {| WriteSet := ∅; db := db |}.

(** [append([]byte{byte(prefix)}, []byte(key)...)] *)
Definition storeKey (prefix : ascii) (key : string) : string :=
  String prefix key.

Definition TryGetInternal (cache : Cache) (prefix : ascii) (key : string)
  : option StateValue * error :=
  let k := storeKey prefix key in
  match Get (db cache) k with
  | Error err => (None, Some err)
  | Ok value => GetStateValue prefix value
  end.

(** The entries are pointers: an update of [v] is an update of the
    write-set. *)
Definition GetOrAdd (cache : Cache) (prefix : ascii) (key : string)
    (value : option StateValue) : Cache * (option StateValue * error) :=
  match WriteSet cache !! key with
  | Some v =>
      let v' :=
        if IsDeleted v
        then {| Prefix := Prefix v; Key := Key v; Item := value;
                IsDeleted := false |}
        else v in
      ({| WriteSet := <[key := v']> (WriteSet cache); db := db cache |},
       (Item v', None))
  | None =>
      let '(item, err) := TryGetInternal cache prefix key in
      match err with
      | Some msg =>
          if negb (bool_decide (msg = ErrDBNotFound))
          then (cache, (None, err))
          else
            let write := {| Prefix := prefix; Key := key;
                            Item := if item is None then value else item;
                            IsDeleted := false |} in
            ({| WriteSet := <[key := write]> (WriteSet cache);
                db := db cache |},
             (Item write, None))
      | None =>
          let write := {| Prefix := prefix; Key := key;
                          Item := if item is None then value else item;
                          IsDeleted := false |} in
          ({| WriteSet := <[key := write]> (WriteSet cache);
              db := db cache |},
           (Item write, None))
      end
  end.

Definition TryGet (cache : Cache) (prefix : ascii) (key : string)
  : option StateValue * error :=
  match WriteSet cache !! key with
  | Some v => (Item v, None)
  | None => TryGetInternal cache prefix key
  end.

Definition GetWriteSet (cache : Cache) : gmap string Write := WriteSet cache.

(** The body of the [range] in [Commit]; serializing a [nil] item is a
    nil dereference. *)
Definition commitEntry (s : Store) (entry : string * Write) : run Store :=
  let '(k, v) := entry in
  let key := storeKey (Prefix v) k in
  if IsDeleted v then Returns (BatchDelete s key)
  else
    match Item v with
    | None => Panics "nil pointer dereference"
    | Some item => Returns (BatchPut s key (Serialize item))
    end.

(** [Commit], with the order in which the [range] visits the write-set
    made explicit. *)
Fixpoint commitIn (order : list (string * Write)) (s : Store) : run Store :=
  match order with
  | [] => Returns s
  | entry :: rest => s' <- commitEntry s entry ;; commitIn rest s'
  end.

Definition Commit (cache : Cache) : run Cache :=
  s <- commitIn (map_to_list (WriteSet cache)) (db cache) ;;
  Returns {| WriteSet := WriteSet cache; db := s |}.

(** Modelled from the spec: [RWSet.Delete] of the storage package, which
    [Suicide] calls and which is not among the sources.  It marks the
    write-set entry for [key] as deleted and does not touch the store; a
    read of a deleted key finds no value, so the entry becomes a
    tombstone that holds no item.  Deletes are tracked per key like
    writes: a key that has no entry yet gets a tombstone of its own,
    under the prefix [tombstonePrefix], which is left open. *)
Definition Delete (tombstonePrefix : ascii) (cache : Cache) (key : string)
  : Cache :=
  let tombstone :=
    match WriteSet cache !! key with
    | Some v => {| Prefix := Prefix v; Key := Key v; Item := None;
                   IsDeleted := true |}
    | None => {| Prefix := tombstonePrefix; Key := key; Item := None;
                 IsDeleted := true |}
    end in
  {| WriteSet := <[key := tombstone]> (WriteSet cache); db := db cache |}.

Definition GetBalance (cache : Cache) (hash : Uint168) : Z := 100.
Definition GetCodeSize (cache : Cache) (hash : Uint168) : Z := 0.
Definition AddBalance (cache : Cache) (hash : Uint168) (int2 : Z) : Cache :=
  cache.

(** [skey] is [storage.KeyToStr(&codeHash)]. *)
Definition Suicide (KeyToStr : Uint168 -> string) (tombstonePrefix : ascii)
    (cache : Cache) (codeHash : Uint168) : Cache * bool :=
  let skey := KeyToStr codeHash in
  (Delete tombstonePrefix cache skey, true).

End Cache.

Arguments Write : clear implicits.
Arguments Cache : clear implicits.

End DBCache.

(** ** Notions used in the statements *)

Module Notions.
Import core.

(** Two inputs of [txn], at different positions, spend the same previous
    output. *)
Definition duplicateInputs (txn : Transaction) : Prop :=
  exists (i j : nat) (a b : Input),
    (i < j)%nat /\ Inputs txn !! i = Some a /\ Inputs txn !! j = Some b /\
    Previous a = Previous b.

(** What the asset-precision check asks of one output: its asset is
    registered and its [Value] passes [checkAmountPrecise] at exponent 8
    (native asset) or 18 (any other). *)
Definition outputPrecisionError (L : Ledger) (output : Output) : error :=
  match GetAsset L (AssetID output) with
  | Error _ => Some "The asset not exist in local blockchain."
  | Ok asset => Validator.checkOutputPrecision L (Precision asset) output
  end.

(** Exact integer sums, and the amounts the fee check adds up: the
    [Value]s of the native-asset outputs and the [TokenValue]s of all
    others. *)
Definition sumZ (vs : list Z) : Z := foldr Z.add 0 vs.

Definition nativeValues (L : Ledger) (outputs : list Output) : list Z :=
  map Value (filter (fun o => AssetID o = NativeAssetID L) outputs).

Definition tokenValues (L : Ledger) (outputs : list Output) : list Z :=
  map TokenValue (filter (fun o => AssetID o <> NativeAssetID L) outputs).

(** The minimum fee that applies to [txn]. *)
Definition minimumFee (cfg : Config) (txn : Transaction) : Z :=
  if IsTransferCrossChainAssetTx txn || IsRechargeToSideChainTx txn
  then MinCrossChainTxFee cfg else MinTxFee cfg.

(** The cross-chain amount of payload entry [i], if the main-chain output
    the entry refers to targets the genesis program hash. *)
Definition genesisAmount (mainChainTransaction : ela.Transaction)
    (payloadObj : PayloadTransferCrossChainAsset)
    (genesisProgramHash : Uint168) (i : nat) : option Z :=
  match OutputIndexes payloadObj !! i with
  | Some outputIndex =>
      match index (ela.Outputs mainChainTransaction) outputIndex with
      | Some mcOutput =>
          if ela.ProgramHash mcOutput =? genesisProgramHash
          then CrossChainAmounts payloadObj !! i
          else None
      | None => None
      end
  | None => None
  end.

(** The amounts of these entries converted at the configured exchange
    rate, in payload order, and the expected total of a recharge: their
    sum in [Fixed64]. *)
Definition convertedAmounts (cfg : Config)
    (mainChainTransaction : ela.Transaction)
    (payloadObj : PayloadTransferCrossChainAsset)
    (genesisProgramHash : Uint168) : list Z :=
  map (fun amount => Float64.scale amount (ExchangeRate cfg))
    (omap (genesisAmount mainChainTransaction payloadObj genesisProgramHash)
       (seq 0 (length (CrossChainAddresses payloadObj)))).

Definition expectedTotal (cfg : Config) (mainChainTransaction : ela.Transaction)
    (payloadObj : PayloadTransferCrossChainAsset)
    (genesisProgramHash : Uint168) : Z :=
  Fixed64.sum
    (convertedAmounts cfg mainChainTransaction payloadObj genesisProgramHash).

(** The [Value]s of the outputs denominated in asset [a], their exact
    sum, and what the fee helper reads of a list of outputs. *)
Definition assetValues (a : Z) (outputs : list Output) : list Z :=
  map Value (filter (fun o => AssetID o = a) outputs).

Definition assetTotal (a : Z) (outputs : list Output) : Z :=
  sumZ (assetValues a outputs).


(** Every [Value] is a [Fixed64], that is, fits an [int64]. *)
Definition wellFormedValues (outputs : list Output) : Prop :=
  Forall (fun o => Int.is_int64 (Value o)) outputs.


(** Every write-set entry that is not a tombstone holds an item, so that
    [Commit] has something to serialize. *)
Definition liveEntriesHaveItems {StateValue}
    (ws : gmap string (DBCache.Write StateValue)) : Prop :=
  forall k w,
    ws !! k = Some w -> DBCache.IsDeleted w = false ->
    is_Some (DBCache.Item w).

End Notions.

(** ** Sample collaborators and transactions

    Concrete chain parameters, ledgers and transactions on which the
    definitions above are evaluated.  Hashes and addresses are stand-ins:
    the hash of a transaction is read off its lock time. *)

Module Sample.
Import core.

Definition ELA : Uint256 := 1.
Definition TOKEN : Uint256 := 2.

Definition standard (n : Z) : Uint168 := PrefixStandard * 2 ^ 160 + n.
Definition foundation : Uint168 := standard 99.
Definition alice : Uint168 := standard 11.
Definition bob : Uint168 := standard 12.
Definition genesisProgramHash : Uint168 := PrefixCrossChain * 2 ^ 160 + 5.

Definition crossChainPayload : PayloadTransferCrossChainAsset :=
  {| CrossChainAddresses := ["Ealice"];
     OutputIndexes := [0];
     CrossChainAmounts := [50000] |}.

(** The main-chain deposit: 60000 to the side chain's genesis address,
    of which 50000 cross over. *)
Definition mainChainTx : ela.Transaction :=
  {| ela.Outputs :=
       [ {| ela.AssetID := ELA; ela.Value := 60000; ela.OutputLock := 0;
            ela.ProgramHash := genesisProgramHash |} ];
     ela.Payload_ := ela.TransferCrossChainAsset crossChainPayload |}.

Definition lib : Lib :=
  {| Hash := fun tx => 1000 + LockTime tx;
     GetSize := fun tx => 100 + 50 * (len (Inputs tx) + len (Outputs tx));
     AssetHash := fun asset => 500 + Precision asset;
     IsValidAttributeType := fun _ => true;
     ToProgramHash := fun _ => Ok alice;
     Uint168FromAddress :=
       fun address =>
         if bool_decide (address = "Ealice") then Ok alice
         else if bool_decide (address = "Ebob") then Ok bob
         else Error "invalid address";
     ToAddress :=
       fun programHash =>
         if programHash =? alice then Ok "Ealice"
         else if programHash =? bob then Ok "Ebob"
         else Error "invalid program hash";
     MerkleProofDeserialize := fun _ => None;
     ElaTransactionDeserialize :=
       fun data =>
         if bool_decide (data = "deposit") then Ok mainChainTx
         else Error "unexpected EOF";
     ElaTransactionHash := fun _ => 77;
     TransactionDeserialize := fun _ => Error "unexpected EOF";
     GetGenesisProgramHash := fun _ => Ok genesisProgramHash |}.

Definition cfg : Config :=
  {| MaxBlockSize := 8000000;
     MinTxFee := 100;
     MinCrossChainTxFee := 10000;
     ExchangeRate := 1%float;
     SpendCoinbaseSpan := 100;
     FoundationAddress := foundation;
     MinPrecision := 0;
     MaxPrecision := 18 |}.

Definition elaAsset : Asset :=
  {| Name := "ELA"; Description := "native"; Precision := 8 |}.
Definition tokenAsset : Asset :=
  {| Name := "TOKEN"; Description := "token"; Precision := 0 |}.

Definition nativeOutput (value : Z) (to : Uint168) : Output :=
  {| AssetID := ELA; Value := value; TokenValue := 0; OutputLock := 0;
     ProgramHash := to |}.
Definition tokenOutput (tokenValue : Z) (to : Uint168) : Output :=
  {| AssetID := TOKEN; Value := 0; TokenValue := tokenValue; OutputLock := 0;
     ProgramHash := to |}.

Definition spend (txid index : Z) : Input :=
  {| Previous := {| TxID := txid; Index := index |};
     Sequence := Int.MaxUint32 |}.

(** The block reward: 70 to a miner, 30 to the foundation. *)
Definition coinbaseTx : Transaction :=
  {| TxType := CoinBase; Payload_ := PldCoinBase; Attributes := [];
     Inputs := [spend EmptyHash Int.MaxUint16];
     Outputs := [nativeOutput 7000000000 alice;
                 nativeOutput 3000000000 foundation];
     LockTime := 5; Programs := [] |}.

(** An earlier transaction, stored under hash 500, that funds the
    others: 100000 native units and 10 tokens to alice. *)
Definition fundingTx : Transaction :=
  {| TxType := TransferAsset; Payload_ := PldTransferAsset; Attributes := [];
     Inputs := [spend 400 0];
     Outputs := [nativeOutput 100000 alice; tokenOutput 10 alice;
                 nativeOutput 1000 alice];
     LockTime := 0; Programs := [] |}.

(** A recharge transaction whose two inputs spend the same output. *)
Definition rechargeTwiceTx : Transaction :=
  {| TxType := RechargeToSideChain;
     Payload_ := PldRechargeToSideChain
                   {| MerkleProof := "proof"; MainChainTransaction := "deposit" |};
     Attributes := [];
     Inputs := [spend 500 0; spend 500 0];
     Outputs := [nativeOutput 50000 alice];
     LockTime := 6; Programs := [] |}.

(** An ordinary transfer whose two inputs spend the same output. *)
Definition spendTwiceTx : Transaction :=
  {| TxType := TransferAsset; Payload_ := PldTransferAsset; Attributes := [];
     Inputs := [spend 500 0; spend 500 0];
     Outputs := [nativeOutput 50000 bob];
     LockTime := 7; Programs := [] |}.

(** Alice's 10 tokens pass to bob. *)
Definition tokenTransferTx : Transaction :=
  {| TxType := TransferAsset; Payload_ := PldTransferAsset; Attributes := [];
     Inputs := [spend 500 1];
     Outputs := [tokenOutput 10 bob];
     LockTime := 8; Programs := [] |}.


(** Alice pays bob 99000 out of 100000 and leaves 1000 as the fee. *)
Definition payTx : Transaction :=
  {| TxType := TransferAsset; Payload_ := PldTransferAsset; Attributes := [];
     Inputs := [spend 500 0];
     Outputs := [nativeOutput 99000 bob];
     LockTime := 10; Programs := [] |}.

(** Alice spends 10 tokens and hands on only 5. *)
Definition tokenLossTx : Transaction :=
  {| TxType := TransferAsset; Payload_ := PldTransferAsset; Attributes := [];
     Inputs := [spend 500 0; spend 500 1];
     Outputs := [nativeOutput 40000 alice; tokenOutput 5 bob];
     LockTime := 11; Programs := [] |}.

(** A cross-chain transfer that names one cross-chain address but has no
    output with the null destination. *)
Definition badTransferTx : Transaction :=
  {| TxType := TransferCrossChainAsset;
     Payload_ := PldTransferCrossChainAsset
                   {| CrossChainAddresses := ["Ealice"];
                      OutputIndexes := [0];
                      CrossChainAmounts := [30000] |};
     Attributes := [];
     Inputs := [spend 500 0];
     Outputs := [nativeOutput 40000 bob];
     LockTime := 12; Programs := [] |}.

(** The recharge that credits alice with the 50000 of [mainChainTx]. *)
Definition rechargeTx : Transaction :=
  {| TxType := RechargeToSideChain;
     Payload_ := PldRechargeToSideChain
                   {| MerkleProof := "proof"; MainChainTransaction := "deposit" |};
     Attributes := [];
     Inputs := [];
     Outputs := [nativeOutput 50000 alice];
     LockTime := 13; Programs := [] |}.


(** [ChainStore.GetTxReference]: every input resolved through
    [getTransaction]. *)
Fixpoint resolve (getTransaction : Z -> result (Transaction * Z))
    (inputs : list Input) : result (list (Input * Output)) :=
  match inputs with
  | [] => Ok []
  | utxo :: rest =>
      match getTransaction (TxID (Previous utxo)) with
      | Error e => Error e
      | Ok (transaction, _) =>
          match index (Outputs transaction) (Index (Previous utxo)) with
          | None => Error "GetTxReference failed, refIdx out of range."
          | Some output =>
              match resolve getTransaction rest with
              | Error e => Error e
              | Ok reference => Ok ((utxo, output) :: reference)
              end
          end
      end
  end.

Definition getTransaction (hash : Z) : result (Transaction * Z) :=
  if hash =? 500 then Ok (fundingTx, 10)
  else Error "transaction not found".

Definition getAsset (assetId : Z) : result Asset :=
  if assetId =? ELA then Ok elaAsset
  else if assetId =? TOKEN then Ok tokenAsset
  else Error "asset not found".

Definition ledger : Ledger :=
  {| NativeAssetID := ELA;
     IsTxHashDuplicate := fun _ => false;
     IsMainchainTxHashDuplicate := fun _ => false;
     GetTransaction := getTransaction;
     GetTxReference := fun tx => resolve getTransaction (Inputs tx);
     GetHeight := 200;
     GetBlockHash := fun _ => 900;
     GetAssets := [elaAsset; tokenAsset];
     GetAsset := getAsset;
     IsDoubleSpend := fun _ => false;
     VerifySignature := fun _ => None |}.

(** The same ledger after [coinbaseTx] has been stored. *)
Definition ledgerWithCoinbase : Ledger :=
  {| NativeAssetID := ELA;
     IsTxHashDuplicate := fun hash => hash =? Hash lib coinbaseTx;
     IsMainchainTxHashDuplicate := fun _ => false;
     GetTransaction := getTransaction;
     GetTxReference := fun tx => resolve getTransaction (Inputs tx);
     GetHeight := 200;
     GetBlockHash := fun _ => 900;
     GetAssets := [elaAsset; tokenAsset];
     GetAsset := getAsset;
     IsDoubleSpend := fun _ => false;
     VerifySignature := fun _ => None |}.

(** A ledger in which the token has not been registered. *)
Definition ledgerWithoutToken : Ledger :=
  {| NativeAssetID := ELA;
     IsTxHashDuplicate := fun _ => false;
     IsMainchainTxHashDuplicate := fun _ => false;
     GetTransaction := getTransaction;
     GetTxReference := fun tx => resolve getTransaction (Inputs tx);
     GetHeight := 200;
     GetBlockHash := fun _ => 900;
     GetAssets := [elaAsset];
     GetAsset := fun assetId =>
                   if assetId =? ELA then Ok elaAsset
                   else Error "asset not found";
     IsDoubleSpend := fun _ => false;
     VerifySignature := fun _ => None |}.

End Sample.

(** A store whose batches are applied at once, holding values that are
    their own serialization. *)
Module SampleStore.

#[global] Instance mapStore : IStore (gmap string string) :=
  {| Get := fun s k =>
              match s !! k with
              | Some v => Ok v
              | None => Error "leveldb: not found"
              end;
     BatchPut := fun s k v => <[k := v]> s;
     BatchDelete := fun s k => delete k s |}.

Definition ErrDBNotFound : string := "leveldb: not found".
Definition Serialize (v : string) : string := v.
Definition GetStateValue (prefix : ascii) (data : string)
  : option string * error := (Some data, None).

Definition ST_Storage : ascii := "p"%char.

Definition emptyCache : DBCache.Cache string (gmap string string) :=
  DBCache.NewDBCache ∅.

End SampleStore.

(** ** Further notions used in the statements *)

Module Shapes.
Import core Notions.

(** The reference a coinbase input carries and no other input may: the
    empty hash with the largest index. *)
Definition isSentinel (p : OutPoint) : Prop :=
  TxID p = EmptyHash /\ Index p = Int.MaxUint16.

(** The inputs [CheckTransactionInput] lets through, by kind of
    transaction. *)
Definition inputsAccepted (txn : Transaction) : Prop :=
  match TxType txn with
  | CoinBase =>
      exists input0, Inputs txn = [input0] /\ isSentinel (Previous input0)
  | RechargeToSideChain => True
  | _ =>
      Inputs txn <> []
      /\ Forall (fun input => ~ isSentinel (Previous input)) (Inputs txn)
      /\ NoDup (map Previous (Inputs txn))
  end.

(** An output of an ordinary transaction as [CheckTransactionOutput]
    wants it: a named asset, a recognised destination, and the amount in
    the one field that belongs to the asset. *)
Definition outputWellShaped (L : Ledger) (txn : Transaction) (o : Output)
  : Prop :=
  AssetID o <> EmptyHash
  /\ Validator.CheckOutputProgramHash (ProgramHash o) = true
  /\ (AssetID o = NativeAssetID L -> 0 <= Value o /\ TokenValue o = 0)
  /\ (AssetID o <> NativeAssetID L ->
      Value o = 0 /\ 0 <= TokenValue o
      /\ IsRechargeToSideChainTx txn = false
      /\ IsTransferCrossChainAssetTx txn = false).

(** The values of the coinbase outputs paid to the foundation. *)
Definition foundationValues (cfg : Config) (outputs : list Output) : list Z :=
  map Value (filter (fun o => ProgramHash o = FoundationAddress cfg) outputs).

(** What the lock check asks of one resolved reference: an output with a
    lock height may be spent only by an input with the final-but-one
    sequence number, in a transaction whose lock time has reached the
    lock height. *)
Definition lockRespected (txn : Transaction) (entry : Input * Output) : Prop :=
  OutputLock (snd entry) <> 0 ->
  Sequence (fst entry) = Int.MaxUint32 - 1
  /\ OutputLock (snd entry) <= LockTime txn.

(** What the closing loop of the context phase asks of one input: the
    referenced transaction is in the ledger, the referenced output
    exists, a native-asset output is worth something, and a coinbase has
    aged by the configured span, heights being subtracted in [uint32]. *)
Definition referencedOutputOk (cfg : Config) (L : Ledger) (input : Input)
  : Prop :=
  exists referTxn height referTxnOut,
    GetTransaction L (TxID (Previous input)) = Ok (referTxn, height)
    /\ index (Outputs referTxn) (Index (Previous input)) = Some referTxnOut
    /\ (AssetID referTxnOut = NativeAssetID L -> 0 < Value referTxnOut)
    /\ (IsCoinBaseTx referTxn = true ->
        SpendCoinbaseSpan cfg
        <= Int.uint32 (GetHeight L - LockTime referTxn)).

(** What the recharge loop asks of payload entry [i] when the main-chain
    output it refers to targets the genesis program hash: the amount lies
    between zero and the main-chain output less the cross-chain fee, the
    address parses, and some output of the side-chain transaction pays
    the converted amount to it. *)
Definition rechargeEntryOk (lib : Lib) (cfg : Config) (txn : Transaction)
    (mainChainTransaction : ela.Transaction)
    (payloadObj : PayloadTransferCrossChainAsset)
    (genesisProgramHash : Uint168) (i : nat) : Prop :=
  exists outputIndex mcOutput,
    OutputIndexes payloadObj !! i = Some outputIndex
    /\ index (ela.Outputs mainChainTransaction) outputIndex = Some mcOutput
    /\ (ela.ProgramHash mcOutput = genesisProgramHash ->
        exists amount address programHash output,
          CrossChainAmounts payloadObj !! i = Some amount
          /\ 0 <= amount
             <= Fixed64.sub (ela.Value mcOutput) (MinCrossChainTxFee cfg)
          /\ CrossChainAddresses payloadObj !! i = Some address
          /\ Uint168FromAddress lib address = Ok programHash
          /\ output ∈ Outputs txn
          /\ ProgramHash output = programHash
          /\ Value output = Float64.scale amount (ExchangeRate cfg)).

(** The three arrays of a main-chain payload reach as far as its address
    list, and every output index it uses names an output of the
    main-chain transaction. *)
Definition payloadConsistent (mainChainTransaction : ela.Transaction)
    (payloadObj : PayloadTransferCrossChainAsset) : Prop :=
  forall i : nat,
    (i < length (CrossChainAddresses payloadObj))%nat ->
    exists outputIndex,
      OutputIndexes payloadObj !! i = Some outputIndex
      /\ is_Some (index (ela.Outputs mainChainTransaction) outputIndex)
      /\ is_Some (CrossChainAmounts payloadObj !! i).

(** The positions, counted from [i], of the outputs with the null
    destination, which marks an output as bound for the main chain. *)
Fixpoint nullDestinationsFrom (i : nat) (outputs : list Output) : list nat :=
  match outputs with
  | [] => []
  | o :: rest =>
      if ProgramHash o =? EmptyProgramHash
      then i :: nullDestinationsFrom (S i) rest
      else nullDestinationsFrom (S i) rest
  end.

Definition nullDestinations (outputs : list Output) : list nat :=
  nullDestinationsFrom 0 outputs.

(** What the cross-chain transfer check asks of payload entry [i]: its
    output index names an output of the transaction with the null
    destination and a non-negative value, and its amount lies between
    zero and that value less the cross-chain fee. *)
Definition transferEntryOk (cfg : Config) (txn : Transaction)
    (payloadObj : PayloadTransferCrossChainAsset) (i : nat) : Prop :=
  exists outputIndex output amount,
    OutputIndexes payloadObj !! i = Some outputIndex
    /\ index (Outputs txn) outputIndex = Some output
    /\ ProgramHash output = EmptyProgramHash
    /\ 0 <= Value output
    /\ CrossChainAmounts payloadObj !! i = Some amount
    /\ 0 <= amount <= Fixed64.sub (Value output) (MinCrossChainTxFee cfg).

(** A cross-chain address the transfer check accepts: not empty, and
    parsing to a standard or multi-signature program hash. *)
Definition crossChainAddressOk (lib : Lib) (address : string) : Prop :=
  address <> EmptyString
  /\ exists programHash,
       Uint168FromAddress lib address = Ok programHash
       /\ (prefixOf programHash = PrefixStandard
           \/ prefixOf programHash = PrefixMultisig).

(** What a registration must satisfy: a name no registered asset bears,
    every output of the new asset paid to the controller, and token
    outputs that add up to the registered amount at 18 decimals. *)
Definition registrationOk (lib : Lib) (L : Ledger) (txn : Transaction)
    (payload : PayloadRegisterAsset) : Prop :=
  (Name (Asset_ payload) ∉ map Name (GetAssets L))
  /\ Forall
       (fun o => AssetID o = AssetHash lib (Asset_ payload) ->
                 ProgramHash o = Controller payload)
       (Outputs txn)
  /\ sumZ (map TokenValue
             (filter (fun o => AssetID o = AssetHash lib (Asset_ payload))
                (Outputs txn)))
     = Amount payload * 10 ^ 18.

(** The recharge case of the fee helper, as sums.  Payload entry [i]
    matches output [v] when the address of [v] is the entry's address;
    the entry then credits the converted value of the main-chain output
    it names, and [v] debits its own value. *)
Definition addressMatches (lib : Lib)
    (crossChainPayload : PayloadTransferCrossChainAsset) (v : Output)
    (i : nat) : bool :=
  match ToAddress lib (ProgramHash v),
        CrossChainAddresses crossChainPayload !! i with
  | Ok targetAddress, Some address => bool_decide (targetAddress = address)
  | _, _ => false
  end.

Definition rechargeCredit (cfg : Config) (mainChainTransaction : Transaction)
    (crossChainPayload : PayloadTransferCrossChainAsset) (i : nat) : Z :=
  match OutputIndexes crossChainPayload !! i with
  | Some outputIndex =>
      match index (Outputs mainChainTransaction) outputIndex with
      | Some mcOutput => Float64.scale (Value mcOutput) (ExchangeRate cfg)
      | None => 0
      end
  | None => 0
  end.

Definition outputContributions (lib : Lib) (cfg : Config)
    (mainChainTransaction : Transaction)
    (crossChainPayload : PayloadTransferCrossChainAsset) (v : Output)
    (indexes : list nat) : list Z :=
  map (fun i =>
         rechargeCredit cfg mainChainTransaction crossChainPayload i - Value v)
      (filter (fun i => addressMatches lib crossChainPayload v i = true)
         indexes).

Definition rechargeContributions (lib : Lib) (cfg : Config)
    (mainChainTransaction : Transaction)
    (crossChainPayload : PayloadTransferCrossChainAsset) (a : Z)
    (outputs : list Output) : list Z :=
  flat_map
    (fun v =>
       if AssetID v =? a
       then outputContributions lib cfg mainChainTransaction crossChainPayload
              v (seq 0 (length (CrossChainAddresses crossChainPayload)))
       else [])
    outputs.

(** A fee-map entry after the contributions [cs] have been booked on
    it. *)
Definition booked (entry : option Z) (cs : list Z) : option Z :=
  match cs with
  | [] => entry
  | _ :: _ => Some (Int.int64 (default 0 entry + sumZ cs))
  end.

End Shapes.

(** ** Further sample data *)

Module MoreSamples.
Import core.

(** A main-chain payload with an address and an amount but no output
    index. *)
Definition shortPayload : PayloadTransferCrossChainAsset :=
  {| CrossChainAddresses := ["Ealice"];
     OutputIndexes := [];
     CrossChainAmounts := [50000] |}.

Definition shortMainChainTx : ela.Transaction :=
  {| ela.Outputs := ela.Outputs Sample.mainChainTx;
     ela.Payload_ := ela.TransferCrossChainAsset shortPayload |}.

(** The deposit of [Sample.mainChainTx] as the side chain's own
    deserializer reads it. *)
Definition depositTx : Transaction :=
  {| TxType := TransferCrossChainAsset;
     Payload_ := PldTransferCrossChainAsset Sample.crossChainPayload;
     Attributes := [];
     Inputs := [];
     Outputs := [Sample.nativeOutput 60000 Sample.genesisProgramHash];
     LockTime := 0; Programs := [] |}.

(** [Sample.lib] with deserializers that yield [shortMainChainTx] and
    [depositTx]. *)
Definition otherLib : Lib :=
  {| Hash := Hash Sample.lib;
     GetSize := GetSize Sample.lib;
     AssetHash := AssetHash Sample.lib;
     IsValidAttributeType := IsValidAttributeType Sample.lib;
     ToProgramHash := ToProgramHash Sample.lib;
     Uint168FromAddress := Uint168FromAddress Sample.lib;
     ToAddress := ToAddress Sample.lib;
     MerkleProofDeserialize := MerkleProofDeserialize Sample.lib;
     ElaTransactionDeserialize := fun _ => Ok shortMainChainTx;
     ElaTransactionHash := ElaTransactionHash Sample.lib;
     TransactionDeserialize := fun _ => Ok depositTx;
     GetGenesisProgramHash := GetGenesisProgramHash Sample.lib |}.

(** A coinbase whose lock time lies beyond the current height. *)
Definition lateCoinbaseTx : Transaction :=
  {| TxType := CoinBase; Payload_ := PldCoinBase; Attributes := [];
     Inputs := [Sample.spend EmptyHash Int.MaxUint16];
     Outputs := [Sample.nativeOutput 7000000000 Sample.alice;
                 Sample.nativeOutput 3000000000 Sample.foundation];
     LockTime := 4294967290; Programs := [] |}.

Definition getTransactionWithCoinbase (hash : Z) : result (Transaction * Z) :=
  if hash =? 600 then Ok (lateCoinbaseTx, 150)
  else Sample.getTransaction hash.

(** [Sample.ledger] with [lateCoinbaseTx] stored under hash 600, with the
    main-chain transaction already recharged, and with the references
    visited in the reverse order. *)
Definition otherLedger : Ledger :=
  {| NativeAssetID := Sample.ELA;
     IsTxHashDuplicate := fun _ => false;
     IsMainchainTxHashDuplicate := fun _ => true;
     GetTransaction := getTransactionWithCoinbase;
     GetTxReference :=
       fun tx =>
         match Sample.resolve getTransactionWithCoinbase (Inputs tx) with
         | Ok reference => Ok (rev reference)
         | Error e => Error e
         end;
     GetHeight := 200;
     GetBlockHash := fun _ => 900;
     GetAssets := [Sample.elaAsset; Sample.tokenAsset];
     GetAsset := Sample.getAsset;
     IsDoubleSpend := fun _ => false;
     VerifySignature := fun _ => None |}.

(** Alice sends 40000 to the main chain: the first output has the null
    destination, the change goes back to her, and 20000 are left as the
    fee. *)
Definition transferTx : Transaction :=
  {| TxType := TransferCrossChainAsset;
     Payload_ := PldTransferCrossChainAsset
                   {| CrossChainAddresses := ["Ealice"];
                      OutputIndexes := [0];
                      CrossChainAmounts := [40000] |};
     Attributes := [];
     Inputs := [Sample.spend 500 0];
     Outputs := [Sample.nativeOutput 50000 EmptyProgramHash;
                 Sample.nativeOutput 30000 Sample.alice];
     LockTime := 14; Programs := [] |}.

(** The spending of an output of [lateCoinbaseTx]. *)
Definition spendCoinbase : Input := Sample.spend 600 0.

(** A cache with a live entry and a tombstone, over a store that still
    holds the item of the tombstone. *)
Definition stagedCache : DBCache.Cache string (gmap string string) :=
  {| DBCache.WriteSet :=
       {[ "k" := {| DBCache.Prefix := SampleStore.ST_Storage;
                    DBCache.Key := "k";
                    DBCache.Item := Some "v";
                    DBCache.IsDeleted := false |};
          "d" := {| DBCache.Prefix := SampleStore.ST_Storage;
                    DBCache.Key := "d";
                    DBCache.Item := Some "old";
                    DBCache.IsDeleted := true |} ]};
     DBCache.db := {[ "pd" := "old"; "px" := "kept" ]} |}.

End MoreSamples.

(** * Properties *)

Import core Notions.

(** ** Loops and arithmetic *)

Lemma first_error_None {A} (f : A -> error) (l : list A) :
  first_error f l = None <-> forall x, x ∈ l -> f x = None.
Proof.
  induction l as [|x l IH]; simpl.
  - split; [|reflexivity]. intros _ y Hy. inversion Hy.
  - destruct (f x) eqn:Hfx.
    + split; [discriminate|]. intros Hall.
      rewrite (Hall x) in Hfx by left. discriminate.
    + rewrite IH. split.
      * intros Hall y Hy. apply elem_of_cons in Hy as [->|Hy]; auto.
      * intros Hall y Hy. apply Hall. right. exact Hy.
Qed.

Lemma first_error_ext {A} (f g : A -> error) (l : list A) :
  (forall x, x ∈ l -> f x = g x) -> first_error f l = first_error g l.
Proof.
  induction l as [|x l IH]; intros Hfg; simpl; [reflexivity|].
  rewrite (Hfg x) by left.
  destruct (g x); [reflexivity|].
  apply IH. intros y Hy. apply Hfg. right. exact Hy.
Qed.

Ltac int64_consts :=
  unfold Int.is_int64, Int.MinInt64, Int.MaxInt64, Int.int64, Int.wrap in *;
  change (2 ^ (64 - 1)) with 9223372036854775808 in *;
  change (2 ^ 63) with 9223372036854775808 in *;
  change (2 ^ 64) with 18446744073709551616 in *.

Lemma int64_add_l (a b : Z) : Int.int64 (Int.int64 a + b) = Int.int64 (a + b).
Proof.
  int64_consts.
  replace ((a + 9223372036854775808) mod 18446744073709551616
           - 9223372036854775808 + b + 9223372036854775808)
    with ((a + 9223372036854775808) mod 18446744073709551616 + b) by lia.
  rewrite Zplus_mod_idemp_l. f_equal. f_equal. lia.
Qed.

Lemma int64_sub_l (a b : Z) : Int.int64 (Int.int64 a - b) = Int.int64 (a - b).
Proof. unfold Z.sub. apply int64_add_l. Qed.

Lemma int64_sub_r (a b : Z) : Int.int64 (a - Int.int64 b) = Int.int64 (a - b).
Proof.
  int64_consts.
  replace (a - ((b + 9223372036854775808) mod 18446744073709551616
                - 9223372036854775808) + 9223372036854775808)
    with ((a + 18446744073709551616)
          - (b + 9223372036854775808) mod 18446744073709551616) by lia.
  rewrite Zminus_mod_idemp_r.
  replace (a + 18446744073709551616 - (b + 9223372036854775808))
    with (a - b + 9223372036854775808) by lia.
  reflexivity.
Qed.

Lemma int64_small (a : Z) : Int.is_int64 a -> Int.int64 a = a.
Proof.
  int64_consts. intros H. rewrite Z.mod_small; lia.
Qed.

Lemma int64_range (a : Z) : Int.is_int64 (Int.int64 a).
Proof.
  int64_consts.
  pose proof (Z.mod_pos_bound (a + 9223372036854775808) 18446744073709551616).
  lia.
Qed.

Lemma int64_idem (a : Z) : Int.int64 (Int.int64 a) = Int.int64 a.
Proof. apply int64_small, int64_range. Qed.

(** A wrapping accumulation is the exact sum, reduced once. *)
Lemma foldl_add_int64 (vs : list Z) : forall e,
  Int.int64 (foldl Fixed64.add e vs) = Int.int64 (e + sumZ vs).
Proof.
  induction vs as [|v vs IH]; intros e; simpl.
  - f_equal. lia.
  - rewrite IH. unfold Fixed64.add. rewrite int64_add_l. f_equal. lia.
Qed.

Lemma foldl_add_range (vs : list Z) : forall e,
  Int.is_int64 e -> Int.is_int64 (foldl Fixed64.add e vs).
Proof.
  induction vs as [|v vs IH]; intros e He; simpl; [exact He|].
  apply IH, int64_range.
Qed.

(** [Fixed64.sum] is the exact sum reduced to [int64]: the two agree
    whenever the exact sum fits. *)
Lemma Fixed64_sum_exact (vs : list Z) :
  Fixed64.sum vs = Int.int64 (sumZ vs).
Proof.
  unfold Fixed64.sum.
  rewrite <- (int64_small (foldl Fixed64.add 0 vs)).
  - rewrite foldl_add_int64. reflexivity.
  - apply foldl_add_range. int64_consts. lia.
Qed.

(** The conversion of the specification's example: 100 units at a rate of
    0.8 (as binary64) are credited as 80 units. *)
Example scale_example :
  Float64.scale 10000000000 0x1.999999999999ap-1%float = 8000000000.
Proof. vm_compute. reflexivity. Qed.

(** ** Duplicate inputs in the sanity phase *)

Module SanityInputs.
Import Validator Notions.

Lemma OutPoint_IsEqual_refl (p q : OutPoint) :
  p = q -> OutPoint_IsEqual p q = true.
Proof.
  intros ->. unfold OutPoint_IsEqual. rewrite !Z.eqb_refl. reflexivity.
Qed.

(** The loop stops with an error at the latest when it reaches the second
    of two inputs with the same reference. *)
Lemma checkInputsFrom_duplicate (rest : list Input) :
  forall (seen : list Input) (i j : nat) (a b : Input),
    (i < j)%nat -> (length seen <= j)%nat ->
    (seen ++ rest) !! i = Some a -> (seen ++ rest) !! j = Some b ->
    Previous a = Previous b ->
    is_Some (checkInputsFrom seen rest).
Proof.
  induction rest as [|u rest IH]; intros seen i j a b Hij Hj Ha Hb Hab.
  - rewrite app_nil_r in Hb. apply lookup_lt_Some in Hb. lia.
  - cbn [checkInputsFrom].
    destruct (_ && _); [eauto|].
    destruct (existsb _ seen) eqn:Hex; [eauto|].
    destruct (decide (j = length seen)) as [->|Hne].
    + exfalso.
      rewrite lookup_app_l in Ha by lia.
      rewrite list_lookup_middle in Hb by reflexivity.
      injection Hb as <-.
      assert (existsb
                (fun earlier =>
                   OutPoint_IsEqual (Previous u) (Previous earlier)) seen
              = true) as Hc.
      { apply existsb_exists. exists a. split.
        - apply list_elem_of_In. eapply list_elem_of_lookup_2; eauto.
        - apply OutPoint_IsEqual_refl. congruence. }
      congruence.
    + apply (IH (seen ++ [u]) i j a b); auto.
      * rewrite length_app. simpl. lia.
      * rewrite <- app_assoc. exact Ha.
      * rewrite <- app_assoc. exact Hb.
Qed.

(** A coinbase transaction with two inputs fails the one-input rule; an
    ordinary one fails in the loop.  Only the recharge kind returns before
    looking at the inputs. *)
Lemma CheckTransactionInput_duplicate (txn : Transaction) :
  IsRechargeToSideChainTx txn = false ->
  duplicateInputs txn ->
  is_Some (CheckTransactionInput txn).
Proof.
  intros Hr (i & j & a & b & Hij & Ha & Hb & Hab).
  unfold CheckTransactionInput.
  destruct (IsCoinBaseTx txn).
  - destruct (Inputs txn) as [|x [|y l]]; eauto.
    apply lookup_lt_Some in Hb. simpl in Hb. lia.
  - rewrite Hr.
    destruct (len (Inputs txn) <=? 0); [eauto|].
    apply (checkInputsFrom_duplicate (Inputs txn) [] i j a b);
      simpl; auto; lia.
Qed.

(** C5, as the code has it: a transaction with two inputs that reference
    the same previous output is rejected by the sanity phase with
    [ErrInvalidInput], provided it passes the size check, which runs first,
    and is not a recharge-to-side-chain transaction, which the input check
    lets through unexamined. *)
Theorem duplicate_inputs_rejected (lib : Lib) (cfg : Config) (L : Ledger)
    (txn : Transaction) :
  CheckTransactionSize lib cfg txn = None ->
  IsRechargeToSideChainTx txn = false ->
  duplicateInputs txn ->
  CheckTransactionSanity lib cfg L txn = ErrInvalidInput.
Proof.
  intros Hsize Hr Hdup. unfold CheckTransactionSanity. rewrite Hsize.
  destruct (CheckTransactionInput_duplicate txn Hr Hdup) as [e ->].
  reflexivity.
Qed.

Lemma duplicate_inputs_rejected_witness :
  CheckTransactionSanity Sample.lib Sample.cfg Sample.ledger
    Sample.spendTwiceTx = ErrInvalidInput.
Proof.
  apply (duplicate_inputs_rejected Sample.lib Sample.cfg Sample.ledger
           Sample.spendTwiceTx).
  - reflexivity.
  - reflexivity.
  - exists 0%nat, 1%nat, (Sample.spend 500 0), (Sample.spend 500 0).
    repeat split; auto.
Defined.

(** C5 as stated fails: a recharge transaction with two identical inputs
    passes the whole sanity phase. *)
Lemma duplicate_inputs_counterexample :
  ~ (forall (L : Ledger) (txn : Transaction),
       duplicateInputs txn ->
       CheckTransactionSanity Sample.lib Sample.cfg L txn = ErrInvalidInput).
Proof.
  intros claim.
  specialize (claim Sample.ledger Sample.rechargeTwiceTx).
  assert (Hs : CheckTransactionSanity Sample.lib Sample.cfg Sample.ledger
                 Sample.rechargeTwiceTx = Success)
    by (vm_compute; reflexivity).
  rewrite Hs in claim.
  assert (Hd : duplicateInputs Sample.rechargeTwiceTx).
  { exists 0%nat, 1%nat, (Sample.spend 500 0), (Sample.spend 500 0).
    repeat split; auto. }
  specialize (claim Hd). discriminate claim.
Qed.

End SanityInputs.

(** ** The asset-precision check *)

Module AssetPrecision.
Import Validator Notions.

Lemma foldl_group_lookup (outputs : list Output) :
  forall (acc : gmap Z (list Output)) (k : Z),
    foldl
      (fun assetOutputs v =>
         <[AssetID v := default [] (assetOutputs !! AssetID v) ++ [v]]>
           assetOutputs)
      acc outputs !! k =
    match filter (fun o => AssetID o = k) outputs with
    | [] => acc !! k
    | os => Some (default [] (acc !! k) ++ os)
    end.
Proof.
  induction outputs as [|o outputs IH]; intros acc k; [reflexivity|].
  cbn [foldl]. rewrite IH.
  destruct (decide (AssetID o = k)) as [Heq|Hne].
  - rewrite filter_cons_True by exact Heq.
    subst k. rewrite lookup_insert_eq. cbn [default].
    destruct (filter _ outputs) as [|o' os'].
    + reflexivity.
    + simpl. rewrite <- app_assoc. reflexivity.
  - rewrite filter_cons_False by exact Hne.
    rewrite lookup_insert_ne by exact Hne. reflexivity.
Qed.

(** The group of an asset holds exactly the outputs of that asset, in
    their order; an asset with no output has no group. *)
Lemma groupByAsset_lookup (outputs : list Output) (k : Z) :
  groupByAsset outputs !! k =
  match filter (fun o => AssetID o = k) outputs with
  | [] => None
  | os => Some os
  end.
Proof.
  unfold groupByAsset. rewrite foldl_group_lookup, lookup_empty.
  reflexivity.
Qed.

Lemma groupByAsset_member (outputs : list Output) (k : Z) (os : list Output) :
  groupByAsset outputs !! k = Some os ->
  os = filter (fun o => AssetID o = k) outputs /\ os <> [].
Proof.
  rewrite groupByAsset_lookup.
  destruct (filter _ outputs) eqn:Hf; [discriminate|].
  intros [= <-]. split; [reflexivity|discriminate].
Qed.

Lemma groupByAsset_complete (outputs : list Output) (o : Output) :
  o ∈ outputs ->
  exists os, groupByAsset outputs !! AssetID o = Some os /\ o ∈ os.
Proof.
  intros Ho. rewrite groupByAsset_lookup.
  assert (Hin : o ∈ filter (fun o' => AssetID o' = AssetID o) outputs).
  { apply list_elem_of_filter. split; [reflexivity|exact Ho]. }
  destruct (filter _ outputs) as [|o' os'] eqn:Hf.
  - inversion Hin.
  - eexists. split; [reflexivity|exact Hin].
Qed.

Lemma checkAssetGroup_outputs (L : Ledger) (outputs : list Output) :
  first_error (checkAssetGroup L) (map_to_list (groupByAsset outputs)) = None
  <-> forall o, o ∈ outputs -> outputPrecisionError L o = None.
Proof.
  rewrite first_error_None. split.
  - intros Hall o Ho.
    destruct (groupByAsset_complete outputs o Ho) as (os & Hos & Hin).
    specialize (Hall (AssetID o, os)).
    rewrite elem_of_map_to_list in Hall. specialize (Hall Hos).
    unfold checkAssetGroup in Hall. unfold outputPrecisionError.
    destruct (GetAsset L (AssetID o)) as [asset|]; [|discriminate].
    rewrite first_error_None in Hall. auto.
  - intros Hall [k os] Hk. apply elem_of_map_to_list in Hk.
    apply groupByAsset_member in Hk as [-> Hne].
    unfold checkAssetGroup.
    destruct (filter _ outputs) as [|o os'] eqn:Hf; [congruence|].
    assert (Ho : o ∈ filter (fun o' => AssetID o' = k) outputs)
      by (rewrite Hf; left).
    apply list_elem_of_filter in Ho as [Hk Ho].
    pose proof (Hall o Ho) as Hfirst. unfold outputPrecisionError in Hfirst.
    rewrite Hk in Hfirst.
    destruct (GetAsset L k) as [asset|] eqn:Hasset; [|discriminate].
    rewrite first_error_None. intros o' Ho'.
    rewrite <- Hf in Ho'. apply list_elem_of_filter in Ho' as [Hk' Ho'].
    specialize (Hall o' Ho'). unfold outputPrecisionError in Hall.
    rewrite Hk', Hasset in Hall. exact Hall.
Qed.

(** Whether [CheckAssetPrecision] returns an error does not depend on the
    order in which the groups are visited: it returns [nil] exactly when
    the transaction is a registration or every output is in order. *)
Lemma CheckAssetPrecision_ok (L : Ledger) (txn : Transaction) :
  CheckAssetPrecision L txn = None <->
  TxType txn = RegisterAsset \/
  forall o, o ∈ Outputs txn -> outputPrecisionError L o = None.
Proof.
  unfold CheckAssetPrecision.
  destruct (bool_decide (TxType txn = RegisterAsset)) eqn:Hreg.
  - apply bool_decide_eq_true in Hreg. tauto.
  - apply bool_decide_eq_false in Hreg.
    destruct (len (Outputs txn) =? 0) eqn:Hlen.
    + apply Z.eqb_eq in Hlen. unfold len in Hlen.
      destruct (Outputs txn); [|simpl in Hlen; lia].
      split; [|reflexivity]. intros _. right. intros o Ho. inversion Ho.
    + rewrite checkAssetGroup_outputs. tauto.
Qed.


Lemma pow10_divisor_nonzero (precision assetPrecision : Z) :
  precisionDivisor precision assetPrecision <> 0.
Proof.
  unfold precisionDivisor.
  assert (Hall : forallb
            (fun n => negb (Float64.to_int64 (Float64.Pow10 (N.of_nat n)) =? 0))
            (seq 0 256) = true) by (vm_compute; reflexivity).
  rewrite forallb_forall in Hall.
  set (e := Int.uint8 (assetPrecision - precision)).
  assert (He : 0 <= e < 256) by (apply Z.mod_pos_bound; lia).
  specialize (Hall (Z.to_nat e)).
  rewrite Z_nat_N in Hall.
  assert (Hin : In (Z.to_nat e) (seq 0 256)) by (apply in_seq; lia).
  specialize (Hall Hin). apply negb_true_iff, Z.eqb_neq in Hall. exact Hall.
Qed.





End AssetPrecision.

(** ** What the sanity phase reads of the ledger *)

Module SanityLedger.
Import Validator Notions.

Lemma checkOutput_native (L1 L2 : Ledger) (txn : Transaction) (o : Output) :
  NativeAssetID L1 = NativeAssetID L2 ->
  checkOutput L1 txn o = checkOutput L2 txn o.
Proof. intros H. unfold checkOutput. rewrite H. reflexivity. Qed.

Lemma CheckTransactionOutput_native (cfg : Config) (L1 L2 : Ledger)
    (txn : Transaction) :
  NativeAssetID L1 = NativeAssetID L2 ->
  CheckTransactionOutput cfg L1 txn = CheckTransactionOutput cfg L2 txn.
Proof.
  intros H. unfold CheckTransactionOutput.
  destruct (IsCoinBaseTx txn); [reflexivity|].
  destruct (len (Outputs txn) <? 1); [reflexivity|].
  apply first_error_ext. intros o _. apply checkOutput_native, H.
Qed.

Lemma CheckAssetPrecision_agree (L1 L2 : Ledger) (txn : Transaction) :
  NativeAssetID L1 = NativeAssetID L2 ->
  (forall o, o ∈ Outputs txn ->
     GetAsset L1 (AssetID o) = GetAsset L2 (AssetID o)) ->
  CheckAssetPrecision L1 txn = CheckAssetPrecision L2 txn.
Proof.
  intros Hn Hassets. unfold CheckAssetPrecision.
  destruct (bool_decide _); [reflexivity|].
  destruct (len (Outputs txn) =? 0); [reflexivity|].
  apply first_error_ext. intros [k os] Hk.
  apply elem_of_map_to_list, AssetPrecision.groupByAsset_member in Hk
    as [Hos Hne].
  destruct os as [|o os']; [congruence|].
  assert (Ho : o ∈ filter (fun o' => AssetID o' = k) (Outputs txn))
    by (rewrite <- Hos; left).
  apply list_elem_of_filter in Ho as [Hk Ho].
  unfold checkAssetGroup. rewrite <- Hk, (Hassets o Ho).
  destruct (GetAsset L2 (AssetID o)); [|reflexivity].
  apply first_error_ext. intros o' _.
  unfold checkOutputPrecision. rewrite Hn. reflexivity.
Qed.

Lemma CheckTransactionPayload_native (lib : Lib) (cfg : Config)
    (L1 L2 : Ledger) (txn : Transaction) :
  NativeAssetID L1 = NativeAssetID L2 ->
  CheckTransactionPayload lib cfg L1 txn = CheckTransactionPayload lib cfg L2 txn.
Proof. intros H. unfold CheckTransactionPayload. rewrite H. reflexivity. Qed.

(** C7, as the code has it: the sanity verdict depends on the ledger, but
    only through the native asset id and the asset registry at the asset
    ids of the transaction's outputs.  Two ledger states that agree on
    these give the same verdict, whatever else they hold. *)
Theorem sanity_reads_asset_registry (lib : Lib) (cfg : Config)
    (L1 L2 : Ledger) (txn : Transaction) :
  NativeAssetID L1 = NativeAssetID L2 ->
  (forall o, o ∈ Outputs txn ->
     GetAsset L1 (AssetID o) = GetAsset L2 (AssetID o)) ->
  CheckTransactionSanity lib cfg L1 txn = CheckTransactionSanity lib cfg L2 txn.
Proof.
  intros Hn Hassets. unfold CheckTransactionSanity.
  rewrite (CheckTransactionOutput_native cfg L1 L2 txn Hn).
  rewrite (CheckAssetPrecision_agree L1 L2 txn Hn Hassets).
  rewrite (CheckTransactionPayload_native lib cfg L1 L2 txn Hn).
  reflexivity.
Qed.

Lemma sanity_reads_asset_registry_witness :
  CheckTransactionSanity Sample.lib Sample.cfg Sample.ledger
    Sample.tokenTransferTx =
  CheckTransactionSanity Sample.lib Sample.cfg Sample.ledgerWithCoinbase
    Sample.tokenTransferTx.
Proof.
  apply (sanity_reads_asset_registry Sample.lib Sample.cfg Sample.ledger
           Sample.ledgerWithCoinbase Sample.tokenTransferTx).
  - reflexivity.
  - intros o _. reflexivity.
Defined.

(** C7 as stated fails: the same token transfer passes the sanity phase on
    a ledger that has the token registered and is rejected with
    [ErrAssetPrecision] on one that has not. *)
Lemma sanity_context_free_counterexample :
  ~ (forall (L1 L2 : Ledger) (txn : Transaction),
       CheckTransactionSanity Sample.lib Sample.cfg L1 txn =
       CheckTransactionSanity Sample.lib Sample.cfg L2 txn).
Proof.
  intros claim.
  specialize (claim Sample.ledger Sample.ledgerWithoutToken
                Sample.tokenTransferTx).
  assert (H1 : CheckTransactionSanity Sample.lib Sample.cfg Sample.ledger
                 Sample.tokenTransferTx = Success)
    by (vm_compute; reflexivity).
  assert (H2 : CheckTransactionSanity Sample.lib Sample.cfg
                 Sample.ledgerWithoutToken Sample.tokenTransferTx
               = ErrAssetPrecision)
    by (vm_compute; reflexivity).
  rewrite H1, H2 in claim. discriminate claim.
Qed.

End SanityLedger.

(** ** Coinbase transactions in the context phase *)

Module ContextCoinbase.
Import Validator.

Section Facts.

Variable lib : Lib.
Variable cfg : Config.

(** C6, as the code has it: on a coinbase transaction the context phase
    consults the ledger once, for the duplicate-hash check, which comes
    first.  It returns [ErrTxHashDuplicate] when the hash is already in
    the ledger and [Success] otherwise; nothing else of the ledger is
    read. *)
Theorem coinbase_context (L : Ledger) (txn : Transaction) :
  IsCoinBaseTx txn = true ->
  CheckTransactionContext lib cfg L txn =
    Returns (if IsTxHashDuplicate L (Hash lib txn)
             then ErrTxHashDuplicate else Success).
Proof.
  intros Hcb. unfold CheckTransactionContext.
  destruct (IsTxHashDuplicate L (Hash lib txn)); [reflexivity|].
  rewrite Hcb. reflexivity.
Qed.

End Facts.

Lemma coinbase_context_witness :
  IsCoinBaseTx Sample.coinbaseTx = true /\
  CheckTransactionContext Sample.lib Sample.cfg Sample.ledger
    Sample.coinbaseTx = Returns Success.
Proof.
  split; [reflexivity|].
  apply (coinbase_context Sample.lib Sample.cfg Sample.ledger
           Sample.coinbaseTx).
  reflexivity.
Defined.

(** C6 as stated fails: a coinbase transaction that passes the sanity
    phase is answered [ErrTxHashDuplicate] by a ledger that already
    holds it. *)
Lemma coinbase_context_counterexample :
  ~ (forall (L : Ledger) (txn : Transaction),
       IsCoinBaseTx txn = true ->
       CheckTransactionSanity Sample.lib Sample.cfg L txn = Success ->
       CheckTransactionContext Sample.lib Sample.cfg L txn = Returns Success).
Proof.
  intros claim.
  specialize (claim Sample.ledgerWithCoinbase Sample.coinbaseTx).
  assert (Hctx : CheckTransactionContext Sample.lib Sample.cfg
                   Sample.ledgerWithCoinbase Sample.coinbaseTx
                 = Returns ErrTxHashDuplicate) by (vm_compute; reflexivity).
  rewrite Hctx in claim.
  assert (Hs : CheckTransactionSanity Sample.lib Sample.cfg
                 Sample.ledgerWithCoinbase Sample.coinbaseTx = Success)
    by (vm_compute; reflexivity).
  specialize (claim eq_refl Hs). discriminate claim.
Qed.

End ContextCoinbase.

(** ** A failed cross-chain transfer check in the context phase *)

Module ContextTransfer.
Import Validator.

Lemma transfer_kind (txn : Transaction) :
  IsTransferCrossChainAssetTx txn = true ->
  IsCoinBaseTx txn = false /\ IsRechargeToSideChainTx txn = false.
Proof.
  unfold IsTransferCrossChainAssetTx, IsCoinBaseTx, IsRechargeToSideChainTx.
  intros H. apply bool_decide_eq_true in H. rewrite H.
  split; reflexivity.
Qed.

(** C2, as the code has it: when the transaction is a cross-chain
    transfer and [CheckTransferCrossChainAssetTransaction] fails, the
    failure is logged and [CheckTransactionContext] returns
    [ErrInvalidOutput] on the spot, so that none of the later checks
    decides the verdict; the later checks (register-asset, double-spend,
    UTXO lock, fee, referenced outputs) run, and decide, only when the
    cross-chain check succeeds. *)
Theorem failed_transfer_check_returns (lib : Lib) (cfg : Config)
    (L : Ledger) (txn : Transaction) :
  IsTxHashDuplicate L (Hash lib txn) = false ->
  CheckTransactionSignature L txn = None ->
  IsTransferCrossChainAssetTx txn = true ->
  (forall e,
     CheckTransferCrossChainAssetTransaction lib cfg L txn = Returns (Some e) ->
     CheckTransactionContext lib cfg L txn = Returns ErrInvalidOutput)
  /\ (CheckTransferCrossChainAssetTransaction lib cfg L txn = Returns None ->
      CheckTransactionContext lib cfg L txn
      = contextAfterCrossChain lib cfg L txn).
Proof.
  intros Hdup Hsig Hkind.
  destruct (transfer_kind txn Hkind) as [Hcb Hre].
  unfold CheckTransactionContext.
  rewrite Hdup, Hcb, Hsig, Hre, Hkind.
  split.
  - intros e Hfail. rewrite Hfail. reflexivity.
  - intros Hok. rewrite Hok. reflexivity.
Qed.

Lemma failed_transfer_check_returns_witness :
  (forall e,
     CheckTransferCrossChainAssetTransaction Sample.lib Sample.cfg
       Sample.ledger Sample.badTransferTx = Returns (Some e) ->
     CheckTransactionContext Sample.lib Sample.cfg Sample.ledger
       Sample.badTransferTx = Returns ErrInvalidOutput)
  /\ (CheckTransferCrossChainAssetTransaction Sample.lib Sample.cfg
        Sample.ledger Sample.badTransferTx = Returns None ->
      CheckTransactionContext Sample.lib Sample.cfg Sample.ledger
        Sample.badTransferTx
      = contextAfterCrossChain Sample.lib Sample.cfg Sample.ledger
          Sample.badTransferTx).
Proof.
  apply (failed_transfer_check_returns Sample.lib Sample.cfg Sample.ledger
           Sample.badTransferTx).
  - reflexivity.
  - reflexivity.
  - reflexivity.
Defined.

(** The sample transfer fails the cross-chain check, and is refused with
    [ErrInvalidOutput] although the later checks would pass it. *)
Example badTransferTx_verdict :
  CheckTransferCrossChainAssetTransaction Sample.lib Sample.cfg Sample.ledger
    Sample.badTransferTx
  = Returns (Some "Invalid transaction cross chain counts")
  /\ contextAfterCrossChain Sample.lib Sample.cfg Sample.ledger
       Sample.badTransferTx = Returns Success
  /\ CheckTransactionContext Sample.lib Sample.cfg Sample.ledger
       Sample.badTransferTx = Returns ErrInvalidOutput.
Proof. vm_compute. repeat split; reflexivity. Qed.

(** C2 as stated fails: on [badTransferTx] the transfer check fails, the
    remaining checks would answer [Success], and the verdict is
    [ErrInvalidOutput]. *)
Lemma failed_transfer_check_counterexample :
  ~ (forall (L : Ledger) (txn : Transaction) (e : string),
       IsTxHashDuplicate L (Hash Sample.lib txn) = false ->
       CheckTransactionSignature L txn = None ->
       IsTransferCrossChainAssetTx txn = true ->
       CheckTransferCrossChainAssetTransaction Sample.lib Sample.cfg L txn
         = Returns (Some e) ->
       CheckTransactionContext Sample.lib Sample.cfg L txn
         = contextAfterCrossChain Sample.lib Sample.cfg L txn).
Proof.
  intros claim.
  specialize (claim Sample.ledger Sample.badTransferTx
                "Invalid transaction cross chain counts").
  assert (Hafter : contextAfterCrossChain Sample.lib Sample.cfg Sample.ledger
                     Sample.badTransferTx = Returns Success)
    by (vm_compute; reflexivity).
  assert (Hctx : CheckTransactionContext Sample.lib Sample.cfg Sample.ledger
                   Sample.badTransferTx = Returns ErrInvalidOutput)
    by (vm_compute; reflexivity).
  rewrite Hafter, Hctx in claim.
  assert (Hfail : CheckTransferCrossChainAssetTransaction Sample.lib
                    Sample.cfg Sample.ledger Sample.badTransferTx
                  = Returns (Some "Invalid transaction cross chain counts"))
    by (vm_compute; reflexivity).
  specialize (claim eq_refl eq_refl eq_refl Hfail). discriminate claim.
Qed.

End ContextTransfer.

(** ** The fee check *)

Module FeeCheck.
Import Validator Notions.

Lemma addAmounts_spec (L : Ledger) (outputs : list Output) : forall e t,
  addAmounts L (e, t) outputs =
  (foldl Fixed64.add e (nativeValues L outputs), t + sumZ (tokenValues L outputs)).
Proof.
  unfold addAmounts, nativeValues, tokenValues.
  induction outputs as [|o outputs IH]; intros e t; simpl.
  - f_equal. lia.
  - destruct (AssetID o =? NativeAssetID L) eqn:Hn.
    + apply Z.eqb_eq in Hn. rewrite IH.
      rewrite filter_cons_True by exact Hn.
      rewrite (filter_cons_False (fun o => AssetID o <> NativeAssetID L)) by tauto.
      reflexivity.
    + apply Z.eqb_neq in Hn. rewrite IH.
      rewrite filter_cons_False by exact Hn.
      rewrite (filter_cons_True (fun o => AssetID o <> NativeAssetID L)) by tauto.
      simpl. f_equal. lia.
Qed.

(** What [CheckTransactionFee] decides, in exact sums.  Both output
    totals enter twice, because the loop over the outputs runs twice. *)
Lemma CheckTransactionFee_counts_outputs_twice (cfg : Config) (L : Ledger)
    (txn : Transaction) (refs : list (Input * Output)) :
  GetTxReference L txn = Ok refs ->
  CheckTransactionFee cfg L txn = None <->
  minimumFee cfg txn <=
    Int.int64 (sumZ (nativeValues L (map snd refs))
               - 2 * sumZ (nativeValues L (Outputs txn)))
  /\ sumZ (tokenValues L (map snd refs))
     - 2 * sumZ (tokenValues L (Outputs txn)) = 0.
Proof.
  intros Hrefs. unfold CheckTransactionFee. rewrite Hrefs.
  rewrite !addAmounts_spec. 
  set (ins := nativeValues L (map snd refs)).
  set (outs := nativeValues L (Outputs txn)).
  assert (Hbal : Fixed64.sub (foldl Fixed64.add 0 ins)
                   (foldl Fixed64.add (foldl Fixed64.add 0 outs) outs)
                 = Int.int64 (sumZ ins - 2 * sumZ outs)).
  { unfold Fixed64.sub.
    rewrite <- int64_sub_l, <- int64_sub_r.
    rewrite <- foldl_app, !foldl_add_int64.
    rewrite int64_sub_r, int64_sub_l. f_equal.
    unfold sumZ. rewrite foldr_app.
    assert (forall l a, foldr Z.add a l = a + foldr Z.add 0 l) as Hf.
    { induction l; intros; simpl; [lia|]. rewrite IHl. lia. }
    rewrite (Hf outs (foldr Z.add 0 outs)). lia. }
  rewrite Hbal. unfold minimumFee.
  set (bal := Int.int64 _).
  set (tin := sumZ (tokenValues L (map snd refs))).
  set (tout := sumZ (tokenValues L (Outputs txn))).
  assert (Htok : (negb (Z.sgn (0 + tin - (0 + tout + tout)) =? 0) = false)
                 <-> tin - 2 * tout = 0).
  { rewrite negb_false_iff, Z.eqb_eq, Z.sgn_null_iff. lia. }
  destruct (IsTransferCrossChainAssetTx txn || IsRechargeToSideChainTx txn).
  - destruct (bal <? MinCrossChainTxFee cfg) eqn:Hlt.
    + apply Z.ltb_lt in Hlt. split; [discriminate|]. lia.
    + apply Z.ltb_ge in Hlt.
      destruct (negb _) eqn:Hs.
      * split; [discriminate|]. intros [_ H]. apply Htok in H. discriminate.
      * split; [|reflexivity]. intros _. split; [lia|]. apply Htok. reflexivity.
  - destruct (bal <? MinTxFee cfg) eqn:Hlt.
    + apply Z.ltb_lt in Hlt. split; [discriminate|]. lia.
    + apply Z.ltb_ge in Hlt.
      destruct (negb _) eqn:Hs.
      * split; [discriminate|]. intros [_ H]. apply Htok in H. discriminate.
      * split; [|reflexivity]. intros _. split; [lia|]. apply Htok. reflexivity.
Qed.

(** C1 at two inputs.  [payTx] meets the stated condition (a native
    balance of 1000 against a minimum fee of 100, no tokens) and is
    refused, its output being counted twice.  [tokenLossTx] spends 10
    tokens and hands on 5, so its token balance is 5, and is let through,
    10 less twice 5 being zero. *)
Theorem fee_check_diverges :
  (GetTxReference Sample.ledger Sample.payTx
     = Ok [(Sample.spend 500 0, Sample.nativeOutput 100000 Sample.alice)]
   /\ minimumFee Sample.cfg Sample.payTx
      <= sumZ (nativeValues Sample.ledger [Sample.nativeOutput 100000 Sample.alice])
         - sumZ (nativeValues Sample.ledger (Outputs Sample.payTx))
   /\ sumZ (tokenValues Sample.ledger [Sample.nativeOutput 100000 Sample.alice])
      - sumZ (tokenValues Sample.ledger (Outputs Sample.payTx)) = 0
   /\ CheckTransactionFee Sample.cfg Sample.ledger Sample.payTx
      = Some "transaction fee is not enough")
  /\
  (GetTxReference Sample.ledger Sample.tokenLossTx
     = Ok [(Sample.spend 500 0, Sample.nativeOutput 100000 Sample.alice);
           (Sample.spend 500 1, Sample.tokenOutput 10 Sample.alice)]
   /\ sumZ (tokenValues Sample.ledger
              [Sample.nativeOutput 100000 Sample.alice;
               Sample.tokenOutput 10 Sample.alice])
      - sumZ (tokenValues Sample.ledger (Outputs Sample.tokenLossTx)) = 5
   /\ CheckTransactionFee Sample.cfg Sample.ledger Sample.tokenLossTx = None).
Proof. vm_compute. repeat split; discriminate. Qed.

End FeeCheck.

(** ** The recharge check *)

Module Recharge.
Import Validator.

Section Facts.

Variable lib : Lib.
Variable cfg : Config.




End Facts.


(** The expected total of the sample recharge is the 50000 that cross. *)
Example expectedTotal_sample :
  expectedTotal Sample.cfg Sample.mainChainTx Sample.crossChainPayload
    Sample.genesisProgramHash = 50000.
Proof. vm_compute. reflexivity. Qed.

End Recharge.

(** ** The fee map *)

Module FeeMap.
Import FeeHelper.

Lemma foldl_addValue_lookup (outputs : list Output) :
  forall (acc : gmap Z Z) (a : Z),
    foldl addValue acc outputs !! a =
    match assetValues a outputs with
    | [] => acc !! a
    | v :: vs =>
        Some (match acc !! a with
              | Some x => foldl Fixed64.add x (v :: vs)
              | None => foldl Fixed64.add v vs
              end)
    end.
Proof.
  unfold assetValues.
  induction outputs as [|o outputs IH]; intros acc a; [reflexivity|].
  cbn [foldl]. rewrite IH. unfold addValue.
  destruct (decide (AssetID o = a)) as [Heq|Hne].
  - rewrite filter_cons_True by exact Heq. subst a.
    destruct (acc !! AssetID o) as [x|] eqn:Hacc;
      rewrite lookup_insert_eq;
      destruct (filter _ outputs) as [|o' os']; reflexivity.
  - rewrite filter_cons_False by exact Hne.
    destruct (acc !! AssetID o) as [x|] eqn:Hacc;
      rewrite lookup_insert_ne by exact Hne; reflexivity.
Qed.

(** The per-asset accumulation holds, for each asset with an output, the
    exact sum of its values reduced to [int64]. *)
Lemma sumByAsset_lookup (outputs : list Output) (a : Z) :
  wellFormedValues outputs ->
  sumByAsset outputs !! a =
  match assetValues a outputs with
  | [] => None
  | _ :: _ => Some (Int.int64 (assetTotal a outputs))
  end.
Proof.
  intros Hwf. unfold sumByAsset, assetTotal.
  rewrite foldl_addValue_lookup, lookup_empty.
  destruct (assetValues a outputs) as [|v vs] eqn:Hvs; [reflexivity|].
  assert (Hv : Int.is_int64 v).
  { assert (Hin : v ∈ assetValues a outputs) by (rewrite Hvs; left).
    unfold assetValues in Hin. apply list_elem_of_fmap in Hin as (o & -> & Ho).
    apply list_elem_of_filter in Ho as [_ Ho].
    unfold wellFormedValues in Hwf. rewrite Forall_forall in Hwf.
    apply Hwf. exact Ho. }
  f_equal.
  rewrite <- (int64_small (foldl Fixed64.add v vs)) by (apply foldl_add_range, Hv).
  rewrite foldl_add_int64. reflexivity.
Qed.


Lemma foldl_balanceOutput_lookup (inputs : gmap Z Z) (l : list (Z * Z)) :
  NoDup l.*1 ->
  forall (fm : gmap Z Z) (a : Z),
    foldl (balanceOutput inputs) fm l !! a =
    match (list_to_map l : gmap Z Z) !! a with
    | Some outputValue =>
        Some (Fixed64.sub
                (match inputs !! a with
                 | Some inputValue => inputValue
                 | None => default 0 (fm !! a)
                 end) outputValue)
    | None => fm !! a
    end.
Proof.
  induction l as [|[k v] l IH]; intros Hnd fm a; [reflexivity|].
  cbn [foldl]. apply NoDup_cons in Hnd as [Hk Hnd]. rewrite (IH Hnd).
  cbn [list_to_map foldr uncurry].
  destruct (decide (k = a)) as [->|Hne].
  - rewrite lookup_insert_eq.
    rewrite (not_elem_of_list_to_map_1 l a Hk).
    unfold balanceOutput.
    destruct (inputs !! a); rewrite lookup_insert_eq; reflexivity.
  - rewrite lookup_insert_ne by exact Hne.
    assert (Hfm : balanceOutput inputs fm (k, v) !! a = fm !! a).
    { unfold balanceOutput.
      destruct (inputs !! k); rewrite lookup_insert_ne by exact Hne; reflexivity. }
    rewrite Hfm. reflexivity.
Qed.

Lemma foldl_balanceInput_lookup (l : list (Z * Z)) :
  NoDup l.*1 ->
  forall (fm : gmap Z Z) (a : Z),
    foldl balanceInput fm l !! a =
    match fm !! a with
    | Some x => Some x
    | None =>
        match (list_to_map l : gmap Z Z) !! a with
        | Some inputValue => Some (Fixed64.add 0 inputValue)
        | None => None
        end
    end.
Proof.
  induction l as [|[k v] l IH]; intros Hnd fm a.
  - simpl. rewrite lookup_empty. destruct (fm !! a); reflexivity.
  - cbn [foldl]. apply NoDup_cons in Hnd as [Hk Hnd]. rewrite (IH Hnd).
    cbn [list_to_map foldr uncurry]. unfold balanceInput.
    destruct (decide (k = a)) as [->|Hne].
    + rewrite lookup_insert_eq.
      destruct (fm !! a) as [x|] eqn:Hfm.
      * rewrite Hfm. reflexivity.
      * rewrite lookup_insert_eq. reflexivity.
    + rewrite lookup_insert_ne by exact Hne.
      destruct (fm !! k) as [x|] eqn:Hfm; [reflexivity|].
      rewrite lookup_insert_ne by exact Hne. reflexivity.
Qed.

(** The two [range]s, key by key. *)
Lemma feeMapOf_lookup (reference : list (Input * Output))
    (txOutputs : list Output) (a : Z) :
  feeMapOf reference txOutputs !! a =
  match sumByAsset txOutputs !! a with
  | Some outputValue =>
      Some (Fixed64.sub (default 0 (sumByAsset (map snd reference) !! a))
              outputValue)
  | None =>
      match sumByAsset (map snd reference) !! a with
      | Some inputValue => Some (Fixed64.add 0 inputValue)
      | None => None
      end
  end.
Proof.
  unfold feeMapOf.
  rewrite foldl_balanceInput_lookup by apply NoDup_fst_map_to_list.
  rewrite foldl_balanceOutput_lookup by apply NoDup_fst_map_to_list.
  rewrite !list_to_map_to_list, lookup_empty.
  destruct (sumByAsset txOutputs !! a); [|reflexivity].
  destruct (sumByAsset (map snd reference) !! a); reflexivity.
Qed.







(** The fee map of [tokenLossTx]: 60000 native units, and a token entry
    of zero although 5 tokens are unaccounted for, the tokens' [Value]
    being zero on both sides. *)
Example fee_map_tokenLossTx :
  exists feeMap,
    GetTxFeeMap Sample.lib Sample.cfg Sample.ledger Sample.tokenLossTx
      = Returns (Ok feeMap)
    /\ feeMap !! Sample.ELA = Some 60000
    /\ feeMap !! Sample.TOKEN = Some 0
    /\ feeMap !! 3 = None.
Proof.
  eexists. split; [reflexivity|]. vm_compute. repeat split; reflexivity.
Qed.


End FeeMap.

(** ** The staged cache *)

Module CacheFacts.
Import DBCache.

Section Facts.
Context {StateValue : Type}.
Variable Serialize : StateValue -> string.
Variable GetStateValue : ascii -> string -> option StateValue * error.
Context {Store : Type} `{IStoreLaws Store}.
Variable ErrDBNotFound : string.


Lemma GetOrAdd_fresh (cache : Cache StateValue Store) (prefix : ascii)
    (key : string) (value : option StateValue) :
  WriteSet cache !! key = None ->
  Get (db cache) (storeKey prefix key) = Error ErrDBNotFound ->
  GetOrAdd GetStateValue ErrDBNotFound cache prefix key value =
  ({| WriteSet :=
        <[key := {| Prefix := prefix; Key := key; Item := value;
                    IsDeleted := false |}]> (WriteSet cache);
      db := db cache |},
   (value, None)).
Proof.
  intros Hws Hdb. unfold GetOrAdd, TryGetInternal. rewrite Hws, Hdb.
  rewrite bool_decide_eq_true_2 by reflexivity. reflexivity.
Qed.

Lemma storeKey_inj (p p' : ascii) (k k' : string) :
  storeKey p k = storeKey p' k' -> p = p' /\ k = k'.
Proof. unfold storeKey. intros [= -> ->]. split; reflexivity. Qed.

Lemma commitEntry_other (s s' : Store) (entry : string * Write StateValue)
    (sk : string) :
  commitEntry Serialize s entry = Returns s' ->
  storeKey (Prefix entry.2) entry.1 <> sk ->
  Get s' sk = Get s sk.
Proof.
  destruct entry as [k w]. unfold commitEntry. cbn [fst snd].
  destruct (IsDeleted w).
  - intros [= <-] Hne. apply Get_BatchDelete_ne, Hne.
  - destruct (Item w); [|discriminate].
    intros [= <-] Hne. apply Get_BatchPut_ne, Hne.
Qed.

Lemma commitIn_other (order : list (string * Write StateValue)) :
  forall (s s' : Store) (sk : string),
    commitIn Serialize order s = Returns s' ->
    (forall entry, entry ∈ order -> storeKey (Prefix entry.2) entry.1 <> sk) ->
    Get s' sk = Get s sk.
Proof.
  induction order as [|entry order IH]; intros s s' sk; cbn [commitIn].
  - intros [= <-] _. reflexivity.
  - destruct (commitEntry Serialize s entry) as [s1|why] eqn:Hentry;
      cbn [run_bind]; [|discriminate].
    intros Hrest Hne. rewrite (IH s1 s' sk Hrest).
    + apply (commitEntry_other s s1 entry sk Hentry). apply Hne. left.
    + intros e He. apply Hne. right. exact He.
Qed.

(** [Commit] returns, in any order, unless a live entry has no item. *)
Lemma commitIn_returns (order : list (string * Write StateValue)) :
  (forall entry, entry ∈ order ->
     IsDeleted entry.2 = false -> is_Some (Item entry.2)) ->
  forall s : Store, exists s', commitIn Serialize order s = Returns s'.
Proof.
  induction order as [|[k w] order IH]; intros Hlive s; cbn [commitIn].
  - eauto.
  - assert (Hentry : exists s1, commitEntry Serialize s (k, w) = Returns s1).
    { unfold commitEntry. destruct (IsDeleted w) eqn:Hd; [eauto|].
      destruct (Hlive (k, w)) as [item Hitem]; [left|exact Hd|].
      cbn [snd] in Hitem. rewrite Hitem. eauto. }
    destruct Hentry as [s1 ->]. cbn [run_bind].
    apply IH. intros e He. apply Hlive. right. exact He.
Qed.

(** Write-set keys being unique, a live entry is in the store after the
    commit, whatever was flushed after it. *)
Lemma commitIn_flushes (order : list (string * Write StateValue)) :
  NoDup order.*1 ->
  forall (s s' : Store) (k : string) (w : Write StateValue)
         (item : StateValue),
    commitIn Serialize order s = Returns s' ->
    (k, w) ∈ order -> IsDeleted w = false -> Item w = Some item ->
    Get s' (storeKey (Prefix w) k) = Ok (Serialize item).
Proof.
  induction order as [|[k0 w0] order IH]; intros Hnd s s' k w item;
    cbn [commitIn].
  - intros _ Hin. inversion Hin.
  - apply NoDup_cons in Hnd as [Hk0 Hnd].
    destruct (commitEntry Serialize s (k0, w0)) as [s1|why] eqn:Hentry;
      cbn [run_bind]; [|discriminate].
    intros Hrest Hin Hlive Hitem.
    apply elem_of_cons in Hin as [[= <- <-]|Hin].
    + rewrite (commitIn_other order s1 s' _ Hrest).
      * unfold commitEntry in Hentry. rewrite Hlive, Hitem in Hentry.
        injection Hentry as <-. apply Get_BatchPut_eq.
      * intros [k' w'] He Heq. cbn [fst snd] in Heq.
        apply storeKey_inj in Heq as [_ ->].
        apply Hk0. apply list_elem_of_fmap. exists (k, w'). split; [reflexivity|exact He].
    + apply (IH Hnd s1 s' k w item Hrest Hin Hlive Hitem).
Qed.


(** [GetOrAdd] is the operation that honours the tombstone: it revives a
    deleted entry with the value supplied. *)
Lemma GetOrAdd_revives (cache : Cache StateValue Store) (prefix : ascii)
    (key : string) (value : option StateValue) (w : Write StateValue) :
  WriteSet cache !! key = Some w ->
  IsDeleted w = true ->
  GetOrAdd GetStateValue ErrDBNotFound cache prefix key value =
  ({| WriteSet :=
        <[key := {| Prefix := Prefix w; Key := Key w; Item := value;
                    IsDeleted := false |}]> (WriteSet cache);
      db := db cache |},
   (value, None)).
Proof.
  intros Hw Hd. unfold GetOrAdd. rewrite Hw, Hd. reflexivity.
Qed.



End Facts.

#[global] Instance mapStore_laws : IStoreLaws (gmap string string).
Proof.
  split; unfold Get, BatchPut, BatchDelete, SampleStore.mapStore.
  - intros s k v. rewrite lookup_insert_eq. reflexivity.
  - intros s k k' v Hne. rewrite lookup_insert_ne by exact Hne. reflexivity.
  - intros s k k' Hne. rewrite lookup_delete_ne by exact Hne. reflexivity.
Qed.


End CacheFacts.

(** ** The shape checks of the sanity phase *)

Module SanityShapes.
Import Validator Shapes.

Lemma OutPoint_IsEqual_true (p q : OutPoint) :
  OutPoint_IsEqual p q = true <-> p = q.
Proof.
  unfold OutPoint_IsEqual. rewrite andb_true_iff, !Z.eqb_eq.
  destruct p as [t i], q as [t' i']; cbn. split.
  - intros [-> ->]. reflexivity.
  - intros [= -> ->]. split; reflexivity.
Qed.

Lemma seen_before (u : Input) (seen : list Input) :
  existsb (fun earlier => OutPoint_IsEqual (Previous u) (Previous earlier)) seen
  = true <-> Previous u ∈ map Previous seen.
Proof.
  rewrite existsb_exists, list_elem_of_fmap. split.
  - intros (a & Ha & Heq). apply OutPoint_IsEqual_true in Heq.
    exists a. split; [exact Heq|]. apply list_elem_of_In. exact Ha.
  - intros (a & Heq & Ha). exists a. split.
    + apply list_elem_of_In. exact Ha.
    + apply OutPoint_IsEqual_true. exact Heq.
Qed.

Lemma sentinel_test (u : Input) :
  (TxID (Previous u) =? EmptyHash) && (Index (Previous u) =? Int.MaxUint16)
  = true <-> isSentinel (Previous u).
Proof. unfold isSentinel. rewrite andb_true_iff, !Z.eqb_eq. tauto. Qed.

(** The loop accepts the remaining inputs exactly when none is the
    sentinel and no reference repeats, among them or against the inputs
    already seen. *)
Lemma checkInputsFrom_None (rest : list Input) :
  forall seen : list Input,
    NoDup (map Previous seen) ->
    checkInputsFrom seen rest = None <->
    Forall (fun input => ~ isSentinel (Previous input)) rest
    /\ NoDup (map Previous (seen ++ rest)).
Proof.
  induction rest as [|u rest IH]; intros seen Hseen; cbn [checkInputsFrom].
  - rewrite app_nil_r. split; [intros _; split; [constructor|exact Hseen]|reflexivity].
  - destruct (_ && _) eqn:Hs.
    + apply sentinel_test in Hs. split; [discriminate|].
      intros [Hall _]. inversion Hall; contradiction.
    + assert (Hns : ~ isSentinel (Previous u)).
      { intros H. apply sentinel_test in H. congruence. }
      destruct (existsb _ seen) eqn:Hex.
      * apply seen_before in Hex. split; [discriminate|].
        intros [_ Hnd]. rewrite map_app in Hnd. apply NoDup_app in Hnd as (_ & Hdis & _).
        exfalso. apply (Hdis _ Hex). cbn. left.
      * assert (Hfresh : Previous u ∉ map Previous seen).
        { intros H. apply seen_before in H. congruence. }
        rewrite IH.
        -- rewrite <- app_assoc. cbn [app]. rewrite Forall_cons. tauto.
        -- rewrite map_app. cbn. apply NoDup_app. split; [exact Hseen|].
           split; [|apply NoDup_singleton].
           intros p Hp Hin. apply list_elem_of_singleton in Hin. subst p. contradiction.
Qed.

(** X1: CheckTransactionInput, in full: a coinbase transaction must have
    exactly one input and that input must carry the sentinel reference; a
    recharge transaction is let through unexamined; any other transaction
    needs at least one input, no sentinel reference, and references that
    are pairwise distinct. *)
Theorem CheckTransactionInput_accepts (txn : Transaction) :
  CheckTransactionInput txn = None <-> inputsAccepted txn.
Proof.
  unfold CheckTransactionInput, inputsAccepted, IsCoinBaseTx,
    IsRechargeToSideChainTx.
  assert (Hordinary :
    TxType txn <> CoinBase -> TxType txn <> RechargeToSideChain ->
    (if len (Inputs txn) <=? 0 then Some "transaction has no inputs"
     else checkInputsFrom [] (Inputs txn)) = None <->
    Inputs txn <> []
    /\ Forall (fun input => ~ isSentinel (Previous input)) (Inputs txn)
    /\ NoDup (map Previous (Inputs txn))).
  { intros _ _. destruct (Inputs txn) as [|u rest] eqn:Hin.
    - cbn. split; [discriminate|]. intros [H _]. congruence.
    - replace (len (u :: rest) <=? 0) with false
        by (symmetry; apply Z.leb_gt; unfold len; cbn [length]; lia).
      rewrite (checkInputsFrom_None (u :: rest) []) by constructor.
      cbn [app]. split; [intros [? ?]; repeat split; [discriminate|assumption..]|tauto]. }
  destruct (TxType txn) eqn:Hty;
    try (rewrite !bool_decide_eq_false_2 by discriminate;
         apply Hordinary; discriminate).
  - rewrite bool_decide_eq_true_2 by reflexivity.
    destruct (Inputs txn) as [|input0 [|input1 more]].
    + split; [discriminate|]. intros (x & Hx & _). discriminate.
    + destruct (negb (TxID (Previous input0) =? EmptyHash)
                || negb (Index (Previous input0) =? Int.MaxUint16)) eqn:Hs.
      * split; [discriminate|]. intros (x & [= <-] & Ht & Hi).
        rewrite Ht, Hi in Hs. cbn in Hs. discriminate.
      * apply orb_false_iff in Hs as [Ht Hi].
        apply negb_false_iff, Z.eqb_eq in Ht, Hi.
        split; [|reflexivity]. intros _. exists input0.
        split; [reflexivity|split; assumption].
    + split; [discriminate|]. intros (x & Hx & _). discriminate.
  - rewrite bool_decide_eq_false_2 by discriminate.
    rewrite bool_decide_eq_true_2 by reflexivity. tauto.
Qed.

Lemma checkOutput_None (L : Ledger) (txn : Transaction) (o : Output) :
  checkOutput L txn o = None <-> outputWellShaped L txn o.
Proof.
  unfold checkOutput, outputWellShaped.
  destruct (AssetID o =? EmptyHash) eqn:Hnil.
  { apply Z.eqb_eq in Hnil. split; [discriminate|]. intros [H _]. contradiction. }
  apply Z.eqb_neq in Hnil.
  destruct (AssetID o =? NativeAssetID L) eqn:Hnative.
  - apply Z.eqb_eq in Hnative.
    destruct ((Value o <? 0) || negb (Z.sgn (TokenValue o) =? 0)) eqn:Hbad.
    + split; [discriminate|]. intros (_ & _ & Hn & _).
      destruct (Hn Hnative) as [Hv Ht].
      apply orb_true_iff in Hbad as [Hbad|Hbad].
      * apply Z.ltb_lt in Hbad. lia.
      * rewrite Ht in Hbad. discriminate.
    + apply orb_false_iff in Hbad as [Hv Ht].
      apply Z.ltb_ge in Hv. apply negb_false_iff, Z.eqb_eq in Ht.
      apply -> Z.sgn_null_iff in Ht.
      destruct (CheckOutputProgramHash (ProgramHash o)); cbn [negb].
      * split; [|reflexivity]. intros _.
        split; [exact Hnil|]. split; [reflexivity|].
        split; [intros _; split; [lia|exact Ht]|intros Hc; contradiction].
      * split; [discriminate|]. intros (_ & H & _). discriminate.
  - apply Z.eqb_neq in Hnative.
    destruct (IsRechargeToSideChainTx txn || IsTransferCrossChainAssetTx txn)
      eqn:Hcross.
    + split; [discriminate|]. intros (_ & _ & _ & Ht).
      destruct (Ht Hnative) as (_ & _ & Hr & Hx).
      rewrite Hr, Hx in Hcross. discriminate.
    + apply orb_false_iff in Hcross as [Hr Hx].
      destruct ((Z.sgn (TokenValue o) <? 0) || negb (Value o =? 0)) eqn:Hbad.
      * split; [discriminate|]. intros (_ & _ & _ & Ht).
        destruct (Ht Hnative) as (Hv & Htv & _).
        apply orb_true_iff in Hbad as [Hbad|Hbad].
        -- apply Z.ltb_lt, Z.sgn_neg_iff in Hbad. lia.
        -- rewrite Hv in Hbad. discriminate.
      * apply orb_false_iff in Hbad as [Htv Hv].
        apply Z.ltb_ge in Htv. apply negb_false_iff, Z.eqb_eq in Hv.
        assert (0 <= TokenValue o).
        { destruct (Z.lt_ge_cases (TokenValue o) 0) as [Hlt|]; [|assumption].
          apply Z.sgn_neg_iff in Hlt. lia. }
        destruct (CheckOutputProgramHash (ProgramHash o)); cbn [negb].
        -- split; [|reflexivity]. intros _.
           split; [exact Hnil|]. split; [reflexivity|].
           split; [intros Hc; contradiction|]. intros _. repeat split; assumption.
        -- split; [discriminate|]. intros (_ & H' & _). discriminate.
Qed.

Lemma ordinary_outputs_None (cfg : Config) (L : Ledger) (txn : Transaction) :
  IsCoinBaseTx txn = false ->
  CheckTransactionOutput cfg L txn = None <->
  Outputs txn <> [] /\ Forall (outputWellShaped L txn) (Outputs txn).
Proof.
  intros Hcb. unfold CheckTransactionOutput. rewrite Hcb.
  destruct (Outputs txn) as [|o os] eqn:Houts.
  - cbn. split; [discriminate|]. intros [H _]. congruence.
  - replace (len (o :: os) <? 1) with false
      by (symmetry; apply Z.ltb_ge; unfold len; cbn [length]; lia).
    rewrite first_error_None, Forall_forall.
    split.
    + intros Hall. split; [discriminate|].
      intros x Hx. apply checkOutput_None, Hall, Hx.
    + intros [_ Hall] x Hx. apply checkOutput_None, Hall, Hx.
Qed.

(** X2: CheckTransactionOutput on a transaction that is not a coinbase:
    accepted exactly when there is at least one output and every output
    names an asset, goes to a recognised destination and carries its
    amount in the field of its asset (a non-negative [Value] and no
    [TokenValue] for the native asset; no [Value] and a non-negative
    [TokenValue] for any other, which recharge and cross-chain transfer
    transactions may not use). *)
Theorem CheckTransactionOutput_ordinary (cfg : Config) (L : Ledger)
    (txn : Transaction) :
  IsCoinBaseTx txn = false ->
  CheckTransactionOutput cfg L txn = None <->
  Outputs txn <> [] /\ Forall (outputWellShaped L txn) (Outputs txn).
Proof. apply ordinary_outputs_None. Qed.

Lemma coinbaseRewards_foldl (cfg : Config) (outputs : list Output) :
  forall total foundation,
    foldl
      (fun '(totalReward, foundationReward) output =>
         (Fixed64.add totalReward (Value output),
          if ProgramHash output =? FoundationAddress cfg
          then Fixed64.add foundationReward (Value output)
          else foundationReward))
      (total, foundation) outputs
    = (foldl Fixed64.add total (map Value outputs),
       foldl Fixed64.add foundation (foundationValues cfg outputs)).
Proof.
  unfold foundationValues.
  induction outputs as [|o outputs IH]; intros total foundation;
    [reflexivity|].
  cbn [foldl map]. rewrite IH.
  destruct (ProgramHash o =? FoundationAddress cfg) eqn:Hf.
  - apply Z.eqb_eq in Hf. rewrite filter_cons_True by exact Hf. reflexivity.
  - apply Z.eqb_neq in Hf. rewrite filter_cons_False by exact Hf. reflexivity.
Qed.

(** X3: CheckTransactionOutput on a coinbase transaction: accepted exactly
    when there are at least two outputs and the values paid to the
    foundation address add up to no less than three tenths of the total,
    the share being [Fixed64(float64(total) * 0.3)] and both totals the
    exact sums reduced to [int64].  Asset ids, token values and
    destinations of the other outputs play no part. *)
Theorem CheckTransactionOutput_coinbase (cfg : Config) (L : Ledger)
    (txn : Transaction) :
  IsCoinBaseTx txn = true ->
  CheckTransactionOutput cfg L txn = None <->
  2 <= len (Outputs txn)
  /\ Float64.scale (Int.int64 (sumZ (map Value (Outputs txn)))) Float64.c0_3
     <= Int.int64 (sumZ (foundationValues cfg (Outputs txn))).
Proof.
  intros Hcb. unfold CheckTransactionOutput, coinbaseRewards. rewrite Hcb.
  rewrite coinbaseRewards_foldl.
  change (foldl Fixed64.add 0 (map Value (Outputs txn)))
    with (Fixed64.sum (map Value (Outputs txn))).
  change (foldl Fixed64.add 0 (foundationValues cfg (Outputs txn)))
    with (Fixed64.sum (foundationValues cfg (Outputs txn))).
  rewrite !Fixed64_sum_exact.
  destruct (len (Outputs txn) <? 2) eqn:Hlen.
  - apply Z.ltb_lt in Hlen. split; [discriminate|]. lia.
  - apply Z.ltb_ge in Hlen.
    destruct (_ <? _) eqn:Hshare.
    + apply Z.ltb_lt in Hshare. split; [discriminate|]. lia.
    + apply Z.ltb_ge in Hshare. split; [|reflexivity]. intros _. lia.
Qed.

Lemma CheckTransactionOutput_ordinary_witness :
  CheckTransactionOutput Sample.cfg Sample.ledger Sample.payTx = None <->
  Outputs Sample.payTx <> []
  /\ Forall (outputWellShaped Sample.ledger Sample.payTx)
       (Outputs Sample.payTx).
Proof.
  apply (CheckTransactionOutput_ordinary Sample.cfg Sample.ledger Sample.payTx).
  reflexivity.
Defined.

Lemma CheckTransactionOutput_coinbase_witness :
  CheckTransactionOutput Sample.cfg Sample.ledger Sample.coinbaseTx = None <->
  2 <= len (Outputs Sample.coinbaseTx)
  /\ Float64.scale
       (Int.int64 (sumZ (map Value (Outputs Sample.coinbaseTx))))
       Float64.c0_3
     <= Int.int64 (sumZ (foundationValues Sample.cfg
                           (Outputs Sample.coinbaseTx))).
Proof.
  apply (CheckTransactionOutput_coinbase Sample.cfg Sample.ledger
           Sample.coinbaseTx).
  reflexivity.
Defined.

End SanityShapes.

(** ** More on the asset-precision check *)

Module PrecisionOrder.
Import Validator Shapes.

(** X4: CheckAssetPrecision, whatever the order of the [range]: visiting the
    asset groups in any order returns [nil] exactly when every output's
    asset is registered and every output's [Value] has the precision of
    its asset.  The order can only change which error is reported. *)
Theorem CheckAssetPrecision_any_order (L : Ledger) (outputs : list Output)
    (order : list (Z * list Output)) :
  order ≡ₚ map_to_list (groupByAsset outputs) ->
  first_error (checkAssetGroup L) order = None <->
  forall o, o ∈ outputs -> outputPrecisionError L o = None.
Proof.
  intros Hperm.
  rewrite <- AssetPrecision.checkAssetGroup_outputs.
  rewrite !first_error_None.
  split; intros Hall entry Hentry; apply Hall.
  - rewrite Hperm. exact Hentry.
  - rewrite <- Hperm. exact Hentry.
Qed.

Lemma precisionDivisor_8 (p : Z) :
  0 <= p <= 8 -> precisionDivisor p 8 = 10 ^ (8 - p).
Proof.
  intros Hp.
  assert (H : forall n : nat, (n <= 8)%nat ->
            precisionDivisor (Z.of_nat n) 8 = 10 ^ (8 - Z.of_nat n)).
  { intros n Hn.
    do 9 (destruct n as [|n]; [vm_compute; reflexivity|]). lia. }
  specialize (H (Z.to_nat p)). rewrite Z2Nat.id in H by lia.
  apply H. lia.
Qed.

(** X5: CheckAssetPrecision on the native asset: in a transaction that is not
    a registration, an output in the native asset, registered with
    precision [p <= 8], is accepted only if its [Value] is a multiple of
    [10^(8 - p)]. *)
Theorem native_precision_on_value (L : Ledger) (txn : Transaction)
    (o : Output) (asset : Asset) :
  TxType txn <> RegisterAsset ->
  o ∈ Outputs txn ->
  AssetID o = NativeAssetID L ->
  GetAsset L (AssetID o) = Ok asset ->
  0 <= Precision asset <= 8 ->
  CheckAssetPrecision L txn = None ->
  (10 ^ (8 - Precision asset) | Value o).
Proof.
  intros Hreg Ho Hnative Hasset Hp Hok.
  apply AssetPrecision.CheckAssetPrecision_ok in Hok as [Hok|Hok];
    [congruence|].
  specialize (Hok o Ho). unfold outputPrecisionError in Hok.
  rewrite Hasset in Hok. unfold checkOutputPrecision in Hok.
  apply Z.eqb_eq in Hnative. rewrite Hnative in Hok.
  destruct (checkAmountPrecise (Value o) (Precision asset) 8) eqn:Hc;
    [|discriminate].
  unfold checkAmountPrecise, Fixed64.IntValue in Hc.
  rewrite precisionDivisor_8 in Hc by exact Hp.
  apply Z.eqb_eq in Hc. apply Z.rem_divide in Hc; [exact Hc|].
  apply Z.pow_nonzero; lia.
Qed.

(** X6: The output check and the precision check together: once
    CheckTransactionOutput has passed a transaction that is neither a
    coinbase nor a registration, CheckAssetPrecision asks of an output in
    a non-native asset only that the asset be registered (its [Value] is
    zero and divides by anything); the amount test bears on the native
    outputs alone. *)
Theorem precision_after_output_check (cfg : Config) (L : Ledger)
    (txn : Transaction) :
  IsCoinBaseTx txn = false ->
  TxType txn <> RegisterAsset ->
  CheckTransactionOutput cfg L txn = None ->
  CheckAssetPrecision L txn = None <->
  forall o, o ∈ Outputs txn ->
    exists asset,
      GetAsset L (AssetID o) = Ok asset
      /\ (AssetID o = NativeAssetID L ->
          checkAmountPrecise (Value o) (Precision asset) 8 = true).
Proof.
  intros Hcb Hreg Hout.
  apply (SanityShapes.ordinary_outputs_None cfg L txn Hcb) in Hout
    as [_ Hshape].
  rewrite Forall_forall in Hshape.
  rewrite AssetPrecision.CheckAssetPrecision_ok.
  split.
  - intros [Hr|Hall]; [congruence|]. intros o Ho.
    specialize (Hall o Ho). unfold outputPrecisionError in Hall.
    destruct (GetAsset L (AssetID o)) as [asset|]; [|discriminate].
    exists asset. split; [reflexivity|]. intros Hnative.
    unfold checkOutputPrecision in Hall.
    apply Z.eqb_eq in Hnative. rewrite Hnative in Hall.
    destruct (checkAmountPrecise _ _ 8); [reflexivity|discriminate].
  - intros Hall. right. intros o Ho.
    destruct (Hall o Ho) as (asset & Hasset & Hnative).
    unfold outputPrecisionError. rewrite Hasset.
    unfold checkOutputPrecision.
    destruct (AssetID o =? NativeAssetID L) eqn:Hn.
    + apply Z.eqb_eq in Hn. rewrite (Hnative Hn). reflexivity.
    + apply Z.eqb_neq in Hn.
      destruct (Hshape o Ho) as (_ & _ & _ & Htoken).
      destruct (Htoken Hn) as (Hv & _).
      rewrite Hv. unfold checkAmountPrecise, Fixed64.IntValue.
      rewrite Z.rem_0_l by apply AssetPrecision.pow10_divisor_nonzero.
      reflexivity.
Qed.

Lemma CheckAssetPrecision_any_order_witness :
  first_error (Validator.checkAssetGroup Sample.ledger)
    (map_to_list (Validator.groupByAsset (Outputs Sample.tokenLossTx))) = None
  <-> forall o, o ∈ Outputs Sample.tokenLossTx ->
                outputPrecisionError Sample.ledger o = None.
Proof.
  apply (CheckAssetPrecision_any_order Sample.ledger
           (Outputs Sample.tokenLossTx)
           (map_to_list (Validator.groupByAsset (Outputs Sample.tokenLossTx)))).
  reflexivity.
Defined.

Lemma native_precision_on_value_witness :
  (10 ^ (8 - Precision Sample.elaAsset)
   | Value (Sample.nativeOutput 99000 Sample.bob)).
Proof.
  apply (native_precision_on_value Sample.ledger Sample.payTx
           (Sample.nativeOutput 99000 Sample.bob) Sample.elaAsset).
  - discriminate.
  - left.
  - reflexivity.
  - reflexivity.
  - simpl. lia.
  - vm_compute. reflexivity.
Defined.

Lemma precision_after_output_check_witness :
  Validator.CheckAssetPrecision Sample.ledger Sample.payTx = None <->
  forall o, o ∈ Outputs Sample.payTx ->
    exists asset,
      GetAsset Sample.ledger (AssetID o) = Ok asset
      /\ (AssetID o = NativeAssetID Sample.ledger ->
          Validator.checkAmountPrecise (Value o) (Precision asset) 8 = true).
Proof.
  apply (precision_after_output_check Sample.cfg Sample.ledger Sample.payTx).
  - reflexivity.
  - discriminate.
  - vm_compute. reflexivity.
Defined.

End PrecisionOrder.

(** ** The lock check and the referenced outputs *)

Module ContextReferences.
Import Validator Shapes.

Lemma checkUTXOLock_None (txn : Transaction) (entry : Input * Output) :
  checkUTXOLock txn entry = None <-> lockRespected txn entry.
Proof.
  destruct entry as [input output]. unfold checkUTXOLock, lockRespected.
  cbn [fst snd].
  destruct (OutputLock output =? 0) eqn:Hlock.
  - apply Z.eqb_eq in Hlock. split; [|reflexivity]. intros _ H. contradiction.
  - apply Z.eqb_neq in Hlock.
    destruct (Sequence input =? Int.MaxUint32 - 1) eqn:Hseq; cbn [negb].
    + apply Z.eqb_eq in Hseq.
      destruct (LockTime txn <? OutputLock output) eqn:Htime.
      * apply Z.ltb_lt in Htime. split; [discriminate|].
        intros H. destruct (H Hlock). lia.
      * apply Z.ltb_ge in Htime. split; [|reflexivity].
        intros _ _. split; assumption.
    + apply Z.eqb_neq in Hseq. split; [discriminate|].
      intros H. destruct (H Hlock). contradiction.
Qed.

(** X7: CheckTransactionUTXOLock on a transaction that is not a coinbase and
    whose references resolve: it returns [nil] exactly when the
    transaction has an input and every referenced output with a non-zero
    lock height is spent by an input of sequence [MaxUint32 - 1] in a
    transaction whose lock time is not below that height.  The condition
    bears on the set of references, not on the order in which the [range]
    visits them. *)
Theorem CheckTransactionUTXOLock_accepts (L : Ledger) (txn : Transaction)
    (references : list (Input * Output)) :
  IsCoinBaseTx txn = false ->
  GetTxReference L txn = Ok references ->
  CheckTransactionUTXOLock L txn = None <->
  Inputs txn <> []
  /\ forall entry, entry ∈ references -> lockRespected txn entry.
Proof.
  intros Hcb Href. unfold CheckTransactionUTXOLock. rewrite Hcb, Href.
  destruct (Inputs txn) as [|input rest].
  - cbn. split; [discriminate|]. intros [H _]. congruence.
  - replace (len (input :: rest) <=? 0) with false
      by (symmetry; apply Z.leb_gt; unfold len; cbn [length]; lia).
    rewrite first_error_None. split.
    + intros Hall. split; [discriminate|].
      intros entry Hentry. apply checkUTXOLock_None, Hall, Hentry.
    + intros [_ Hall] entry Hentry. apply checkUTXOLock_None, Hall, Hentry.
Qed.

(** X8: The closing loop of CheckTransactionContext: it ends in [Success]
    exactly when every input, in turn, references a transaction the
    ledger holds and an output that transaction has, the output is worth
    more than zero if it is in the native asset (its [TokenValue] is never
    a ground for refusal), and a referenced coinbase has aged by
    [SpendCoinbaseSpan]. *)
Theorem checkReferencedOutputs_Success (cfg : Config) (L : Ledger)
    (inputs : list Input) :
  checkReferencedOutputs cfg L inputs = Returns Success <->
  Forall (referencedOutputOk cfg L) inputs.
Proof.
  induction inputs as [|input rest IH]; cbn [checkReferencedOutputs].
  - split; [constructor|reflexivity].
  - rewrite Forall_cons, <- IH. unfold referencedOutputOk.
    destruct (GetTransaction L (TxID (Previous input)))
      as [[referTxn height]|msg] eqn:Hget.
    2:{ split; [discriminate|]. intros [(t & h & o & H & _) _]. discriminate. }
    destruct (index (Outputs referTxn) (Index (Previous input)))
      as [referTxnOut|] eqn:Hidx.
    2:{ split; [discriminate|].
        intros [(t & h & o & [= <- <-] & H & _) _]. congruence. }
    assert (Hhere : forall P : Prop,
              ((exists t h o,
                  Ok (referTxn, height) = Ok (t, h)
                  /\ index (Outputs t) (Index (Previous input)) = Some o
                  /\ (AssetID o = NativeAssetID L -> 0 < Value o)
                  /\ (IsCoinBaseTx t = true ->
                      SpendCoinbaseSpan cfg
                      <= Int.uint32 (GetHeight L - LockTime t))) /\ P)
              <-> ((AssetID referTxnOut = NativeAssetID L ->
                    0 < Value referTxnOut)
                   /\ (IsCoinBaseTx referTxn = true ->
                       SpendCoinbaseSpan cfg
                       <= Int.uint32 (GetHeight L - LockTime referTxn))) /\ P).
    { intros P. split.
      - intros [(t & h & o & [= <- <-] & Ho & Hv & Hm) HP].
        rewrite Hidx in Ho. injection Ho as <-. tauto.
      - intros [[Hv Hm] HP]. split; [|exact HP].
        exists referTxn, height, referTxnOut. tauto. }
    rewrite Hhere.
    destruct (AssetID referTxnOut =? NativeAssetID L) eqn:Hnative.
    + apply Z.eqb_eq in Hnative.
      destruct (Value referTxnOut <=? 0) eqn:Hval.
      * apply Z.leb_le in Hval. split; [discriminate|].
        intros [[Hv _] _]. specialize (Hv Hnative). lia.
      * apply Z.leb_gt in Hval.
        destruct (IsCoinBaseTx referTxn) eqn:Hcb; cbn [andb].
        -- destruct (_ <? _) eqn:Hspan.
           ++ apply Z.ltb_lt in Hspan. split; [discriminate|].
              intros [[_ Hm] _]. specialize (Hm eq_refl). lia.
           ++ apply Z.ltb_ge in Hspan. tauto.
        -- split; [|tauto]. intros H.
           split; [split; [tauto|discriminate]|exact H].
    + apply Z.eqb_neq in Hnative.
      destruct (IsCoinBaseTx referTxn) eqn:Hcb; cbn [andb].
      * destruct (_ <? _) eqn:Hspan.
        -- apply Z.ltb_lt in Hspan. split; [discriminate|].
           intros [[_ Hm] _]. specialize (Hm eq_refl). lia.
        -- apply Z.ltb_ge in Hspan. tauto.
      * split; [|tauto]. intros H.
        split; [split; [tauto|discriminate]|exact H].
Qed.

Lemma uint32_sub (current lock : Z) :
  0 <= current < 2 ^ 32 -> 0 <= lock < 2 ^ 32 ->
  Int.uint32 (current - lock)
  = if lock <=? current then current - lock else current - lock + 2 ^ 32.
Proof.
  intros Hc Hl. unfold Int.uint32.
  change (2 ^ 32) with 4294967296 in *.
  destruct (lock <=? current) eqn:Hle.
  - apply Z.leb_le in Hle. apply Z.mod_small. lia.
  - apply Z.leb_gt in Hle.
    rewrite <- (Z_mod_plus_full (current - lock) 1 4294967296).
    rewrite Z.mod_small by lia. lia.
Qed.

(** X9: The coinbase maturity test, in exact heights.  The difference between
    the current height and the coinbase's lock time is taken in [uint32]:
    a referenced coinbase counts as aged when the plain difference
    reaches the span, and also when its lock time lies above the current
    height by no more than [2^32 - span], the subtraction then wrapping
    round. *)
Theorem coinbase_maturity_wraps (cfg : Config) (L : Ledger) (input : Input)
    (referTxn : Transaction) (height : Z) (referTxnOut : Output) :
  GetTransaction L (TxID (Previous input)) = Ok (referTxn, height) ->
  index (Outputs referTxn) (Index (Previous input)) = Some referTxnOut ->
  (AssetID referTxnOut = NativeAssetID L -> 0 < Value referTxnOut) ->
  IsCoinBaseTx referTxn = true ->
  0 <= GetHeight L < 2 ^ 32 ->
  0 <= LockTime referTxn < 2 ^ 32 ->
  checkReferencedOutputs cfg L [input] = Returns Success <->
  (LockTime referTxn <= GetHeight L
   /\ SpendCoinbaseSpan cfg <= GetHeight L - LockTime referTxn)
  \/ (GetHeight L < LockTime referTxn
      /\ SpendCoinbaseSpan cfg + (LockTime referTxn - GetHeight L) <= 2 ^ 32).
Proof.
  intros Hget Hidx Hval Hcb Hcur Hlock.
  cbn [checkReferencedOutputs]. rewrite Hget, Hidx, Hcb. cbn [andb].
  rewrite (uint32_sub _ _ Hcur Hlock).
  assert (Hv : (if AssetID referTxnOut =? NativeAssetID L
                then Value referTxnOut <=? 0 else false) = false).
  { destruct (AssetID referTxnOut =? NativeAssetID L) eqn:Hn; [|reflexivity].
    apply Z.eqb_eq in Hn. apply Z.leb_gt. auto. }
  rewrite Hv.
  destruct (LockTime referTxn <=? GetHeight L) eqn:Hle.
  - apply Z.leb_le in Hle.
    destruct (_ <? _) eqn:Hspan.
    + apply Z.ltb_lt in Hspan. split; [discriminate|]. lia.
    + apply Z.ltb_ge in Hspan. split; [|reflexivity]. intros _. left. lia.
  - apply Z.leb_gt in Hle.
    destruct (_ <? _) eqn:Hspan.
    + apply Z.ltb_lt in Hspan. split; [discriminate|]. lia.
    + apply Z.ltb_ge in Hspan. split; [|reflexivity]. intros _. right. lia.
Qed.

Lemma CheckTransactionUTXOLock_accepts_witness :
  Validator.CheckTransactionUTXOLock Sample.ledger Sample.payTx = None <->
  Inputs Sample.payTx <> []
  /\ forall entry,
       entry ∈ [(Sample.spend 500 0, Sample.nativeOutput 100000 Sample.alice)] ->
       lockRespected Sample.payTx entry.
Proof.
  apply (CheckTransactionUTXOLock_accepts Sample.ledger Sample.payTx
           [(Sample.spend 500 0, Sample.nativeOutput 100000 Sample.alice)]).
  - reflexivity.
  - reflexivity.
Defined.

Lemma coinbase_maturity_wraps_witness :
  Validator.checkReferencedOutputs Sample.cfg MoreSamples.otherLedger
    [MoreSamples.spendCoinbase] = Returns Success <->
  (LockTime MoreSamples.lateCoinbaseTx <= GetHeight MoreSamples.otherLedger
   /\ SpendCoinbaseSpan Sample.cfg
      <= GetHeight MoreSamples.otherLedger - LockTime MoreSamples.lateCoinbaseTx)
  \/ (GetHeight MoreSamples.otherLedger < LockTime MoreSamples.lateCoinbaseTx
      /\ SpendCoinbaseSpan Sample.cfg
         + (LockTime MoreSamples.lateCoinbaseTx - GetHeight MoreSamples.otherLedger)
         <= 2 ^ 32).
Proof.
  apply (coinbase_maturity_wraps Sample.cfg MoreSamples.otherLedger
           MoreSamples.spendCoinbase MoreSamples.lateCoinbaseTx 150
           (Sample.nativeOutput 7000000000 Sample.alice)).
  - reflexivity.
  - reflexivity.
  - intros _. simpl. lia.
  - reflexivity.
  - simpl. lia.
  - simpl. lia.
Defined.

End ContextReferences.

(** ** More on the recharge check *)

Module RechargeMore.
Import Validator Shapes.

Section Facts.

Variable lib : Lib.
Variable cfg : Config.

Lemma rechargeEntry_ok (txn : Transaction) (mc : ela.Transaction)
    (payloadObj : PayloadTransferCrossChainAsset) (gph acc : Z) (i : nat)
    (total : Z) :
  rechargeEntry lib cfg txn mc payloadObj gph acc i = Returns (Ok total) ->
  rechargeEntryOk lib cfg txn mc payloadObj gph i.
Proof.
  unfold rechargeEntry, rechargeEntryOk.
  destruct (OutputIndexes payloadObj !! i) as [outputIndex|]; [|discriminate].
  destruct (index (ela.Outputs mc) outputIndex) as [mcOutput|] eqn:Hmc;
    [|discriminate].
  intros Hentry. exists outputIndex, mcOutput.
  split; [reflexivity|]. split; [exact Hmc|]. intros Hgenesis.
  apply Z.eqb_eq in Hgenesis. rewrite Hgenesis in Hentry.
  destruct (CrossChainAmounts payloadObj !! i) as [amount|]; [|discriminate].
  destruct ((amount <? 0) || _) eqn:Hbound; [discriminate|].
  apply orb_false_iff in Hbound as [Hneg Hmax].
  apply Z.ltb_ge in Hneg. rewrite Z.gtb_ltb in Hmax. apply Z.ltb_ge in Hmax.
  destruct (CrossChainAddresses payloadObj !! i) as [address|]; [|discriminate].
  destruct (Uint168FromAddress lib address) as [programHash|] eqn:Haddr;
    [|discriminate].
  destruct (existsb _ (Outputs txn)) eqn:Hex; cbn [negb] in Hentry;
    [|discriminate].
  apply existsb_exists in Hex as (output & Hin & Hmatch).
  apply andb_true_iff in Hmatch as [Hph Hval].
  apply Z.eqb_eq in Hph, Hval.
  exists amount, address, programHash, output.
  repeat split; try assumption; try reflexivity.
  apply list_elem_of_In. exact Hin.
Qed.

Lemma rechargeLoop_ok (txn : Transaction) (mc : ela.Transaction)
    (payloadObj : PayloadTransferCrossChainAsset) (gph : Z)
    (indexes : list nat) :
  forall acc total,
    rechargeLoop lib cfg txn mc payloadObj gph acc indexes
      = Returns (Ok total) ->
    forall i, i ∈ indexes -> rechargeEntryOk lib cfg txn mc payloadObj gph i.
Proof.
  induction indexes as [|j indexes IH]; intros acc total; cbn [rechargeLoop].
  - intros _ i Hi. inversion Hi.
  - destruct (rechargeEntry lib cfg txn mc payloadObj gph acc j)
      as [[acc'|e]|why] eqn:Hentry; cbn [run_bind]; try discriminate.
    intros Hloop i Hi. apply elem_of_cons in Hi as [->|Hi].
    + eapply rechargeEntry_ok. exact Hentry.
    + eapply IH; eassumption.
Qed.

(** X10: What a passed recharge check guarantees, entry by entry: the exchange
    rate is positive, the embedded main-chain transaction has not been
    used before, and for every payload entry whose main-chain output
    targets the genesis program hash the amount lies within
    [0, output value - cross-chain fee], the address parses, and the
    side-chain transaction has an output that pays exactly the converted
    amount to that address. *)
Theorem recharge_entries_matched (L : Ledger) (txn : Transaction) :
  CheckRechargeToSideChainTransaction lib cfg L txn = Returns None ->
  exists payloadRecharge mainChainTransaction payloadObj genesisProgramHash,
    Payload_ txn = PldRechargeToSideChain payloadRecharge
    /\ ElaTransactionDeserialize lib (MainChainTransaction payloadRecharge)
       = Ok mainChainTransaction
    /\ ela.Payload_ mainChainTransaction
       = ela.TransferCrossChainAsset payloadObj
    /\ GetGenesisProgramHash lib (GetBlockHash L 0) = Ok genesisProgramHash
    /\ PrimFloat.leb (ExchangeRate cfg) PrimFloat.zero = false
    /\ IsMainchainTxHashDuplicate L
         (ElaTransactionHash lib mainChainTransaction) = false
    /\ forall i : nat,
         (i < length (CrossChainAddresses payloadObj))%nat ->
         rechargeEntryOk lib cfg txn mainChainTransaction payloadObj
           genesisProgramHash i.
Proof.
  unfold CheckRechargeToSideChainTransaction.
  destruct (Payload_ txn) as [| | | |payloadRecharge| | |] eqn:Hpld;
    try discriminate.
  destruct (PrimFloat.leb _ _) eqn:Hrate; [discriminate|].
  destruct (MerkleProofDeserialize lib _); [discriminate|].
  destruct (ElaTransactionDeserialize lib _) as [mc|] eqn:Hmc; [|discriminate].
  destruct (IsMainchainTxHashDuplicate L _) eqn:Hdup; [discriminate|].
  destruct (ela.Payload_ mc) as [payloadObj|] eqn:Hobj; [|discriminate].
  destruct (GetGenesisProgramHash lib _) as [gph|] eqn:Hgph; [|discriminate].
  destruct (rechargeLoop _ _ _ _ _ _ _ _) as [[ori|e]|why] eqn:Hloop;
    cbn [run_bind]; try discriminate.
  intros _.
  exists payloadRecharge, mc, payloadObj, gph.
  repeat split; try assumption; try reflexivity.
  intros i Hi. eapply rechargeLoop_ok; [exact Hloop|].
  apply list_elem_of_In, in_seq. lia.
Qed.

(** X11: Replay protection in the context phase: a recharge transaction (not
    itself a duplicate, signature verified) whose embedded main-chain
    transaction decodes to one the ledger has already seen is refused
    with [ErrRechargeToSideChain], whatever its outputs and whatever the
    rest of its payload. *)
Theorem recharge_replay_refused (L : Ledger) (txn : Transaction)
    (payloadRecharge : PayloadRechargeToSideChain)
    (mainChainTransaction : ela.Transaction) :
  IsTxHashDuplicate L (Hash lib txn) = false ->
  CheckTransactionSignature L txn = None ->
  IsRechargeToSideChainTx txn = true ->
  Payload_ txn = PldRechargeToSideChain payloadRecharge ->
  ElaTransactionDeserialize lib (MainChainTransaction payloadRecharge)
    = Ok mainChainTransaction ->
  IsMainchainTxHashDuplicate L (ElaTransactionHash lib mainChainTransaction)
    = true ->
  CheckTransactionContext lib cfg L txn = Returns ErrRechargeToSideChain.
Proof.
  intros Hdup Hsig Hkind Hpld Hmc Hseen.
  assert (Hcb : IsCoinBaseTx txn = false).
  { unfold IsRechargeToSideChainTx in Hkind. apply bool_decide_eq_true in Hkind.
    unfold IsCoinBaseTx. rewrite Hkind. reflexivity. }
  unfold CheckTransactionContext. rewrite Hdup, Hcb, Hsig, Hkind.
  unfold CheckRechargeToSideChainTransaction. rewrite Hpld.
  destruct (PrimFloat.leb _ _); [reflexivity|].
  destruct (MerkleProofDeserialize lib _); [reflexivity|].
  rewrite Hmc, Hseen. reflexivity.
Qed.

Lemma rechargeEntry_returns (txn : Transaction) (mc : ela.Transaction)
    (payloadObj : PayloadTransferCrossChainAsset) (gph acc : Z) (i : nat) :
  (i < length (CrossChainAddresses payloadObj))%nat ->
  payloadConsistent mc payloadObj ->
  exists r, rechargeEntry lib cfg txn mc payloadObj gph acc i = Returns r.
Proof.
  intros Hi Hcons. destruct (Hcons i Hi) as (oi & Hoi & [mcOut Hout] & [amt Hamt]).
  unfold rechargeEntry. rewrite Hoi, Hout, Hamt.
  destruct (lookup_lt_is_Some_2 (CrossChainAddresses payloadObj) i Hi)
    as [address Haddr].
  rewrite Haddr.
  destruct (ela.ProgramHash mcOut =? gph); [|eauto].
  destruct (_ || _); [eauto|].
  destruct (Uint168FromAddress lib address); [|eauto].
  destruct (negb _); eauto.
Qed.

Lemma rechargeLoop_returns (txn : Transaction) (mc : ela.Transaction)
    (payloadObj : PayloadTransferCrossChainAsset) (gph : Z)
    (indexes : list nat) :
  payloadConsistent mc payloadObj ->
  (forall i, i ∈ indexes -> (i < length (CrossChainAddresses payloadObj))%nat) ->
  forall acc,
    exists r, rechargeLoop lib cfg txn mc payloadObj gph acc indexes = Returns r.
Proof.
  intros Hcons. induction indexes as [|j indexes IH]; intros Hall acc;
    cbn [rechargeLoop]; [eauto|].
  destruct (rechargeEntry_returns txn mc payloadObj gph acc j) as [r ->];
    [apply Hall; left|exact Hcons|].
  cbn [run_bind]. destruct r as [total|e]; [|eauto].
  apply IH. intros i Hi. apply Hall. right. exact Hi.
Qed.

(** X12: The recharge check returns, with a verdict, whenever the payload of
    the embedded main-chain transaction is consistent: its index and
    amount arrays are as long as its address list and its output indexes
    name outputs of the main-chain transaction.  (Nothing in the check
    tests this: an inconsistent payload makes it index out of range.) *)
Theorem recharge_check_returns (L : Ledger) (txn : Transaction) :
  (forall payloadRecharge mainChainTransaction payloadObj,
     Payload_ txn = PldRechargeToSideChain payloadRecharge ->
     ElaTransactionDeserialize lib (MainChainTransaction payloadRecharge)
       = Ok mainChainTransaction ->
     ela.Payload_ mainChainTransaction
       = ela.TransferCrossChainAsset payloadObj ->
     payloadConsistent mainChainTransaction payloadObj) ->
  exists verdict,
    CheckRechargeToSideChainTransaction lib cfg L txn = Returns verdict.
Proof.
  intros Hcons. unfold CheckRechargeToSideChainTransaction.
  destruct (Payload_ txn) as [| | | |payloadRecharge| | |] eqn:Hpld; eauto.
  destruct (PrimFloat.leb _ _); [eauto|].
  destruct (MerkleProofDeserialize lib _); [eauto|].
  destruct (ElaTransactionDeserialize lib _) as [mc|] eqn:Hmc; [|eauto].
  destruct (IsMainchainTxHashDuplicate L _); [eauto|].
  destruct (ela.Payload_ mc) as [payloadObj|] eqn:Hobj; [|eauto].
  destruct (GetGenesisProgramHash lib _) as [gph|]; [|eauto].
  destruct (rechargeLoop_returns txn mc payloadObj gph
              (seq 0 (length (CrossChainAddresses payloadObj))))
    with (acc := 0) as [r ->].
  - apply (Hcons payloadRecharge mc payloadObj); auto.
  - intros i Hi. apply list_elem_of_In, in_seq in Hi. lia.
  - cbn [run_bind]. destruct r as [ori|e]; [|eauto].
    destruct (targetOutputTotal 0 (Outputs txn)); [|eauto].
    destruct (negb _); eauto.
Qed.

(** X13: The converse edge: when the checks before the loop pass and the
    main-chain payload names an address but has no output index for it,
    the recharge check panics. *)
Theorem recharge_check_panics (L : Ledger) (txn : Transaction)
    (payloadRecharge : PayloadRechargeToSideChain)
    (mainChainTransaction : ela.Transaction)
    (payloadObj : PayloadTransferCrossChainAsset)
    (genesisProgramHash : Uint168) :
  Payload_ txn = PldRechargeToSideChain payloadRecharge ->
  PrimFloat.leb (ExchangeRate cfg) PrimFloat.zero = false ->
  MerkleProofDeserialize lib (MerkleProof payloadRecharge) = None ->
  ElaTransactionDeserialize lib (MainChainTransaction payloadRecharge)
    = Ok mainChainTransaction ->
  IsMainchainTxHashDuplicate L (ElaTransactionHash lib mainChainTransaction)
    = false ->
  ela.Payload_ mainChainTransaction = ela.TransferCrossChainAsset payloadObj ->
  GetGenesisProgramHash lib (GetBlockHash L 0) = Ok genesisProgramHash ->
  CrossChainAddresses payloadObj <> [] ->
  OutputIndexes payloadObj = [] ->
  CheckRechargeToSideChainTransaction lib cfg L txn
    = Panics "index out of range".
Proof.
  intros Hpld Hrate Hproof Hmc Hdup Hobj Hgph Haddr Hidx.
  unfold CheckRechargeToSideChainTransaction.
  rewrite Hpld, Hrate, Hproof, Hmc, Hdup, Hobj, Hgph.
  destruct (CrossChainAddresses payloadObj) as [|a rest]; [congruence|].
  cbn [length seq rechargeLoop]. unfold rechargeEntry. rewrite Hidx.
  reflexivity.
Qed.

End Facts.

Lemma recharge_entries_matched_witness :
  exists payloadRecharge mainChainTransaction payloadObj genesisProgramHash,
    Payload_ Sample.rechargeTx = PldRechargeToSideChain payloadRecharge
    /\ ElaTransactionDeserialize Sample.lib
         (MainChainTransaction payloadRecharge) = Ok mainChainTransaction
    /\ ela.Payload_ mainChainTransaction
       = ela.TransferCrossChainAsset payloadObj
    /\ GetGenesisProgramHash Sample.lib (GetBlockHash Sample.ledger 0)
       = Ok genesisProgramHash
    /\ PrimFloat.leb (ExchangeRate Sample.cfg) PrimFloat.zero = false
    /\ IsMainchainTxHashDuplicate Sample.ledger
         (ElaTransactionHash Sample.lib mainChainTransaction) = false
    /\ forall i : nat,
         (i < length (CrossChainAddresses payloadObj))%nat ->
         rechargeEntryOk Sample.lib Sample.cfg Sample.rechargeTx
           mainChainTransaction payloadObj genesisProgramHash i.
Proof.
  apply (recharge_entries_matched Sample.lib Sample.cfg Sample.ledger
           Sample.rechargeTx).
  vm_compute. reflexivity.
Defined.

Lemma recharge_replay_refused_witness :
  Validator.CheckTransactionContext Sample.lib Sample.cfg MoreSamples.otherLedger
    Sample.rechargeTx = Returns ErrRechargeToSideChain.
Proof.
  apply (recharge_replay_refused Sample.lib Sample.cfg MoreSamples.otherLedger
           Sample.rechargeTx
           {| MerkleProof := "proof"; MainChainTransaction := "deposit" |}
           Sample.mainChainTx); reflexivity.
Defined.

Lemma recharge_check_returns_witness :
  exists verdict,
    Validator.CheckRechargeToSideChainTransaction Sample.lib Sample.cfg
      Sample.ledger Sample.rechargeTx = Returns verdict.
Proof.
  apply (recharge_check_returns Sample.lib Sample.cfg Sample.ledger
           Sample.rechargeTx).
  intros payloadRecharge mainChainTransaction payloadObj Hpld Hmc Hobj.
  injection Hpld as <-. simpl in Hmc. injection Hmc as <-.
  simpl in Hobj. injection Hobj as <-.
  intros i Hi. simpl in Hi.
  destruct i as [|i]; [|lia].
  exists 0. simpl. eauto.
Defined.

Lemma recharge_check_panics_witness :
  Validator.CheckRechargeToSideChainTransaction MoreSamples.otherLib Sample.cfg
    Sample.ledger Sample.rechargeTx = Panics "index out of range".
Proof.
  apply (recharge_check_panics MoreSamples.otherLib Sample.cfg Sample.ledger
           Sample.rechargeTx
           {| MerkleProof := "proof"; MainChainTransaction := "deposit" |}
           MoreSamples.shortMainChainTx MoreSamples.shortPayload
           Sample.genesisProgramHash);
    first [reflexivity | discriminate].
Defined.

End RechargeMore.

(** ** More on the cross-chain transfer check *)

Module TransferMore.
Import Validator Shapes.

Section Facts.

Variable lib : Lib.
Variable cfg : Config.

Lemma checkOutputIndexes_None (txn : Transaction) (outputIndexes : list Z) :
  forall outputIndexMap : gset Z,
    checkOutputIndexes txn outputIndexMap outputIndexes = None <->
    Forall (fun oi => Int.int64 oi < len (Outputs txn)) outputIndexes
    /\ NoDup outputIndexes
    /\ (forall oi, oi ∈ outputIndexes -> oi ∉ outputIndexMap).
Proof.
  induction outputIndexes as [|oi rest IH]; intros seen;
    cbn [checkOutputIndexes].
  - split; [|reflexivity]. intros _.
    split; [constructor|]. split; [constructor|]. intros x Hx. inversion Hx.
  - destruct (bool_decide (oi ∈ seen)) eqn:Hseen; cbn [orb].
    + apply bool_decide_eq_true in Hseen. split; [discriminate|].
      intros (_ & _ & Hfresh). exfalso. apply (Hfresh oi); [left|exact Hseen].
    + apply bool_decide_eq_false in Hseen.
      destruct (Int.int64 oi >=? len (Outputs txn)) eqn:Hrange.
      * apply Z.geb_le in Hrange. split; [discriminate|].
        intros (Hall & _). inversion Hall; subst. lia.
      * rewrite Z.geb_leb in Hrange. apply Z.leb_gt in Hrange.
        rewrite IH, Forall_cons, NoDup_cons. split.
        -- intros (Hall & Hnd & Hfresh). split; [tauto|]. split.
           ++ split; [|exact Hnd]. intros Hin.
              apply (Hfresh oi Hin), elem_of_union. left.
              apply elem_of_singleton. reflexivity.
           ++ intros x Hx. apply elem_of_cons in Hx as [->|Hx]; [exact Hseen|].
              intros Hin. apply (Hfresh x Hx), elem_of_union. right.
              exact Hin.
        -- intros ([_ Hall] & [Hoi Hnd] & Hfresh). split; [exact Hall|].
           split; [exact Hnd|]. intros x Hx Hin.
           apply elem_of_union in Hin as [Hin|Hin].
           ++ apply elem_of_singleton in Hin. subst x. contradiction.
           ++ apply (Hfresh x); [right; exact Hx|exact Hin].
Qed.

Lemma crossChainCount_length (outputs : list Output) :
  forall (i : nat) (count : Z),
    foldl
      (fun count output =>
         if ProgramHash output =? EmptyProgramHash then count + 1 else count)
      count outputs
    = count + Z.of_nat (length (nullDestinationsFrom i outputs)).
Proof.
  induction outputs as [|o outputs IH]; intros i count; cbn; [lia|].
  destruct (ProgramHash o =? EmptyProgramHash).
  - rewrite (IH (S i)). cbn [length]. lia.
  - apply IH.
Qed.

Lemma nullDestinationsFrom_elem (outputs : list Output) :
  forall i j : nat,
    j ∈ nullDestinationsFrom i outputs <->
    (i <= j)%nat
    /\ exists o, outputs !! (j - i)%nat = Some o
                 /\ ProgramHash o = EmptyProgramHash.
Proof.
  induction outputs as [|o outputs IH]; intros i j; cbn [nullDestinationsFrom].
  - split; [intros H; inversion H|]. intros (_ & x & Hx & _). discriminate.
  - assert (Hrest : j ∈ nullDestinationsFrom (S i) outputs <->
                    (i < j)%nat
                    /\ exists x, (o :: outputs) !! (j - i)%nat = Some x
                                 /\ ProgramHash x = EmptyProgramHash).
    { rewrite IH. split.
      - intros (Hle & x & Hx & Hnull). split; [lia|]. exists x.
        split; [|exact Hnull].
        replace (j - i)%nat with (S (j - S i)) by lia. exact Hx.
      - intros (Hlt & x & Hx & Hnull). split; [lia|]. exists x.
        split; [|exact Hnull].
        replace (j - i)%nat with (S (j - S i)) in Hx by lia. exact Hx. }
    destruct (ProgramHash o =? EmptyProgramHash) eqn:Hnull.
    + apply Z.eqb_eq in Hnull. rewrite elem_of_cons, Hrest. split.
      * intros [->|[Hlt Hx]]; [|split; [lia|exact Hx]].
        split; [lia|]. exists o. rewrite Nat.sub_diag. auto.
      * intros (Hle & Hx). destruct (decide (j = i)) as [->|Hne]; [left; auto|].
        right. split; [lia|exact Hx].
    + apply Z.eqb_neq in Hnull. rewrite Hrest. split.
      * intros [Hlt Hx]. split; [lia|exact Hx].
      * intros (Hle & x & Hx & Hxnull).
        destruct (decide (j = i)) as [->|Hne].
        -- rewrite Nat.sub_diag in Hx. cbn in Hx. injection Hx as <-.
           contradiction.
        -- split; [lia|]. exists x. auto.
Qed.

Lemma checkCrossChainAmount_None (txn : Transaction)
    (payloadObj : PayloadTransferCrossChainAsset) (i : nat) :
  checkCrossChainAmount cfg txn payloadObj i = Returns None <->
  transferEntryOk cfg txn payloadObj i.
Proof.
  unfold checkCrossChainAmount, transferEntryOk.
  destruct (OutputIndexes payloadObj !! i) as [outputIndex|].
  2:{ split; [discriminate|]. intros (? & ? & ? & H & _). discriminate. }
  destruct (index (Outputs txn) outputIndex) as [output|] eqn:Hout.
  2:{ split; [discriminate|]. intros (? & ? & ? & [= <-] & H & _).
      congruence. }
  destruct (ProgramHash output =? EmptyProgramHash) eqn:Hnull; cbn [negb].
  2:{ apply Z.eqb_neq in Hnull. split; [discriminate|].
      intros (? & ? & ? & [= <-] & H & Hn & _).
      rewrite Hout in H. injection H as <-. contradiction. }
  apply Z.eqb_eq in Hnull.
  destruct (Value output <? 0) eqn:Hneg.
  { apply Z.ltb_lt in Hneg. split; [discriminate|].
    intros (? & ? & ? & [= <-] & H & _ & Hv & _).
    rewrite Hout in H. injection H as <-. lia. }
  apply Z.ltb_ge in Hneg.
  destruct (CrossChainAmounts payloadObj !! i) as [amount|].
  2:{ split; [discriminate|]. intros (? & ? & ? & _ & _ & _ & _ & H & _).
      discriminate. }
  destruct ((amount <? 0) || _) eqn:Hbound.
  - split; [discriminate|].
    intros (? & ? & ? & [= <-] & H & _ & _ & [= <-] & Hlo & Hhi).
    rewrite Hout in H. injection H as <-.
    apply orb_true_iff in Hbound as [Hb|Hb].
    + apply Z.ltb_lt in Hb. lia.
    + rewrite Z.gtb_ltb in Hb. apply Z.ltb_lt in Hb. lia.
  - apply orb_false_iff in Hbound as [Hlo Hhi].
    apply Z.ltb_ge in Hlo. rewrite Z.gtb_ltb in Hhi. apply Z.ltb_ge in Hhi.
    split; [|reflexivity]. intros _.
    exists outputIndex, output, amount. repeat split; assumption.
Qed.

Lemma checkCrossChainAmounts_None (txn : Transaction)
    (payloadObj : PayloadTransferCrossChainAsset) (indexes : list nat) :
  checkCrossChainAmounts cfg txn payloadObj indexes = Returns None <->
  forall i, i ∈ indexes -> transferEntryOk cfg txn payloadObj i.
Proof.
  induction indexes as [|j indexes IH]; cbn [checkCrossChainAmounts].
  - split; [|reflexivity]. intros _ i Hi. inversion Hi.
  - destruct (checkCrossChainAmount cfg txn payloadObj j) as [[e|]|why]
      eqn:Hentry; cbn [run_bind].
    + split; [discriminate|]. intros Hall.
      assert (Hj : transferEntryOk cfg txn payloadObj j) by (apply Hall; left).
      apply checkCrossChainAmount_None in Hj. congruence.
    + apply checkCrossChainAmount_None in Hentry. rewrite IH. split.
      * intros Hall i Hi. apply elem_of_cons in Hi as [->|Hi]; auto.
      * intros Hall i Hi. apply Hall. right. exact Hi.
    + split; [discriminate|]. intros Hall.
      assert (Hj : transferEntryOk cfg txn payloadObj j) by (apply Hall; left).
      apply checkCrossChainAmount_None in Hj. congruence.
Qed.

Lemma checkCrossChainAddress_None (address : string) :
  checkCrossChainAddress lib address = None <->
  crossChainAddressOk lib address.
Proof.
  unfold checkCrossChainAddress, crossChainAddressOk.
  destruct (bool_decide (address = EmptyString)) eqn:Hempty.
  { apply bool_decide_eq_true in Hempty. split; [discriminate|].
    intros [H _]. contradiction. }
  apply bool_decide_eq_false in Hempty.
  destruct (Uint168FromAddress lib address) as [programHash|].
  2:{ split; [discriminate|]. intros (_ & ? & H & _). discriminate. }
  destruct (prefixOf programHash =? PrefixStandard) eqn:Hstd; cbn [negb andb].
  { apply Z.eqb_eq in Hstd. split; [|reflexivity]. intros _.
    split; [exact Hempty|]. exists programHash. auto. }
  apply Z.eqb_neq in Hstd.
  destruct (prefixOf programHash =? PrefixMultisig) eqn:Hmulti; cbn [negb].
  { apply Z.eqb_eq in Hmulti. split; [|reflexivity]. intros _.
    split; [exact Hempty|]. exists programHash. auto. }
  apply Z.eqb_neq in Hmulti. split; [discriminate|].
  intros (_ & ph & [= <-] & [H|H]); contradiction.
Qed.

(** The whole of the transfer check, as a condition on the transaction
    and its payload.  Shared by the statements below. *)
Lemma transfer_check_None (L : Ledger) (txn : Transaction) :
  CheckTransferCrossChainAssetTransaction lib cfg L txn = Returns None ->
  exists payloadObj reference,
    Payload_ txn = PldTransferCrossChainAsset payloadObj
    /\ CrossChainAddresses payloadObj <> []
    /\ (length (CrossChainAddresses payloadObj) <= length (Outputs txn))%nat
    /\ length (CrossChainAmounts payloadObj)
       = length (CrossChainAddresses payloadObj)
    /\ length (OutputIndexes payloadObj)
       = length (CrossChainAddresses payloadObj)
    /\ NoDup (OutputIndexes payloadObj)
    /\ length (nullDestinations (Outputs txn))
       = length (CrossChainAddresses payloadObj)
    /\ Forall (crossChainAddressOk lib) (CrossChainAddresses payloadObj)
    /\ (forall i : nat,
          (i < length (OutputIndexes payloadObj))%nat ->
          transferEntryOk cfg txn payloadObj i)
    /\ GetTxReference L txn = Ok reference
    /\ MinCrossChainTxFee cfg
       <= Fixed64.sub
            (Fixed64.sum (map (fun e => Value (snd e)) reference))
            (Fixed64.sum (map Value (Outputs txn))).
Proof.
  unfold CheckTransferCrossChainAssetTransaction.
  destruct (Payload_ txn) as [| | | | |payloadObj| |] eqn:Hpld;
    try discriminate.
  destruct (_ || _) eqn:Hlens; [discriminate|].
  apply orb_false_iff in Hlens as [Hlens Hl4].
  apply orb_false_iff in Hlens as [Hlens Hl3].
  apply orb_false_iff in Hlens as [Hl1 Hl2].
  apply Z.eqb_neq in Hl1. rewrite Z.gtb_ltb in Hl2. apply Z.ltb_ge in Hl2.
  apply negb_false_iff, Z.eqb_eq in Hl3, Hl4.
  unfold len in Hl1, Hl2, Hl3, Hl4.
  destruct (checkOutputIndexes txn ∅ (OutputIndexes payloadObj)) eqn:Hidx;
    [discriminate|].
  apply checkOutputIndexes_None in Hidx as (_ & Hnd & _).
  destruct (negb _) eqn:Hcount; [discriminate|].
  apply negb_false_iff, Z.eqb_eq in Hcount.
  unfold crossChainCount in Hcount.
  rewrite (crossChainCount_length (Outputs txn) 0 0) in Hcount.
  unfold len in Hcount.
  destruct (first_error (checkCrossChainAddress lib) _) eqn:Haddr;
    [discriminate|].
  rewrite first_error_None in Haddr.
  destruct (checkCrossChainAmounts cfg txn payloadObj _) as [[e|]|why]
    eqn:Hamounts; cbn [run_bind]; try discriminate.
  rewrite checkCrossChainAmounts_None in Hamounts.
  destruct (GetTxReference L txn) as [reference|] eqn:Href; [|discriminate].
  destruct (_ <? _) eqn:Hfee; [discriminate|].
  apply Z.ltb_ge in Hfee. intros _.
  exists payloadObj, reference.
  split; [reflexivity|].
  split; [intros H; rewrite H in Hl1; cbn in Hl1; lia|].
  split; [lia|]. split; [lia|]. split; [lia|]. split; [exact Hnd|].
  split; [unfold nullDestinations; lia|].
  split.
  { apply Forall_forall. intros a Ha. apply checkCrossChainAddress_None, Haddr, Ha. }
  split.
  { intros i Hi. apply Hamounts, list_elem_of_In, in_seq. lia. }
  split; [reflexivity|exact Hfee].
Qed.

(** X14: What a passed cross-chain transfer check guarantees: the payload
    names at least one address and no more than there are outputs, its
    three arrays have one length, the output indexes are pairwise
    distinct, each address is non-empty and parses to a standard or
    multi-signature program hash, each entry's output has the null
    destination and a non-negative value with the amount between zero and
    that value less the cross-chain fee, the transaction has as many
    null-destination outputs as the payload has addresses, and the
    referenced inputs exceed the outputs by at least the cross-chain
    fee. *)
Theorem transfer_check_guarantees (L : Ledger) (txn : Transaction) :
  CheckTransferCrossChainAssetTransaction lib cfg L txn = Returns None ->
  exists payloadObj reference,
    Payload_ txn = PldTransferCrossChainAsset payloadObj
    /\ CrossChainAddresses payloadObj <> []
    /\ (length (CrossChainAddresses payloadObj) <= length (Outputs txn))%nat
    /\ length (CrossChainAmounts payloadObj)
       = length (CrossChainAddresses payloadObj)
    /\ length (OutputIndexes payloadObj)
       = length (CrossChainAddresses payloadObj)
    /\ NoDup (OutputIndexes payloadObj)
    /\ length (nullDestinations (Outputs txn))
       = length (CrossChainAddresses payloadObj)
    /\ Forall (crossChainAddressOk lib) (CrossChainAddresses payloadObj)
    /\ (forall i : nat,
          (i < length (OutputIndexes payloadObj))%nat ->
          transferEntryOk cfg txn payloadObj i)
    /\ GetTxReference L txn = Ok reference
    /\ MinCrossChainTxFee cfg
       <= Fixed64.sub
            (Fixed64.sum (map (fun e => Value (snd e)) reference))
            (Fixed64.sum (map Value (Outputs txn))).
Proof. apply transfer_check_None. Qed.

(** X15: A consequence that no single test states: when the transfer check
    passes, the payload's output indexes are, up to order, exactly the
    positions of the transaction's null-destination outputs.  Every
    output bound for the main chain is claimed by one payload entry and
    by one only. *)
Theorem transfer_indexes_cover_null_outputs (L : Ledger) (txn : Transaction)
    (payloadObj : PayloadTransferCrossChainAsset) :
  Payload_ txn = PldTransferCrossChainAsset payloadObj ->
  CheckTransferCrossChainAssetTransaction lib cfg L txn = Returns None ->
  Z.to_nat <$> OutputIndexes payloadObj ≡ₚ nullDestinations (Outputs txn).
Proof.
  intros Hpld Hok.
  destruct (transfer_check_None L txn Hok)
    as (obj & reference & Hpld' & _ & _ & _ & Hlen & Hnd & Hnull & _ & Hentries & _).
  rewrite Hpld in Hpld'. injection Hpld' as <-.
  assert (Hentry : forall oi, oi ∈ OutputIndexes payloadObj ->
            0 <= oi /\ Z.to_nat oi ∈ nullDestinations (Outputs txn)).
  { intros oi Hoi. apply list_elem_of_lookup in Hoi as [i Hi].
    destruct (Hentries i) as (oi' & output & amount & Hoi' & Hout & Hn & _).
    { apply lookup_lt_Some in Hi. exact Hi. }
    rewrite Hi in Hoi'. injection Hoi' as <-.
    unfold index in Hout. destruct (oi <? 0) eqn:Hneg; [discriminate|].
    apply Z.ltb_ge in Hneg. split; [exact Hneg|].
    apply nullDestinationsFrom_elem. split; [lia|].
    exists output. rewrite Nat.sub_0_r. auto. }
  apply submseteq_length_Permutation.
  - apply NoDup_submseteq.
    + apply NoDup_fmap_2_strong; [|exact Hnd].
      intros x y Hx Hy Heq.
      apply Hentry in Hx as [Hx _]. apply Hentry in Hy as [Hy _].
      apply Z2Nat.inj; assumption.
    + intros n Hn. apply list_elem_of_fmap in Hn as (oi & -> & Hoi).
      apply Hentry, Hoi.
  - rewrite length_fmap. lia.
Qed.

Lemma int64_of_small (oi : Z) : 0 <= oi < 2 ^ 63 -> Int.int64 oi = oi.
Proof.
  intros H. apply int64_small. int64_consts. lia.
Qed.

Lemma checkCrossChainAmounts_returns (txn : Transaction)
    (payloadObj : PayloadTransferCrossChainAsset) (indexes : list nat) :
  length (CrossChainAmounts payloadObj) = length (OutputIndexes payloadObj) ->
  Forall (fun oi => 0 <= oi < len (Outputs txn)) (OutputIndexes payloadObj) ->
  (forall i, i ∈ indexes -> (i < length (OutputIndexes payloadObj))%nat) ->
  exists r, checkCrossChainAmounts cfg txn payloadObj indexes = Returns r.
Proof.
  intros Hlen Hrange.
  induction indexes as [|j indexes IH]; intros Hall;
    cbn [checkCrossChainAmounts]; [eauto|].
  assert (Hj : (j < length (OutputIndexes payloadObj))%nat)
    by (apply Hall; left).
  destruct (lookup_lt_is_Some_2 _ _ Hj) as [oi Hoi].
  assert (Hamt : is_Some (CrossChainAmounts payloadObj !! j))
    by (apply lookup_lt_is_Some_2; lia).
  destruct Hamt as [amount Hamt].
  rewrite Forall_forall in Hrange.
  assert (Hoir : 0 <= oi < len (Outputs txn)).
  { apply Hrange. eapply list_elem_of_lookup_2. exact Hoi. }
  assert (Hout : is_Some (index (Outputs txn) oi)).
  { unfold index. replace (oi <? 0) with false by (symmetry; apply Z.ltb_ge; lia).
    apply lookup_lt_is_Some_2. unfold len in Hoir. lia. }
  destruct Hout as [output Hout].
  assert (Hentry : exists r,
            checkCrossChainAmount cfg txn payloadObj j = Returns r).
  { unfold checkCrossChainAmount. rewrite Hoi, Hout, Hamt.
    destruct (negb _); [eauto|]. destruct (_ <? _); [eauto|].
    destruct (_ || _); eauto. }
  destruct Hentry as [r ->]. cbn [run_bind].
  destruct r; [eauto|]. apply IH. intros i Hi. apply Hall. right. exact Hi.
Qed.

(** X16: The cross-chain transfer check returns, with a verdict, whenever
    every output index of the payload is below [2^63].  (An index from
    [2^63] on turns negative as an [int], passes the range test and is
    then used to index the outputs.) *)
Theorem transfer_check_returns (L : Ledger) (txn : Transaction) :
  (forall payloadObj,
     Payload_ txn = PldTransferCrossChainAsset payloadObj ->
     Forall (fun oi => 0 <= oi < 2 ^ 63) (OutputIndexes payloadObj)) ->
  exists verdict,
    CheckTransferCrossChainAssetTransaction lib cfg L txn = Returns verdict.
Proof.
  intros Hsmall. unfold CheckTransferCrossChainAssetTransaction.
  destruct (Payload_ txn) as [| | | | |payloadObj| |] eqn:Hpld; eauto.
  specialize (Hsmall payloadObj eq_refl).
  destruct (_ || _) eqn:Hlens; [eauto|].
  apply orb_false_iff in Hlens as [_ Hl4].
  apply negb_false_iff, Z.eqb_eq in Hl4. unfold len in Hl4.
  destruct (checkOutputIndexes txn ∅ (OutputIndexes payloadObj)) eqn:Hidx;
    [eauto|].
  apply checkOutputIndexes_None in Hidx as (Hrange & _ & _).
  destruct (negb _); [eauto|].
  destruct (first_error _ _); [eauto|].
  destruct (checkCrossChainAmounts_returns txn payloadObj
              (seq 0 (length (OutputIndexes payloadObj)))) as [r ->].
  - lia.
  - rewrite Forall_forall in Hrange, Hsmall. apply Forall_forall.
    intros oi Hoi. specialize (Hrange oi Hoi). specialize (Hsmall oi Hoi).
    rewrite int64_of_small in Hrange by exact Hsmall. lia.
  - intros i Hi. apply list_elem_of_In, in_seq in Hi. lia.
  - cbn [run_bind]. destruct r; [eauto|].
    destruct (GetTxReference L txn); [|eauto].
    destruct (_ <? _); eauto.
Qed.

End Facts.

Lemma transfer_check_guarantees_witness :
  exists payloadObj reference,
    Payload_ MoreSamples.transferTx = PldTransferCrossChainAsset payloadObj
    /\ CrossChainAddresses payloadObj <> []
    /\ (length (CrossChainAddresses payloadObj)
        <= length (Outputs MoreSamples.transferTx))%nat
    /\ length (CrossChainAmounts payloadObj)
       = length (CrossChainAddresses payloadObj)
    /\ length (OutputIndexes payloadObj)
       = length (CrossChainAddresses payloadObj)
    /\ NoDup (OutputIndexes payloadObj)
    /\ length (nullDestinations (Outputs MoreSamples.transferTx))
       = length (CrossChainAddresses payloadObj)
    /\ Forall (crossChainAddressOk Sample.lib) (CrossChainAddresses payloadObj)
    /\ (forall i : nat,
          (i < length (OutputIndexes payloadObj))%nat ->
          transferEntryOk Sample.cfg MoreSamples.transferTx payloadObj i)
    /\ GetTxReference Sample.ledger MoreSamples.transferTx = Ok reference
    /\ MinCrossChainTxFee Sample.cfg
       <= Fixed64.sub
            (Fixed64.sum (map (fun e => Value (snd e)) reference))
            (Fixed64.sum (map Value (Outputs MoreSamples.transferTx))).
Proof.
  apply (transfer_check_guarantees Sample.lib Sample.cfg Sample.ledger
           MoreSamples.transferTx).
  vm_compute. reflexivity.
Defined.

Lemma transfer_indexes_cover_null_outputs_witness :
  Z.to_nat <$> [0] ≡ₚ nullDestinations (Outputs MoreSamples.transferTx).
Proof.
  apply (transfer_indexes_cover_null_outputs Sample.lib Sample.cfg
           Sample.ledger MoreSamples.transferTx
           {| CrossChainAddresses := ["Ealice"];
              OutputIndexes := [0];
              CrossChainAmounts := [40000] |}).
  - reflexivity.
  - vm_compute. reflexivity.
Defined.

Lemma transfer_check_returns_witness :
  exists verdict,
    CheckTransferCrossChainAssetTransaction Sample.lib Sample.cfg
      Sample.ledger Sample.badTransferTx = Returns verdict.
Proof.
  apply (transfer_check_returns Sample.lib Sample.cfg Sample.ledger
           Sample.badTransferTx).
  intros payloadObj Hpld. injection Hpld as <-.
  simpl. repeat constructor; lia.
Defined.

End TransferMore.

(** ** The registration check *)

Module RegisterMore.
Import Validator Shapes.

Lemma registeredTokenTotal_Ok (lib : Lib) (payload : PayloadRegisterAsset)
    (outputs : list Output) :
  forall totalToken total : Z,
    registeredTokenTotal lib payload totalToken outputs = Ok total <->
    Forall
      (fun o => AssetID o = AssetHash lib (Asset_ payload) ->
                ProgramHash o = Controller payload)
      outputs
    /\ total
       = totalToken
         + sumZ (map TokenValue
                   (filter (fun o => AssetID o = AssetHash lib (Asset_ payload))
                      outputs)).
Proof.
  induction outputs as [|o outputs IH]; intros totalToken total;
    cbn [registeredTokenTotal].
  - cbn. split.
    + intros [= <-]. split; [constructor|lia].
    + intros [_ ->]. f_equal. lia.
  - rewrite Forall_cons.
    destruct (AssetID o =? AssetHash lib (Asset_ payload)) eqn:Hasset.
    + apply Z.eqb_eq in Hasset. rewrite filter_cons_True by exact Hasset.
      destruct (ProgramHash o =? Controller payload) eqn:Hctl; cbn [negb].
      * apply Z.eqb_eq in Hctl. rewrite IH. cbn [map sumZ foldr].
        fold (sumZ (map TokenValue
                      (filter (fun o => AssetID o = AssetHash lib (Asset_ payload))
                         outputs))).
        split.
        -- intros [Hall ->]. split; [split; [auto|exact Hall]|lia].
        -- intros [[_ Hall] ->]. split; [exact Hall|lia].
      * apply Z.eqb_neq in Hctl. split; [discriminate|].
        intros [[Ho _] _]. exfalso. apply Hctl, Ho, Hasset.
    + apply Z.eqb_neq in Hasset. rewrite filter_cons_False by exact Hasset.
      rewrite IH. split.
      * intros [Hall ->]. split; [split; [intros; contradiction|exact Hall]|].
        reflexivity.
      * intros [[_ Hall] ->]. split; [exact Hall|reflexivity].
Qed.

(** X17: The registration check passes exactly when the payload is a
    register-asset payload, no registered asset bears the new asset's
    name, every output that carries the new asset is paid to the
    payload's controller, and the token values of those outputs add up,
    as exact integers, to the registered amount times [10^18].  Outputs
    of other assets are not looked at. *)
Theorem CheckRegisterAssetTransaction_accepts (lib : Lib) (L : Ledger)
    (txn : Transaction) :
  CheckRegisterAssetTransaction lib L txn = None <->
  exists payload,
    Payload_ txn = PldRegisterAsset payload
    /\ registrationOk lib L txn payload.
Proof.
  unfold CheckRegisterAssetTransaction, registrationOk.
  destruct (Payload_ txn) as [payload| | | | | | |];
    try (split; [discriminate|intros (? & [=] & _)]).
  assert (Hname :
            existsb
              (fun asset => bool_decide (Name asset = Name (Asset_ payload)))
              (GetAssets L) = false <->
            Name (Asset_ payload) ∉ map Name (GetAssets L)).
  { induction (GetAssets L) as [|asset assets IH]; cbn [existsb map].
    - split; [|reflexivity]. intros _ H. inversion H.
    - rewrite orb_false_iff, IH, not_elem_of_cons, bool_decide_eq_false.
      split; intros [H1 H2]; split; auto. }
  destruct (existsb _ _) eqn:Hexists.
  { split; [discriminate|]. intros (p & [= <-] & Hfree & _).
    apply Hname in Hfree. discriminate. }
  destruct (registeredTokenTotal lib payload 0 (Outputs txn))
    as [totalToken|msg] eqn:Htotal.
  - apply registeredTokenTotal_Ok in Htotal as [Hall ->].
    rewrite Z.add_0_l. unfold getPrecisionBigInt.
    change 1000000000000000000 with (10 ^ 18).
    destruct (_ =? _) eqn:Heq; cbn [negb].
    + apply Z.eqb_eq in Heq. split; [|reflexivity]. intros _.
      exists payload. split; [reflexivity|].
      split; [apply Hname; reflexivity|]. split; assumption.
    + apply Z.eqb_neq in Heq. split; [discriminate|].
      intros (p & [= <-] & _ & _ & Hsum). contradiction.
  - split; [discriminate|]. intros (p & [= <-] & _ & Hall & _).
    assert (Hok : registeredTokenTotal lib payload 0 (Outputs txn)
                  = Ok (0 + sumZ (map TokenValue
                                    (filter (fun o => AssetID o
                                                     = AssetHash lib (Asset_ payload))
                                       (Outputs txn))))).
    { apply registeredTokenTotal_Ok. split; [exact Hall|reflexivity]. }
    congruence.
Qed.

End RegisterMore.

(** ** More on the fee helper *)

Module FeeMore.
Import Validator FeeHelper Shapes.

Lemma sumZ_Permutation (l l' : list Z) : l ≡ₚ l' -> sumZ l = sumZ l'.
Proof.
  unfold sumZ. induction 1; cbn; lia.
Qed.

(** A wrapping accumulation over at least one further value is the exact
    sum, reduced once. *)
Lemma foldl_add_exact (v : Z) (vs : list Z) :
  foldl Fixed64.add v vs =
  match vs with
  | [] => v
  | _ :: _ => Int.int64 (v + sumZ vs)
  end.
Proof.
  destruct vs as [|w ws]; [reflexivity|].
  rewrite <- foldl_add_int64. symmetry. apply int64_small.
  cbn [foldl]. apply foldl_add_range, int64_range.
Qed.

Lemma foldl_add_Permutation (v v' : Z) (vs vs' : list Z) :
  v :: vs ≡ₚ v' :: vs' ->
  foldl Fixed64.add v vs = foldl Fixed64.add v' vs'.
Proof.
  intros Hperm. rewrite !foldl_add_exact.
  pose proof (Permutation_length Hperm) as Hlen.
  pose proof (sumZ_Permutation _ _ Hperm) as Hsum.
  unfold sumZ in Hsum. cbn [foldr] in Hsum. fold (sumZ vs) (sumZ vs') in Hsum.
  destruct vs as [|w ws], vs' as [|w' ws']; try discriminate.
  - apply Permutation_singleton_l in Hperm. congruence.
  - rewrite Hsum. reflexivity.
Qed.

Lemma assetValues_Permutation (a : Z) (outputs outputs' : list Output) :
  outputs ≡ₚ outputs' -> assetValues a outputs ≡ₚ assetValues a outputs'.
Proof.
  intros Hperm. unfold assetValues. apply fmap_Permutation.
  rewrite Hperm. reflexivity.
Qed.

Lemma sumByAsset_Permutation (outputs outputs' : list Output) :
  outputs ≡ₚ outputs' -> sumByAsset outputs = sumByAsset outputs'.
Proof.
  intros Hperm. apply map_eq. intros a. unfold sumByAsset.
  rewrite !FeeMap.foldl_addValue_lookup, lookup_empty.
  pose proof (assetValues_Permutation a _ _ Hperm) as Hvals.
  destruct (assetValues a outputs) as [|v vs],
           (assetValues a outputs') as [|v' vs'].
  - reflexivity.
  - apply Permutation_nil_l in Hvals. discriminate.
  - symmetry in Hvals. apply Permutation_nil_l in Hvals. discriminate.
  - f_equal. apply foldl_add_Permutation, Hvals.
Qed.

(** X18: The references of a transaction come out of a map, whose entries a
    [range] visits in no fixed order.  In the general case the fee map is
    the same for every order of the references, and for every order of
    the transaction's outputs. *)
Theorem fee_map_any_reference_order (lib : Lib) (cfg : Config)
    (db db' : Ledger) (tx tx' : Transaction)
    (reference reference' : list (Input * Output)) :
  IsRechargeToSideChainTx tx = false ->
  IsRechargeToSideChainTx tx' = false ->
  GetTxReference db tx = Ok reference ->
  GetTxReference db' tx' = Ok reference' ->
  reference ≡ₚ reference' ->
  Outputs tx ≡ₚ Outputs tx' ->
  GetTxFeeMap lib cfg db tx = GetTxFeeMap lib cfg db' tx'.
Proof.
  intros Hk Hk' Href Href' Hperm Houts.
  unfold GetTxFeeMap. rewrite Hk, Hk', Href, Href'. unfold feeMapOf.
  rewrite (sumByAsset_Permutation (map snd reference) (map snd reference'))
    by (apply fmap_Permutation, Hperm).
  rewrite (sumByAsset_Permutation _ _ Houts). reflexivity.
Qed.

(** X19: In the general case the fee of every asset is the sum of the asset's
    referenced input values less the sum of its output values, reduced to
    [int64]; an asset the transaction does not touch has fee zero. *)
Theorem GetTxFee_balance (lib : Lib) (cfg : Config) (db : Ledger)
    (tx : Transaction) (reference : list (Input * Output)) (assetId : Z) :
  IsRechargeToSideChainTx tx = false ->
  GetTxReference db tx = Ok reference ->
  wellFormedValues (Outputs tx) ->
  wellFormedValues (map snd reference) ->
  GetTxFee lib cfg db tx assetId
  = Returns (Int.int64 (assetTotal assetId (map snd reference)
                        - assetTotal assetId (Outputs tx))).
Proof.
  intros Hk Href Hwo Hwi. unfold GetTxFee, GetTxFeeMap.
  rewrite Hk, Href. cbn [run_bind]. f_equal.
  rewrite FeeMap.feeMapOf_lookup.
  rewrite !FeeMap.sumByAsset_lookup by assumption.
  unfold assetTotal.
  destruct (assetValues assetId (Outputs tx)) as [|v vs];
    destruct (assetValues assetId (map snd reference)) as [|w ws];
    cbn [default from_option id].
  - reflexivity.
  - unfold Fixed64.add. rewrite Z.add_0_l, int64_idem. f_equal.
    cbn [sumZ foldr]. lia.
  - unfold Fixed64.sub. rewrite int64_sub_r. reflexivity.
  - unfold Fixed64.sub. rewrite int64_sub_r, int64_sub_l. reflexivity.
Qed.

(** X20: The native and token totals that [CheckTransactionFee] adds up do not
    depend on the order of the references: the verdict is the same for
    every order in which the reference map is visited. *)
Theorem fee_check_any_reference_order (cfg : Config) (L L' : Ledger)
    (txn : Transaction) (references references' : list (Input * Output)) :
  NativeAssetID L = NativeAssetID L' ->
  GetTxReference L txn = Ok references ->
  GetTxReference L' txn = Ok references' ->
  references ≡ₚ references' ->
  CheckTransactionFee cfg L txn = CheckTransactionFee cfg L' txn.
Proof.
  intros Hnative Href Href' Hperm. unfold CheckTransactionFee.
  rewrite Href, Href', !FeeCheck.addAmounts_spec.
  assert (Hn : forall outputs, nativeValues L outputs = nativeValues L' outputs).
  { intros outputs. unfold nativeValues. rewrite Hnative. reflexivity. }
  assert (Ht : forall outputs, tokenValues L outputs = tokenValues L' outputs).
  { intros outputs. unfold tokenValues. rewrite Hnative. reflexivity. }
  rewrite !Hn, !Ht.
  assert (Hin : foldl Fixed64.add 0 (nativeValues L' (map snd references))
                = foldl Fixed64.add 0 (nativeValues L' (map snd references'))).
  { apply foldl_add_Permutation. constructor. unfold nativeValues.
    apply fmap_Permutation. rewrite Hperm. reflexivity. }
  assert (Htok : sumZ (tokenValues L' (map snd references))
                 = sumZ (tokenValues L' (map snd references'))).
  { apply sumZ_Permutation. unfold tokenValues.
    apply fmap_Permutation. rewrite Hperm. reflexivity. }
  rewrite Hin, Htok. reflexivity.
Qed.

Section Recharge.

Variable lib : Lib.
Variable cfg : Config.
Variable mainChainTransaction : Transaction.
Variable crossChainPayload : PayloadTransferCrossChainAsset.

Lemma sumZ_app (l l' : list Z) : sumZ (l ++ l') = sumZ l + sumZ l'.
Proof.
  unfold sumZ. induction l as [|x l IH]; cbn; [reflexivity|].
  rewrite IH. lia.
Qed.

Lemma booked_app (entry : option Z) (cs cs' : list Z) :
  booked (booked entry cs) cs' = booked entry (cs ++ cs').
Proof.
  destruct cs as [|c cs]; [reflexivity|].
  destruct cs' as [|c' cs']; [rewrite app_nil_r; reflexivity|].
  change ((c :: cs) ++ c' :: cs') with (c :: (cs ++ c' :: cs')).
  unfold booked. cbn [default from_option id]. f_equal.
  rewrite int64_add_l. f_equal.
  change (c :: (cs ++ c' :: cs')) with ((c :: cs) ++ c' :: cs').
  rewrite sumZ_app. lia.
Qed.

Lemma rechargeFee_lookup (v : Output) (feeMap feeMap' : gmap Z Z) (i : nat)
    (a : Z) :
  rechargeFee lib cfg mainChainTransaction crossChainPayload v feeMap i
    = Returns (Ok feeMap') ->
  feeMap' !! a =
  booked (feeMap !! a)
    (if AssetID v =? a
     then outputContributions lib cfg mainChainTransaction crossChainPayload
            v [i]
     else []).
Proof.
  unfold rechargeFee, outputContributions.
  destruct (ToAddress lib (ProgramHash v)) as [targetAddress|err] eqn:Hto;
    [|discriminate].
  destruct (CrossChainAddresses crossChainPayload !! i) as [address|] eqn:Haddr;
    [|discriminate].
  assert (Hm : addressMatches lib crossChainPayload v i
               = bool_decide (targetAddress = address)).
  { unfold addressMatches. rewrite Hto, Haddr. reflexivity. }
  destruct (bool_decide (targetAddress = address)) eqn:Hmatch.
  2:{ intros [= <-]. rewrite filter_cons_False by (rewrite Hm; discriminate).
      rewrite filter_nil. destruct (AssetID v =? a); reflexivity. }
  rewrite filter_cons_True by exact Hm.
  rewrite filter_nil. cbn [map]. unfold rechargeCredit.
  destruct (OutputIndexes crossChainPayload !! i) as [outputIndex|];
    [|discriminate].
  destruct (index (Outputs mainChainTransaction) outputIndex) as [mcOutput|];
    [|discriminate].
  destruct (AssetID v =? a) eqn:Hasset.
  - apply Z.eqb_eq in Hasset. subst a.
    destruct (feeMap !! AssetID v) as [amount|]; intros [= <-];
      rewrite lookup_insert_eq; cbn [booked default from_option id sumZ foldr];
      f_equal; unfold Fixed64.sub, Fixed64.add.
    + rewrite int64_sub_l. f_equal. lia.
    + f_equal. lia.
  - apply Z.eqb_neq in Hasset.
    destruct (feeMap !! AssetID v) as [amount|]; intros [= <-];
      rewrite lookup_insert_ne by exact Hasset; reflexivity.
Qed.

Lemma rechargeFeeInner_lookup (v : Output) (indexes : list nat) (a : Z) :
  forall feeMap feeMap' : gmap Z Z,
    rechargeFeeInner lib cfg mainChainTransaction crossChainPayload v feeMap
      indexes = Returns (Ok feeMap') ->
    feeMap' !! a =
    booked (feeMap !! a)
      (if AssetID v =? a
       then outputContributions lib cfg mainChainTransaction crossChainPayload
              v indexes
       else []).
Proof.
  induction indexes as [|i indexes IH]; intros feeMap feeMap';
    cbn [rechargeFeeInner].
  - intros [= <-]. destruct (AssetID v =? a); reflexivity.
  - destruct (rechargeFee lib cfg mainChainTransaction crossChainPayload v
                feeMap i) as [[fm|err]|why] eqn:Hstep; cbn [run_bind];
      try discriminate.
    intros Hrest. rewrite (IH fm feeMap' Hrest).
    rewrite (rechargeFee_lookup v feeMap fm i a Hstep), booked_app.
    f_equal. destruct (AssetID v =? a); [|reflexivity].
    unfold outputContributions.
    change (i :: indexes) with ([i] ++ indexes).
    rewrite filter_app, map_app. reflexivity.
Qed.

Lemma rechargeFeeOuter_lookup (outputs : list Output) (a : Z) :
  forall feeMap feeMap' : gmap Z Z,
    rechargeFeeOuter lib cfg mainChainTransaction crossChainPayload feeMap
      outputs = Returns (Ok feeMap') ->
    feeMap' !! a =
    booked (feeMap !! a)
      (rechargeContributions lib cfg mainChainTransaction crossChainPayload a
         outputs).
Proof.
  induction outputs as [|v outputs IH]; intros feeMap feeMap';
    cbn [rechargeFeeOuter].
  - intros [= <-]. reflexivity.
  - destruct (rechargeFeeInner lib cfg mainChainTransaction crossChainPayload
                v feeMap _) as [[fm|err]|why] eqn:Hinner; cbn [run_bind];
      try discriminate.
    intros Hrest. rewrite (IH fm feeMap' Hrest).
    rewrite (rechargeFeeInner_lookup v _ a feeMap fm Hinner), booked_app.
    reflexivity.
Qed.

Lemma rechargeFee_returns (v : Output) (feeMap : gmap Z Z) (i : nat) :
  (exists outputIndex,
     OutputIndexes crossChainPayload !! i = Some outputIndex
     /\ is_Some (index (Outputs mainChainTransaction) outputIndex)) ->
  is_Some (CrossChainAddresses crossChainPayload !! i) ->
  exists r,
    rechargeFee lib cfg mainChainTransaction crossChainPayload v feeMap i
    = Returns r.
Proof.
  intros (outputIndex & Hidx & [mcOutput Hout]) [address Haddr].
  unfold rechargeFee. destruct (ToAddress lib (ProgramHash v)); [|eauto].
  rewrite Haddr. destruct (bool_decide _); [|eauto].
  rewrite Hidx, Hout. destruct (feeMap !! AssetID v); eauto.
Qed.

Lemma rechargeFeeInner_returns (v : Output) (indexes : list nat) :
  (forall i, i ∈ indexes ->
     (i < length (CrossChainAddresses crossChainPayload))%nat
     /\ exists outputIndex,
          OutputIndexes crossChainPayload !! i = Some outputIndex
          /\ is_Some (index (Outputs mainChainTransaction) outputIndex)) ->
  forall feeMap, exists r,
    rechargeFeeInner lib cfg mainChainTransaction crossChainPayload v feeMap
      indexes = Returns r.
Proof.
  induction indexes as [|i indexes IH]; intros Hall feeMap;
    cbn [rechargeFeeInner]; [eauto|].
  destruct (Hall i) as [Hlt Hidx]; [left|].
  destruct (rechargeFee_returns v feeMap i Hidx) as [r ->].
  { apply lookup_lt_is_Some_2, Hlt. }
  cbn [run_bind]. destruct r as [fm|err]; [|eauto].
  apply IH. intros j Hj. apply Hall. right. exact Hj.
Qed.

Lemma rechargeFeeOuter_returns (outputs : list Output) :
  (forall i, (i < length (CrossChainAddresses crossChainPayload))%nat ->
     exists outputIndex,
       OutputIndexes crossChainPayload !! i = Some outputIndex
       /\ is_Some (index (Outputs mainChainTransaction) outputIndex)) ->
  forall feeMap, exists r,
    rechargeFeeOuter lib cfg mainChainTransaction crossChainPayload feeMap
      outputs = Returns r.
Proof.
  intros Hall.
  induction outputs as [|v outputs IH]; intros feeMap;
    cbn [rechargeFeeOuter]; [eauto|].
  destruct (rechargeFeeInner_returns v
              (seq 0 (length (CrossChainAddresses crossChainPayload))))
    with (feeMap := feeMap) as [r ->].
  { intros i Hi. apply list_elem_of_In, in_seq in Hi.
    split; [lia|]. apply Hall. lia. }
  cbn [run_bind]. destruct r as [fm|err]; [|eauto]. apply IH.
Qed.

End Recharge.

(** X21: The recharge case of the fee map, as sums.  When [GetTxFeeMap]
    returns a map for a recharge transaction, an asset is present exactly
    when some output of that asset has the address of some payload entry
    of the main-chain transaction, and its fee is then the sum, over all
    such pairs of output and entry, of the entry's converted main-chain
    value less the output's value, reduced to [int64].  An output is
    debited once for every entry that bears its address, and an output
    that matches no entry is not counted at all. *)
Theorem recharge_fee_map_sums (lib : Lib) (cfg : Config) (db : Ledger)
    (tx : Transaction) (depositPayload : PayloadRechargeToSideChain)
    (mainChainTransaction : Transaction)
    (crossChainPayload : PayloadTransferCrossChainAsset)
    (feeMap : gmap Z Z) (a : Z) :
  IsRechargeToSideChainTx tx = true ->
  Payload_ tx = PldRechargeToSideChain depositPayload ->
  TransactionDeserialize lib (MainChainTransaction depositPayload)
    = Ok mainChainTransaction ->
  Payload_ mainChainTransaction = PldTransferCrossChainAsset crossChainPayload ->
  GetTxFeeMap lib cfg db tx = Returns (Ok feeMap) ->
  feeMap !! a =
  match rechargeContributions lib cfg mainChainTransaction crossChainPayload a
          (Outputs tx) with
  | [] => None
  | c :: cs => Some (Int.int64 (sumZ (c :: cs)))
  end.
Proof.
  intros Hk Hpld Hmc Hcc. unfold GetTxFeeMap. rewrite Hk, Hpld, Hmc, Hcc.
  intros Hrun.
  rewrite (rechargeFeeOuter_lookup lib cfg mainChainTransaction
             crossChainPayload (Outputs tx) a ∅ feeMap Hrun).
  rewrite lookup_empty. unfold booked.
  destruct (rechargeContributions _ _ _ _ _ _); reflexivity.
Qed.

(** X22: The recharge case of the fee map returns, with a map or an error,
    when the payload of the main-chain transaction has an output index
    for each of its addresses and each such index names an output of the
    main-chain transaction. *)
Theorem recharge_fee_map_returns (lib : Lib) (cfg : Config) (db : Ledger)
    (tx : Transaction) (depositPayload : PayloadRechargeToSideChain)
    (mainChainTransaction : Transaction)
    (crossChainPayload : PayloadTransferCrossChainAsset) :
  IsRechargeToSideChainTx tx = true ->
  Payload_ tx = PldRechargeToSideChain depositPayload ->
  TransactionDeserialize lib (MainChainTransaction depositPayload)
    = Ok mainChainTransaction ->
  Payload_ mainChainTransaction = PldTransferCrossChainAsset crossChainPayload ->
  (forall i, (i < length (CrossChainAddresses crossChainPayload))%nat ->
     exists outputIndex,
       OutputIndexes crossChainPayload !! i = Some outputIndex
       /\ is_Some (index (Outputs mainChainTransaction) outputIndex)) ->
  exists r, GetTxFeeMap lib cfg db tx = Returns r.
Proof.
  intros Hk Hpld Hmc Hcc Hall. unfold GetTxFeeMap.
  rewrite Hk, Hpld, Hmc, Hcc.
  apply rechargeFeeOuter_returns, Hall.
Qed.

Lemma fee_map_any_reference_order_witness :
  GetTxFeeMap Sample.lib Sample.cfg Sample.ledger Sample.tokenLossTx
  = GetTxFeeMap Sample.lib Sample.cfg MoreSamples.otherLedger Sample.tokenLossTx.
Proof.
  apply (fee_map_any_reference_order Sample.lib Sample.cfg Sample.ledger
           MoreSamples.otherLedger Sample.tokenLossTx Sample.tokenLossTx
           [(Sample.spend 500 0, Sample.nativeOutput 100000 Sample.alice);
            (Sample.spend 500 1, Sample.tokenOutput 10 Sample.alice)]
           [(Sample.spend 500 1, Sample.tokenOutput 10 Sample.alice);
            (Sample.spend 500 0, Sample.nativeOutput 100000 Sample.alice)]).
  - reflexivity.
  - reflexivity.
  - reflexivity.
  - reflexivity.
  - apply perm_swap.
  - reflexivity.
Defined.

Lemma GetTxFee_balance_witness :
  GetTxFee Sample.lib Sample.cfg Sample.ledger Sample.tokenLossTx Sample.ELA
  = Returns
      (Int.int64
         (assetTotal Sample.ELA
            (map snd
               [(Sample.spend 500 0, Sample.nativeOutput 100000 Sample.alice);
                (Sample.spend 500 1, Sample.tokenOutput 10 Sample.alice)])
          - assetTotal Sample.ELA (Outputs Sample.tokenLossTx))).
Proof.
  apply (GetTxFee_balance Sample.lib Sample.cfg Sample.ledger
           Sample.tokenLossTx
           [(Sample.spend 500 0, Sample.nativeOutput 100000 Sample.alice);
            (Sample.spend 500 1, Sample.tokenOutput 10 Sample.alice)]
           Sample.ELA).
  - reflexivity.
  - reflexivity.
  - repeat constructor; vm_compute; discriminate.
  - repeat constructor; vm_compute; discriminate.
Defined.

Lemma fee_check_any_reference_order_witness :
  CheckTransactionFee Sample.cfg Sample.ledger Sample.tokenLossTx
  = CheckTransactionFee Sample.cfg MoreSamples.otherLedger Sample.tokenLossTx.
Proof.
  apply (fee_check_any_reference_order Sample.cfg Sample.ledger
           MoreSamples.otherLedger Sample.tokenLossTx
           [(Sample.spend 500 0, Sample.nativeOutput 100000 Sample.alice);
            (Sample.spend 500 1, Sample.tokenOutput 10 Sample.alice)]
           [(Sample.spend 500 1, Sample.tokenOutput 10 Sample.alice);
            (Sample.spend 500 0, Sample.nativeOutput 100000 Sample.alice)]).
  - reflexivity.
  - reflexivity.
  - reflexivity.
  - apply perm_swap.
Defined.

Lemma recharge_fee_map_sums_witness :
  ({[ Sample.ELA := 10000 ]} : gmap Z Z) !! Sample.ELA =
  match rechargeContributions MoreSamples.otherLib Sample.cfg MoreSamples.depositTx
          Sample.crossChainPayload Sample.ELA (Outputs Sample.rechargeTx) with
  | [] => None
  | c :: cs => Some (Int.int64 (sumZ (c :: cs)))
  end.
Proof.
  apply (recharge_fee_map_sums MoreSamples.otherLib Sample.cfg Sample.ledger
           Sample.rechargeTx
           {| MerkleProof := "proof"; MainChainTransaction := "deposit" |}
           MoreSamples.depositTx Sample.crossChainPayload
           {[ Sample.ELA := 10000 ]} Sample.ELA).
  - reflexivity.
  - reflexivity.
  - reflexivity.
  - reflexivity.
  - vm_compute. reflexivity.
Defined.

Lemma recharge_fee_map_returns_witness :
  exists r,
    GetTxFeeMap MoreSamples.otherLib Sample.cfg Sample.ledger Sample.rechargeTx
    = Returns r.
Proof.
  apply (recharge_fee_map_returns MoreSamples.otherLib Sample.cfg Sample.ledger
           Sample.rechargeTx
           {| MerkleProof := "proof"; MainChainTransaction := "deposit" |}
           MoreSamples.depositTx Sample.crossChainPayload).
  - reflexivity.
  - reflexivity.
  - reflexivity.
  - reflexivity.
  - intros i Hi. simpl in Hi. destruct i as [|i]; [|lia].
    exists 0. simpl. eauto.
Defined.

End FeeMore.

(** ** More on the cache *)

Module CacheMore.
Import DBCache.

Section Facts.
Context {StateValue : Type}.
Variable Serialize : StateValue -> string.
Variable GetStateValue : ascii -> string -> option StateValue * error.
Context {Store : Type} `{IStoreLaws Store}.
Variable ErrDBNotFound : string.

(** Whenever [GetOrAdd] answers without an error, the key has an entry
    in the write-set afterwards, that entry is live, and it holds the
    item that was answered. *)
Lemma GetOrAdd_stages (cache cache' : Cache StateValue Store)
    (prefix : ascii) (key : string) (value item : option StateValue) :
  GetOrAdd GetStateValue ErrDBNotFound cache prefix key value
    = (cache', (item, None)) ->
  exists w,
    WriteSet cache' !! key = Some w /\ IsDeleted w = false /\ Item w = item.
Proof.
  unfold GetOrAdd.
  destruct (WriteSet cache !! key) as [v|] eqn:Hkey.
  - intros [= <- <-]. cbn [WriteSet]. rewrite lookup_insert_eq.
    destruct (IsDeleted v) eqn:Hd; eauto.
  - destruct (TryGetInternal GetStateValue cache prefix key) as [got err].
    destruct err as [msg|].
    + destruct (negb (bool_decide (msg = ErrDBNotFound))); [discriminate|].
      intros [= <- <-]. cbn [WriteSet]. rewrite lookup_insert_eq. eauto.
    + intros [= <- <-]. cbn [WriteSet]. rewrite lookup_insert_eq. eauto.
Qed.

Lemma GetOrAdd_hit (cache : Cache StateValue Store) (prefix : ascii)
    (key : string) (value : option StateValue) (w : Write StateValue) :
  WriteSet cache !! key = Some w ->
  IsDeleted w = false ->
  GetOrAdd GetStateValue ErrDBNotFound cache prefix key value
  = (cache, (Item w, None)).
Proof.
  intros Hkey Hlive. unfold GetOrAdd. rewrite Hkey, Hlive.
  rewrite insert_id by exact Hkey. destruct cache. reflexivity.
Qed.

(** X23: Read your writes: what [GetOrAdd] answers is what a following
    [TryGet] of the key returns, under any prefix and whatever the store
    holds. *)
Theorem GetOrAdd_then_TryGet (cache cache' : Cache StateValue Store)
    (prefix prefix' : ascii) (key : string)
    (value item : option StateValue) :
  GetOrAdd GetStateValue ErrDBNotFound cache prefix key value
    = (cache', (item, None)) ->
  TryGet GetStateValue cache' prefix' key = (item, None).
Proof.
  intros Hadd. destruct (GetOrAdd_stages _ _ _ _ _ _ Hadd) as (w & Hw & _ & <-).
  unfold TryGet. rewrite Hw. reflexivity.
Qed.

(** X24: The first write wins: once [GetOrAdd] has answered for a key, a
    second [GetOrAdd] of the key answers the same item and leaves the
    cache as it is, whatever value and prefix it is given. *)
Theorem GetOrAdd_first_wins (cache cache' : Cache StateValue Store)
    (prefix prefix' : ascii) (key : string)
    (value value' item : option StateValue) :
  GetOrAdd GetStateValue ErrDBNotFound cache prefix key value
    = (cache', (item, None)) ->
  GetOrAdd GetStateValue ErrDBNotFound cache' prefix' key value'
  = (cache', (item, None)).
Proof.
  intros Hadd.
  destruct (GetOrAdd_stages _ _ _ _ _ _ Hadd) as (w & Hw & Hlive & <-).
  apply GetOrAdd_hit; assumption.
Qed.

(** X25: [GetOrAdd] never writes to the store and touches no write-set entry
    but the one of its key; when it answers with an error, the cache is
    unchanged. *)
Theorem GetOrAdd_frame (cache : Cache StateValue Store) (prefix : ascii)
    (key : string) (value : option StateValue) :
  let '(cache', (item, err)) :=
    GetOrAdd GetStateValue ErrDBNotFound cache prefix key value in
  db cache' = db cache
  /\ (forall key', key' <> key ->
        WriteSet cache' !! key' = WriteSet cache !! key')
  /\ (err <> None -> cache' = cache /\ item = None).
Proof.
  unfold GetOrAdd.
  destruct (WriteSet cache !! key) as [v|] eqn:Hkey.
  - cbn [db WriteSet]. split; [reflexivity|]. split; [|congruence].
    intros key' Hne. apply lookup_insert_ne. congruence.
  - destruct (TryGetInternal GetStateValue cache prefix key) as [got err].
    destruct err as [msg|].
    + destruct (negb (bool_decide (msg = ErrDBNotFound))).
      * split; [reflexivity|]. split; [reflexivity|]. intros _. auto.
      * cbn [db WriteSet]. split; [reflexivity|]. split; [|congruence].
        intros key' Hne. apply lookup_insert_ne. congruence.
    + cbn [db WriteSet]. split; [reflexivity|]. split; [|congruence].
      intros key' Hne. apply lookup_insert_ne. congruence.
Qed.

Lemma commitIn_Returns_live (order : list (string * Write StateValue)) :
  forall s s' : Store,
    commitIn Serialize order s = Returns s' ->
    forall entry, entry ∈ order ->
      IsDeleted entry.2 = false -> is_Some (Item entry.2).
Proof.
  induction order as [|[k w] order IH]; intros s s'; cbn [commitIn].
  - intros _ entry Hin. inversion Hin.
  - destruct (commitEntry Serialize s (k, w)) as [s1|why] eqn:Hentry;
      cbn [run_bind]; [|discriminate].
    intros Hrest entry Hin Hlive.
    apply elem_of_cons in Hin as [->|Hin].
    + cbn [snd] in *. unfold commitEntry in Hentry. rewrite Hlive in Hentry.
      destruct (Item w); [eauto|discriminate].
    + apply (IH s1 s' Hrest entry Hin Hlive).
Qed.

Lemma commitIn_Panics (order : list (string * Write StateValue)) :
  forall (s : Store) (why : string),
    commitIn Serialize order s = Panics why ->
    why = "nil pointer dereference".
Proof.
  induction order as [|[k w] order IH]; intros s why; cbn [commitIn].
  - discriminate.
  - unfold commitEntry at 1.
    destruct (IsDeleted w); cbn [run_bind]; [apply IH|].
    destruct (Item w); cbn [run_bind]; [apply IH|].
    intros [= <-]. reflexivity.
Qed.

Lemma order_entries (ws : gmap string (Write StateValue))
    (order : list (string * Write StateValue)) :
  order ≡ₚ map_to_list ws ->
  forall k w, (k, w) ∈ order <-> ws !! k = Some w.
Proof.
  intros Hperm k w. rewrite Hperm. apply elem_of_map_to_list.
Qed.

Lemma commit_outcome (cache : Cache StateValue Store)
    (order : list (string * Write StateValue)) :
  order ≡ₚ map_to_list (WriteSet cache) ->
  (liveEntriesHaveItems (WriteSet cache) <->
   exists flushed, commitIn Serialize order (db cache) = Returns flushed)
  /\ (~ liveEntriesHaveItems (WriteSet cache) <->
      commitIn Serialize order (db cache) = Panics "nil pointer dereference").
Proof.
  intros Hperm.
  assert (Hreturns : liveEntriesHaveItems (WriteSet cache) ->
            exists flushed,
              commitIn Serialize order (db cache) = Returns flushed).
  { intros Hlive. apply CacheFacts.commitIn_returns.
    intros [k w] Hin. apply (Hlive k w), (order_entries _ _ Hperm), Hin. }
  assert (Hlive : forall flushed,
            commitIn Serialize order (db cache) = Returns flushed ->
            liveEntriesHaveItems (WriteSet cache)).
  { intros flushed Hrun k w Hk.
    apply (commitIn_Returns_live order _ _ Hrun (k, w)).
    apply (order_entries _ _ Hperm), Hk. }
  split; split.
  - exact Hreturns.
  - intros [flushed Hrun]. exact (Hlive flushed Hrun).
  - intros Hnot.
    destruct (commitIn Serialize order (db cache)) as [flushed|why] eqn:Hrun.
    + exfalso. exact (Hnot (Hlive flushed eq_refl)).
    + f_equal. exact (commitIn_Panics order _ _ Hrun).
  - intros Hpanic Hl. destruct (Hreturns Hl) as [flushed Hrun]. congruence.
Qed.

(** X26: [Commit] returns exactly when every live entry of the write-set holds
    an item, and panics on a nil item otherwise; this is so for every
    order in which the write-set is visited. *)
Theorem Commit_returns_iff (cache : Cache StateValue Store)
    (order : list (string * Write StateValue)) :
  order ≡ₚ map_to_list (WriteSet cache) ->
  (liveEntriesHaveItems (WriteSet cache) <->
   exists flushed, commitIn Serialize order (db cache) = Returns flushed)
  /\ (~ liveEntriesHaveItems (WriteSet cache) <->
      commitIn Serialize order (db cache) = Panics "nil pointer dereference").
Proof. apply commit_outcome. Qed.

(** X27: A [GetOrAdd] with a nil value for a key that neither the write-set
    nor the store holds stages a live entry without an item, on which the
    next [Commit] panics. *)
Theorem GetOrAdd_nil_then_Commit (cache : Cache StateValue Store)
    (prefix : ascii) (key : string) :
  WriteSet cache !! key = None ->
  Get (db cache) (storeKey prefix key) = Error ErrDBNotFound ->
  GetOrAdd GetStateValue ErrDBNotFound cache prefix key None
    = ({| WriteSet :=
            <[key := {| Prefix := prefix; Key := key; Item := None;
                        IsDeleted := false |}]> (WriteSet cache);
          db := db cache |},
       (None, None))
  /\ Commit Serialize
       (GetOrAdd GetStateValue ErrDBNotFound cache prefix key None).1
     = Panics "nil pointer dereference".
Proof.
  intros Hkey Hget.
  rewrite (CacheFacts.GetOrAdd_fresh GetStateValue ErrDBNotFound cache prefix
             key None Hkey Hget).
  split; [reflexivity|]. cbn [fst].
  set (staged := {| WriteSet := _; db := db cache |}).
  assert (Hpanic : commitIn Serialize (map_to_list (WriteSet staged))
                     (db staged) = Panics "nil pointer dereference").
  { apply (commit_outcome staged); [reflexivity|].
    intros Hlive.
    destruct (Hlive key {| Prefix := prefix; Key := key; Item := None;
                           IsDeleted := false |}) as [item Hitem].
    - apply lookup_insert_eq.
    - reflexivity.
    - discriminate. }
  unfold Commit. rewrite Hpanic. reflexivity.
Qed.

Section Tombstones.

(** What a later [Get] sees of a batched delete. *)
Hypothesis Get_BatchDelete_eq :
  forall (s : Store) (k : string), Get (BatchDelete s k) k = Error ErrDBNotFound.

Lemma commitIn_deletes (order : list (string * Write StateValue)) :
  NoDup order.*1 ->
  forall (s s' : Store) (k : string) (w : Write StateValue),
    commitIn Serialize order s = Returns s' ->
    (k, w) ∈ order -> IsDeleted w = true ->
    Get s' (storeKey (Prefix w) k) = Error ErrDBNotFound.
Proof.
  induction order as [|[k0 w0] order IH]; intros Hnd s s' k w;
    cbn [commitIn].
  - intros _ Hin. inversion Hin.
  - cbn [fmap list_fmap fst] in Hnd. apply NoDup_cons in Hnd as [Hk0 Hnd].
    destruct (commitEntry Serialize s (k0, w0)) as [s1|why] eqn:Hentry;
      cbn [run_bind]; [|discriminate].
    intros Hrest Hin Hdel.
    apply elem_of_cons in Hin as [[= <- <-]|Hin].
    + rewrite (CacheFacts.commitIn_other Serialize order s1 s' _ Hrest).
      * unfold commitEntry in Hentry. rewrite Hdel in Hentry.
        injection Hentry as <-. apply Get_BatchDelete_eq.
      * intros [k' w'] He Heq. cbn [fst snd] in Heq.
        apply CacheFacts.storeKey_inj in Heq as [_ ->].
        apply Hk0. apply list_elem_of_fmap. exists (k, w').
        split; [reflexivity|exact He].
    + apply (IH Hnd s1 s' k w Hrest Hin Hdel).
Qed.

Lemma order_NoDup (ws : gmap string (Write StateValue))
    (order : list (string * Write StateValue)) :
  order ≡ₚ map_to_list ws -> NoDup order.*1.
Proof.
  intros Hperm. rewrite Hperm. apply NoDup_fst_map_to_list.
Qed.

Lemma commit_contents (cache : Cache StateValue Store)
    (order : list (string * Write StateValue)) (flushed : Store) :
  order ≡ₚ map_to_list (WriteSet cache) ->
  commitIn Serialize order (db cache) = Returns flushed ->
  (forall k w,
     WriteSet cache !! k = Some w -> IsDeleted w = true ->
     Get flushed (storeKey (Prefix w) k) = Error ErrDBNotFound)
  /\ (forall k w,
        WriteSet cache !! k = Some w -> IsDeleted w = false ->
        exists item,
          Item w = Some item
          /\ Get flushed (storeKey (Prefix w) k) = Ok (Serialize item))
  /\ (forall sk,
        (forall k w, WriteSet cache !! k = Some w ->
                     storeKey (Prefix w) k <> sk) ->
        Get flushed sk = Get (db cache) sk).
Proof.
  intros Hperm Hrun.
  pose proof (order_NoDup _ _ Hperm) as Hnd.
  pose proof (order_entries _ _ Hperm) as Hin.
  split; [|split].
  - intros k w Hk Hdel.
    apply (commitIn_deletes order Hnd _ _ k w Hrun); [apply Hin, Hk|exact Hdel].
  - intros k w Hk Hlive.
    destruct (commitIn_Returns_live order _ _ Hrun (k, w)) as [item Hitem];
      [apply Hin, Hk|exact Hlive|].
    cbn [snd] in Hitem. exists item. split; [exact Hitem|].
    apply (CacheFacts.commitIn_flushes Serialize order Hnd _ _ k w item Hrun);
      [apply Hin, Hk|exact Hlive|exact Hitem].
  - intros sk Hother.
    apply (CacheFacts.commitIn_other Serialize order _ _ sk Hrun).
    intros [k w] He. apply Hother, Hin, He.
Qed.

(** X28: The store after a commit, in whatever order the write-set was
    visited: the key of a tombstoned entry is gone, the key of a live
    entry holds the serialized item, and every key that belongs to no
    entry holds what it held before.  An entry's key in the store is its
    own prefix followed by its write-set key. *)
Theorem Commit_store_contents (cache : Cache StateValue Store)
    (order : list (string * Write StateValue)) (flushed : Store) :
  order ≡ₚ map_to_list (WriteSet cache) ->
  commitIn Serialize order (db cache) = Returns flushed ->
  (forall k w,
     WriteSet cache !! k = Some w -> IsDeleted w = true ->
     Get flushed (storeKey (Prefix w) k) = Error ErrDBNotFound)
  /\ (forall k w,
        WriteSet cache !! k = Some w -> IsDeleted w = false ->
        exists item,
          Item w = Some item
          /\ Get flushed (storeKey (Prefix w) k) = Ok (Serialize item))
  /\ (forall sk,
        (forall k w, WriteSet cache !! k = Some w ->
                     storeKey (Prefix w) k <> sk) ->
        Get flushed sk = Get (db cache) sk).
Proof. apply commit_contents. Qed.

(** X29: The order in which [Commit] visits the write-set does not show: two
    commits of one cache, in any two orders, leave stores that answer
    every [Get] alike. *)
Theorem Commit_any_order (cache : Cache StateValue Store)
    (order order' : list (string * Write StateValue))
    (flushed flushed' : Store) :
  order ≡ₚ map_to_list (WriteSet cache) ->
  order' ≡ₚ map_to_list (WriteSet cache) ->
  commitIn Serialize order (db cache) = Returns flushed ->
  commitIn Serialize order' (db cache) = Returns flushed' ->
  forall sk, Get flushed sk = Get flushed' sk.
Proof.
  intros Hperm Hperm' Hrun Hrun' sk.
  destruct (commit_contents cache order flushed Hperm Hrun)
    as (Hdel & Hlive & Hother).
  destruct (commit_contents cache order' flushed' Hperm' Hrun')
    as (Hdel' & Hlive' & Hother').
  assert (Hframe : (forall k w, WriteSet cache !! k = Some w ->
                                storeKey (Prefix w) k <> sk) ->
                   Get flushed sk = Get flushed' sk).
  { intros Hno. rewrite (Hother sk Hno), (Hother' sk Hno). reflexivity. }
  destruct sk as [|p k].
  { apply Hframe. intros k w _. discriminate. }
  destruct (WriteSet cache !! k) as [w|] eqn:Hk.
  2:{ apply Hframe. intros k' w' Hk' [= _ ->]. congruence. }
  destruct (decide (Prefix w = p)) as [<-|Hp].
  2:{ apply Hframe. intros k' w' Hk' [= Hp' ->]. congruence. }
  change (String (Prefix w) k) with (storeKey (Prefix w) k).
  destruct (IsDeleted w) eqn:Hd.
  - rewrite (Hdel k w Hk Hd), (Hdel' k w Hk Hd). reflexivity.
  - destruct (Hlive k w Hk Hd) as (item & Hitem & ->).
    destruct (Hlive' k w Hk Hd) as (item' & Hitem' & ->).
    congruence.
Qed.

End Tombstones.

End Facts.

Lemma GetOrAdd_then_TryGet_witness :
  TryGet SampleStore.GetStateValue
    (GetOrAdd SampleStore.GetStateValue SampleStore.ErrDBNotFound
       SampleStore.emptyCache SampleStore.ST_Storage "k" (Some "v")).1
    "q"%char "k"
  = (Some "v", None).
Proof.
  apply (GetOrAdd_then_TryGet SampleStore.GetStateValue
           SampleStore.ErrDBNotFound SampleStore.emptyCache _
           SampleStore.ST_Storage "q"%char "k" (Some "v") (Some "v")).
  reflexivity.
Defined.

Lemma GetOrAdd_first_wins_witness :
  GetOrAdd SampleStore.GetStateValue SampleStore.ErrDBNotFound
    (GetOrAdd SampleStore.GetStateValue SampleStore.ErrDBNotFound
       SampleStore.emptyCache SampleStore.ST_Storage "k" (Some "v")).1
    "q"%char "k" (Some "other")
  = ((GetOrAdd SampleStore.GetStateValue SampleStore.ErrDBNotFound
        SampleStore.emptyCache SampleStore.ST_Storage "k" (Some "v")).1,
     (Some "v", None)).
Proof.
  apply (GetOrAdd_first_wins SampleStore.GetStateValue
           SampleStore.ErrDBNotFound SampleStore.emptyCache _
           SampleStore.ST_Storage "q"%char "k" (Some "v") (Some "other")
           (Some "v")).
  reflexivity.
Defined.

Lemma Commit_returns_iff_witness :
  (liveEntriesHaveItems (WriteSet MoreSamples.stagedCache) <->
   exists flushed,
     commitIn SampleStore.Serialize
       (map_to_list (WriteSet MoreSamples.stagedCache))
       (db MoreSamples.stagedCache) = Returns flushed)
  /\ (~ liveEntriesHaveItems (WriteSet MoreSamples.stagedCache) <->
      commitIn SampleStore.Serialize
        (map_to_list (WriteSet MoreSamples.stagedCache))
        (db MoreSamples.stagedCache) = Panics "nil pointer dereference").
Proof.
  apply (Commit_returns_iff SampleStore.Serialize MoreSamples.stagedCache
           (map_to_list (WriteSet MoreSamples.stagedCache))).
  reflexivity.
Defined.

Lemma GetOrAdd_nil_then_Commit_witness :
  GetOrAdd SampleStore.GetStateValue SampleStore.ErrDBNotFound
    SampleStore.emptyCache SampleStore.ST_Storage "k" None
    = ({| WriteSet :=
            <["k" := {| Prefix := SampleStore.ST_Storage; Key := "k";
                        Item := None; IsDeleted := false |}]>
              (WriteSet SampleStore.emptyCache);
          db := db SampleStore.emptyCache |},
       (None, None))
  /\ Commit SampleStore.Serialize
       (GetOrAdd SampleStore.GetStateValue SampleStore.ErrDBNotFound
          SampleStore.emptyCache SampleStore.ST_Storage "k" None).1
     = Panics "nil pointer dereference".
Proof.
  apply (GetOrAdd_nil_then_Commit SampleStore.Serialize
           SampleStore.GetStateValue SampleStore.ErrDBNotFound
           SampleStore.emptyCache SampleStore.ST_Storage "k");
    reflexivity.
Defined.

Lemma mapStore_delete (s : gmap string string) (k : string) :
  Get (BatchDelete s k) k = Error SampleStore.ErrDBNotFound.
Proof.
  unfold Get, BatchDelete, SampleStore.mapStore.
  rewrite lookup_delete_eq. reflexivity.
Defined.

Lemma Commit_store_contents_witness :
  (forall k w,
     WriteSet MoreSamples.stagedCache !! k = Some w -> IsDeleted w = true ->
     Get ({[ "pk" := "v"; "px" := "kept" ]} : gmap string string)
       (storeKey (Prefix w) k) = Error SampleStore.ErrDBNotFound)
  /\ (forall k w,
        WriteSet MoreSamples.stagedCache !! k = Some w ->
        IsDeleted w = false ->
        exists item,
          Item w = Some item
          /\ Get ({[ "pk" := "v"; "px" := "kept" ]} : gmap string string)
               (storeKey (Prefix w) k) = Ok (SampleStore.Serialize item))
  /\ (forall sk,
        (forall k w, WriteSet MoreSamples.stagedCache !! k = Some w ->
                     storeKey (Prefix w) k <> sk) ->
        Get ({[ "pk" := "v"; "px" := "kept" ]} : gmap string string) sk
        = Get (db MoreSamples.stagedCache) sk).
Proof.
  apply (Commit_store_contents SampleStore.Serialize
           SampleStore.ErrDBNotFound mapStore_delete MoreSamples.stagedCache
           (map_to_list (WriteSet MoreSamples.stagedCache))
           {[ "pk" := "v"; "px" := "kept" ]}).
  - reflexivity.
  - vm_compute. reflexivity.
Defined.

Lemma Commit_any_order_witness :
  Get (BatchDelete
         (BatchPut (db MoreSamples.stagedCache) "pk" "v") "pd") "pd"
  = Get (BatchPut
           (BatchDelete (db MoreSamples.stagedCache) "pd") "pk" "v") "pd".
Proof.
  apply (Commit_any_order SampleStore.Serialize SampleStore.ErrDBNotFound
           mapStore_delete MoreSamples.stagedCache
           [("k", {| Prefix := SampleStore.ST_Storage; Key := "k";
                     Item := Some "v"; IsDeleted := false |});
            ("d", {| Prefix := SampleStore.ST_Storage; Key := "d";
                     Item := Some "old"; IsDeleted := true |})]
           [("d", {| Prefix := SampleStore.ST_Storage; Key := "d";
                     Item := Some "old"; IsDeleted := true |});
            ("k", {| Prefix := SampleStore.ST_Storage; Key := "k";
                     Item := Some "v"; IsDeleted := false |})]).
  - vm_compute. first [reflexivity | apply perm_swap].
  - vm_compute. first [reflexivity | apply perm_swap].
  - reflexivity.
  - reflexivity.
Defined.

End CacheMore.
